(** * The unified check-in form: draft, hydration and save

    A shallow embedding of [components/logging/UnifiedLogScreen.tsx] and of
    [lib/streak.ts].  React state is a record, a setter call is a first-order
    [Setter], and an [async] function is a finite tree of effects ([Async])
    whose [Await] nodes are the suspension points of the source. *)

From stdpp Require Import gmap strings list fin_maps sorting pretty.
From Stdlib Require Import ZArith Lia.

Local Open Scope Z_scope.

(** ** Data model *)

(** [type Mode = 'moment' | 'daily'] *)
Inductive Mode := moment | daily.

#[global] Instance Mode_eq_dec : EqDecision Mode.
Proof. solve_decision. Defined.

Definition Mode_to_string (m : Mode) : string :=
  match m with moment => "moment" | daily => "daily" end.

(** The values of one trigger in the form:
    [{ value: number | null; valueText?: string | null }].
    [None] stands for [null] and, for the optional field, for [undefined]. *)
Module TriggerValue.
Record t := mk { value : option Z; valueText : option string }.
End TriggerValue.

#[global] Instance TriggerValue_eq_dec : EqDecision TriggerValue.t.
Proof. solve_decision. Defined.

(** [lib/trigger-types]: the columns of a trigger that the screen reads.
    [group] is the fourth [input_type] the screen filters on. *)
Inductive InputType := binary | scale | enum | group.

#[global] Instance InputType_eq_dec : EqDecision InputType.
Proof. solve_decision. Defined.

Module Trigger.
Record t := mk { id : string; key : string; label : string; input_type : InputType }.
End Trigger.

#[global] Instance Trigger_eq_dec : EqDecision Trigger.t.
Proof. solve_decision. Defined.

(** [type Draft] *)
Module Draft.
Record t := mk {
  mode : Mode;
  overallSeverity : option Z;
  selectedConditions : list string;
  conditionSeverities : gmap string Z;
  whatDoing : option string;
  notes : string;
  triggerValues : gmap string TriggerValue.t;
  updatedAt : string;
}.
End Draft.

(** The [useState] cells of [UnifiedLogScreen] (the list of the user's
    conditions, which only feeds rendering, is left out). *)
Module Screen.
Record t := mk {
  mode : Mode;
  loading : bool;
  saved : bool;
  overallSeverity : option Z;
  selectedConditions : list string;
  conditionSeverities : gmap string Z;
  whatDoing : string;
  enabledTriggers : list Trigger.t;
  triggerValues : gmap string TriggerValue.t;
  triggersLoading : bool;
  notes : string;
  hydrated : bool;
}.

(** The initial values given to [useState]. *)
Definition initial (initialMode : Mode) : t :=
  mk initialMode false false None [] ∅ "" [] ∅ false "" false.
End Screen.

(** ** Pure derivations of the Form State Store *)

(** [triggerValues[onPeriodTrigger.id]?.value === 1] *)
Definition onPeriodTrigger (enabledTriggers : list Trigger.t) : option Trigger.t :=
  List.find (λ t, bool_decide (Trigger.key t = "on_period")) enabledTriggers.

Definition showPeriodPain (enabledTriggers : list Trigger.t)
    (triggerValues : gmap string TriggerValue.t) : bool :=
  match onPeriodTrigger enabledTriggers with
  | None => false
  | Some t =>
      match triggerValues !! Trigger.id t with
      | None => false
      | Some d => bool_decide (TriggerValue.value d = Some 1)
      end
  end.

Definition filteredTriggers (enabledTriggers : list Trigger.t)
    (triggerValues : gmap string TriggerValue.t) : list Trigger.t :=
  List.filter
    (λ t, if bool_decide (Trigger.key t = "period_pain")
          then showPeriodPain enabledTriggers triggerValues
          else true)
    enabledTriggers.

(** [Math.round(sum / n)] for integers [sum] and [n > 0]: [Math.round]
    rounds to the nearest integer, halves towards +infinity, which on the
    rational [sum / n] is the floor of [(2 sum + n) / (2 n)]. *)
Definition Math_round_div (sum n : Z) : Z := (2 * sum + n) / (2 * n).

(** [selectedConditions.reduce((sum, id) => sum + (conditionSeverities[id] || 0), 0)] *)
Definition severitySum (selectedConditions : list string)
    (conditionSeverities : gmap string Z) : Z :=
  foldl (λ sum id, sum + default 0 (conditionSeverities !! id)) 0 selectedConditions.

Definition avgConditionSeverity (selectedConditions : list string)
    (conditionSeverities : gmap string Z) : option Z :=
  if bool_decide (0 < Z.of_nat (length selectedConditions))
  then Some (Math_round_div (severitySum selectedConditions conditionSeverities)
                            (Z.of_nat (length selectedConditions)))
  else None.

(** [overallSeverity ?? avgConditionSeverity] *)
Definition finalOverallSeverity (overallSeverity : option Z)
    (selectedConditions : list string) (conditionSeverities : gmap string Z) : option Z :=
  match overallSeverity with
  | Some v => Some v
  | None => avgConditionSeverity selectedConditions conditionSeverities
  end.

(** The specification's wording of the same value: the explicit field if
    set, otherwise the round-half-up mean of all the per-condition
    severities that are set, otherwise null. *)
Definition spec_finalOverallSeverity (overallSeverity : option Z)
    (conditionSeverities : gmap string Z) : option Z :=
  match overallSeverity with
  | Some v => Some v
  | None =>
      let set := (map_to_list conditionSeverities).*2 in
      match set with
      | [] => None
      | _ => Some (Math_round_div (foldr Z.add 0 set) (Z.of_nat (length set)))
      end
  end.

(** One element of the [triggerEntries] write-set.  [value] keeps the type
    of the form value it is copied from ([data.value!] is a cast, not a
    check). *)
Module TriggerEntry.
Record t := mk { trigger_id : string; value : option Z; value_text : option string }.
End TriggerEntry.

#[global] Instance TriggerEntry_eq_dec : EqDecision TriggerEntry.t.
Proof. solve_decision. Defined.

(** [s || null] on a string *)
Definition or_null (s : string) : option string :=
  if bool_decide (s = "") then None else Some s.

(** [o || null] on a string that may be null or undefined, as in
    [data.valueText || null] *)
Definition valueText_or_null (o : option string) : option string := o ≫= or_null.

(** [Object.entries(triggerValues).filter(...).map(...)].  The order in which
    [Object.entries] lists the keys is not modelled: the entries are listed
    in the order of [map_to_list]. *)
Definition triggerEntries (triggerValues : gmap string TriggerValue.t)
    : list TriggerEntry.t :=
  (λ e : string * TriggerValue.t,
     TriggerEntry.mk e.1 (TriggerValue.value e.2)
                     (valueText_or_null (TriggerValue.valueText e.2)))
  <$> List.filter (λ e : string * TriggerValue.t,
                     bool_decide (TriggerValue.value e.2 ≠ None))
                  (map_to_list triggerValues).

(** [triggers.filter((t) => t.input_type !== 'group')] *)
Definition leafTriggers (triggers : list Trigger.t) : list Trigger.t :=
  List.filter (λ t, bool_decide (Trigger.input_type t ≠ group)) triggers.

(** The updater passed to [setTriggerValues] by [loadEnabledTriggers]:
    [for (const t of leafTriggers) if (prev[t.id]) next[t.id] = prev[t.id]].
    An entry of the map is an object, hence truthy whenever present. *)
Definition keepEnabledValues (leafTriggers : list Trigger.t)
    (prev : gmap string TriggerValue.t) : gmap string TriggerValue.t :=
  foldl (λ next t,
           match prev !! Trigger.id t with
           | Some d => <[Trigger.id t := d]> next
           | None => next
           end)
        ∅ leafTriggers.

(** ** The relational store (Supabase) and the local draft cache *)

(** What a Supabase call resolves to, [{ data, error }]: an error, or the data. *)
Inductive Response (A : Type) :=
| Failed (error : string)
| Data (data : A).
Arguments Failed {A} error.
Arguments Data {A} data.

(** Rows, with the columns the screen reads or writes. *)
Module DailyLog.
Record t := mk {
  id : string; user_id : string; date : string;
  overall_severity : option Z; notes : option string; updated_at : option string;
}.
End DailyLog.

Module MomentLog.
Record t := mk {
  id : string; user_id : string; date : string;
  overall_severity : option Z; activity : option string; notes : option string;
}.
End MomentLog.

(** A row of [daily_log_conditions] or [moment_log_conditions]; [log_id] is
    the [daily_log_id], respectively [moment_log_id], column. *)
Module ConditionRow.
Record t := mk { log_id : string; user_condition_id : string; severity : option Z }.
End ConditionRow.

(** A row of [daily_log_triggers] or [moment_log_triggers]. *)
Module TriggerRow.
Record t := mk {
  log_id : string; trigger_id : string; value : option Z; value_text : option string;
}.
End TriggerRow.

(** A row of [users], with the streak columns. *)
Module User.
Record t := mk {
  id : string; current_streak : option Z; longest_streak : option Z;
  last_log_date : option string;
}.
End User.

(** A row of [user_triggers] together with the row of [triggers] that the
    select joins to it under the name [trigger]. *)
Module UserTrigger.
Record t := mk { user_id : string; enabled : bool; sort_order : Z; trigger : Trigger.t }.
End UserTrigger.

#[global] Instance DailyLog_eq_dec : EqDecision DailyLog.t.
Proof. solve_decision. Defined.
#[global] Instance MomentLog_eq_dec : EqDecision MomentLog.t.
Proof. solve_decision. Defined.
#[global] Instance ConditionRow_eq_dec : EqDecision ConditionRow.t.
Proof. solve_decision. Defined.
#[global] Instance TriggerRow_eq_dec : EqDecision TriggerRow.t.
Proof. solve_decision. Defined.

Module DB.
Record t := mk {
  daily_logs : list DailyLog.t;
  daily_log_conditions : list ConditionRow.t;
  daily_log_triggers : list TriggerRow.t;
  moment_logs : list MomentLog.t;
  moment_log_conditions : list ConditionRow.t;
  moment_log_triggers : list TriggerRow.t;
  users : list User.t;
  user_triggers : list UserTrigger.t;
  (** the number of primary keys generated so far *)
  generated : nat;
}.

Definition empty : t := mk [] [] [] [] [] [] [] [] 0.
End DB.

(** The primary key the store generates for its [n]-th inserted log. *)
Definition generated_id (n : nat) : string := "log-" +:+ pretty (N.of_nat n).

(** The calls the screen awaits, indexed by what they resolve to. *)
Inductive Request : Type → Type :=
(* AsyncStorage *)
| getItem (key : string) : Request (option string)
| setItem (key raw : string) : Request unit
| removeItem (key : string) : Request unit
(* from('daily_logs'): select ... maybeSingle, update, insert ... single *)
| select_daily_log (user_id date : string) : Request (Response (option DailyLog.t))
| update_daily_log (id : string) (overall_severity : option Z) (notes : option string)
    (updated_at : string) : Request (Response unit)
| insert_daily_log (user_id date : string) (overall_severity : option Z)
    (notes : option string) : Request (Response DailyLog.t)
(* from('daily_log_conditions'), from('daily_log_triggers') *)
| select_daily_log_conditions (daily_log_id : string) : Request (Response (list ConditionRow.t))
| select_daily_log_triggers (daily_log_id : string) : Request (Response (list TriggerRow.t))
| delete_daily_log_conditions (daily_log_id : string) : Request (Response unit)
| delete_daily_log_triggers (daily_log_id : string) : Request (Response unit)
| insert_daily_log_conditions (rows : list ConditionRow.t) : Request (Response unit)
| insert_daily_log_triggers (rows : list TriggerRow.t) : Request (Response unit)
(* from('moment_logs') and its children *)
| insert_moment_log (user_id date : string) (overall_severity : option Z)
    (activity notes : option string) : Request (Response MomentLog.t)
| insert_moment_log_conditions (rows : list ConditionRow.t) : Request (Response unit)
| insert_moment_log_triggers (rows : list TriggerRow.t) : Request (Response unit)
(* from('users'), used by updateStreak *)
| select_user (id : string) : Request (Response (option User.t))
| update_user (id : string) (current_streak longest_streak : Z) (last_log_date : string)
    : Request (Response unit)
(* from('user_triggers') *)
| select_user_triggers (user_id : string) : Request (Response (list Trigger.t)).

(** The table a call addresses, for the log of calls. *)
Inductive Table :=
| AsyncStorage | daily_logs | daily_log_conditions | daily_log_triggers
| moment_logs | moment_log_conditions | moment_log_triggers | users | user_triggers.

Inductive Verb := Select | Insert | Update | Delete.

#[global] Instance Table_eq_dec : EqDecision Table.
Proof. solve_decision. Defined.
#[global] Instance Verb_eq_dec : EqDecision Verb.
Proof. solve_decision. Defined.

Definition describe {R} (q : Request R) : Table * Verb :=
  match q with
  | getItem _ => (AsyncStorage, Select)
  | setItem _ _ => (AsyncStorage, Update)
  | removeItem _ => (AsyncStorage, Delete)
  | select_daily_log _ _ => (daily_logs, Select)
  | update_daily_log _ _ _ _ => (daily_logs, Update)
  | insert_daily_log _ _ _ _ => (daily_logs, Insert)
  | select_daily_log_conditions _ => (daily_log_conditions, Select)
  | select_daily_log_triggers _ => (daily_log_triggers, Select)
  | delete_daily_log_conditions _ => (daily_log_conditions, Delete)
  | delete_daily_log_triggers _ => (daily_log_triggers, Delete)
  | insert_daily_log_conditions _ => (daily_log_conditions, Insert)
  | insert_daily_log_triggers _ => (daily_log_triggers, Insert)
  | insert_moment_log _ _ _ _ _ => (moment_logs, Insert)
  | insert_moment_log_conditions _ => (moment_log_conditions, Insert)
  | insert_moment_log_triggers _ => (moment_log_triggers, Insert)
  | select_user _ => (users, Select)
  | update_user _ _ _ _ => (users, Update)
  | select_user_triggers _ => (user_triggers, Select)
  end.

(** [.maybeSingle()]: no row gives [null], one row gives the row, several
    rows are an error. *)
Definition maybeSingle {A} (rows : list A) : Response (option A) :=
  match rows with
  | [] => Data None
  | [r] => Data (Some r)
  | _ => Failed "JSON object requested, multiple (or no) rows returned"
  end.

Definition set_daily_log (id : string) (overall_severity : option Z)
    (notes : option string) (updated_at : string) (r : DailyLog.t) : DailyLog.t :=
  if bool_decide (DailyLog.id r = id)
  then DailyLog.mk (DailyLog.id r) (DailyLog.user_id r) (DailyLog.date r)
                   overall_severity notes (Some updated_at)
  else r.

Definition set_user (id : string) (current_streak longest_streak : Z)
    (last_log_date : string) (u : User.t) : User.t :=
  if bool_decide (User.id u = id)
  then User.mk (User.id u) (Some current_streak) (Some longest_streak) (Some last_log_date)
  else u.

Definition by_sort_order (a b : UserTrigger.t) : Prop :=
  UserTrigger.sort_order a ≤ UserTrigger.sort_order b.

#[global] Instance by_sort_order_dec : RelDecision by_sort_order.
Proof. intros a b. unfold by_sort_order. apply _. Defined.

(** The enabled triggers of a user, [.eq('enabled', true).order('sort_order')]. *)
Definition enabled_triggers_of (user_id : string) (rows : list UserTrigger.t)
    : list Trigger.t :=
  UserTrigger.trigger <$>
    merge_sort by_sort_order
      (List.filter (λ ut, bool_decide (UserTrigger.user_id ut = user_id)
                          && UserTrigger.enabled ut) rows).

(** What a call that the store accepts does to the draft cache and to the
    tables, and what it resolves to. *)
Definition perform {R} (q : Request R) (storage : gmap string string) (db : DB.t)
    : R * gmap string string * DB.t :=
  let '(DB.mk dl dlc dlt ml mlc mlt us ut n) := db in
  match q in Request R return R * gmap string string * DB.t with
  | getItem key => (storage !! key, storage, db)
  | setItem key raw => (tt, <[key := raw]> storage, db)
  | removeItem key => (tt, delete key storage, db)
  | select_daily_log user_id date =>
      (maybeSingle (List.filter (λ r, bool_decide (DailyLog.user_id r = user_id)
                                      && bool_decide (DailyLog.date r = date)) dl),
       storage, db)
  | update_daily_log id sev notes updated_at =>
      (Data tt, storage,
       DB.mk (set_daily_log id sev notes updated_at <$> dl) dlc dlt ml mlc mlt us ut n)
  | insert_daily_log user_id date sev notes =>
      let row := DailyLog.mk (generated_id n) user_id date sev notes None in
      (Data row, storage, DB.mk (dl ++ [row]) dlc dlt ml mlc mlt us ut (S n))
  | select_daily_log_conditions id =>
      (Data (List.filter (λ r, bool_decide (ConditionRow.log_id r = id)) dlc), storage, db)
  | select_daily_log_triggers id =>
      (Data (List.filter (λ r, bool_decide (TriggerRow.log_id r = id)) dlt), storage, db)
  | delete_daily_log_conditions id =>
      (Data tt, storage,
       DB.mk dl (List.filter (λ r, bool_decide (ConditionRow.log_id r ≠ id)) dlc)
             dlt ml mlc mlt us ut n)
  | delete_daily_log_triggers id =>
      (Data tt, storage,
       DB.mk dl dlc (List.filter (λ r, bool_decide (TriggerRow.log_id r ≠ id)) dlt)
             ml mlc mlt us ut n)
  | insert_daily_log_conditions rows =>
      (Data tt, storage, DB.mk dl (dlc ++ rows) dlt ml mlc mlt us ut n)
  | insert_daily_log_triggers rows =>
      (Data tt, storage, DB.mk dl dlc (dlt ++ rows) ml mlc mlt us ut n)
  | insert_moment_log user_id date sev activity notes =>
      let row := MomentLog.mk (generated_id n) user_id date sev activity notes in
      (Data row, storage, DB.mk dl dlc dlt (ml ++ [row]) mlc mlt us ut (S n))
  | insert_moment_log_conditions rows =>
      (Data tt, storage, DB.mk dl dlc dlt ml (mlc ++ rows) mlt us ut n)
  | insert_moment_log_triggers rows =>
      (Data tt, storage, DB.mk dl dlc dlt ml mlc (mlt ++ rows) us ut n)
  | select_user id =>
      (maybeSingle (List.filter (λ u, bool_decide (User.id u = id)) us), storage, db)
  | update_user id cur longest last =>
      (Data tt, storage,
       DB.mk dl dlc dlt ml mlc mlt (set_user id cur longest last <$> us) ut n)
  | select_user_triggers user_id => (Data (enabled_triggers_of user_id ut), storage, db)
  end.

(** What a call resolves to when the store rejects it with the error
    [fault], if it does: the error, with nothing changed.  The draft cache is
    local and is not made to fail: a run is a run in which AsyncStorage
    accepts every call.  Where the source awaits the cache outside any [try]
    (the read in [loadDraft], awaited by the hydration pass), a rejected call
    ends the function at that await, which is the state [suspended] gives. *)
Definition rejected {R} (q : Request R) (fault : option string) : option R :=
  match q in Request R return option R with
  | getItem _ | setItem _ _ | removeItem _ => None
  | select_daily_log _ _ => Failed <$> fault
  | update_daily_log _ _ _ _ => Failed <$> fault
  | insert_daily_log _ _ _ _ => Failed <$> fault
  | select_daily_log_conditions _ => Failed <$> fault
  | select_daily_log_triggers _ => Failed <$> fault
  | delete_daily_log_conditions _ => Failed <$> fault
  | delete_daily_log_triggers _ => Failed <$> fault
  | insert_daily_log_conditions _ => Failed <$> fault
  | insert_daily_log_triggers _ => Failed <$> fault
  | insert_moment_log _ _ _ _ _ => Failed <$> fault
  | insert_moment_log_conditions _ => Failed <$> fault
  | insert_moment_log_triggers _ => Failed <$> fault
  | select_user _ => Failed <$> fault
  | update_user _ _ _ _ => Failed <$> fault
  | select_user_triggers _ => Failed <$> fault
  end.

(** ** React state writes *)

(** A call of one of the [useState] setters.  [setTriggerValuesWith f] is the
    functional form [setTriggerValues((prev) => f(prev))]. *)
Inductive Setter :=
| setMode (m : Mode)
| setLoading (b : bool)
| setSaved (b : bool)
| setOverallSeverity (v : option Z)
| setSelectedConditions (ids : list string)
| setConditionSeverities (m : gmap string Z)
| setWhatDoing (s : string)
| setEnabledTriggers (ts : list Trigger.t)
| setTriggerValues (m : gmap string TriggerValue.t)
| setTriggerValuesWith (f : gmap string TriggerValue.t → gmap string TriggerValue.t)
| setTriggersLoading (b : bool)
| setNotes (s : string)
| setHydrated (b : bool).

Definition apply_setter (u : Setter) (s : Screen.t) : Screen.t :=
  let '(Screen.mk mode loading saved sev sel csev doing trigs tv tl notes hyd) := s in
  match u with
  | setMode m => Screen.mk m loading saved sev sel csev doing trigs tv tl notes hyd
  | setLoading b => Screen.mk mode b saved sev sel csev doing trigs tv tl notes hyd
  | setSaved b => Screen.mk mode loading b sev sel csev doing trigs tv tl notes hyd
  | setOverallSeverity v => Screen.mk mode loading saved v sel csev doing trigs tv tl notes hyd
  | setSelectedConditions l =>
      Screen.mk mode loading saved sev l csev doing trigs tv tl notes hyd
  | setConditionSeverities m =>
      Screen.mk mode loading saved sev sel m doing trigs tv tl notes hyd
  | setWhatDoing x => Screen.mk mode loading saved sev sel csev x trigs tv tl notes hyd
  | setEnabledTriggers l => Screen.mk mode loading saved sev sel csev doing l tv tl notes hyd
  | setTriggerValues m => Screen.mk mode loading saved sev sel csev doing trigs m tl notes hyd
  | setTriggerValuesWith f =>
      Screen.mk mode loading saved sev sel csev doing trigs (f tv) tl notes hyd
  | setTriggersLoading b => Screen.mk mode loading saved sev sel csev doing trigs tv b notes hyd
  | setNotes x => Screen.mk mode loading saved sev sel csev doing trigs tv tl x hyd
  | setHydrated b => Screen.mk mode loading saved sev sel csev doing trigs tv tl notes b
  end.

(** Whether a setter writes one of the fields of the form (the Form State
    Store), as opposed to the flags around it. *)
Definition writes_form_field (u : Setter) : bool :=
  match u with
  | setOverallSeverity _ | setSelectedConditions _ | setConditionSeverities _
  | setWhatDoing _ | setTriggerValues _ | setTriggerValuesWith _ | setNotes _ => true
  | _ => false
  end.

(** ** Asynchronous functions as effect trees *)

Inductive Async (A : Type) : Type :=
| Ret (a : A)
| Throw (error : string)
| SetState (u : Setter) (k : Async A)
(** a read of the [cancelled] variable captured by the hydration closure *)
| ReadCancelled (k : bool → Async A)
| ConsoleError (message : string) (k : Async A)
| Alert (title message : string) (k : Async A)
| RouterReplace (href : string) (k : Async A)
(** [await q]: the function is suspended until the call resolves *)
| Await {R : Type} (q : Request R) (k : R → Async A).
Arguments Ret {A} a.
Arguments Throw {A} error.
Arguments SetState {A} u k.
Arguments ReadCancelled {A} k.
Arguments ConsoleError {A} message k.
Arguments Alert {A} title message k.
Arguments RouterReplace {A} href k.
Arguments Await {A R} q k.

Fixpoint Async_bind {A B} (f : A → Async B) (t : Async A) : Async B :=
  match t with
  | Ret a => f a
  | Throw e => Throw e
  | SetState u k => SetState u (Async_bind f k)
  | ReadCancelled k => ReadCancelled (λ c, Async_bind f (k c))
  | ConsoleError m k => ConsoleError m (Async_bind f k)
  | Alert a m k => Alert a m (Async_bind f k)
  | RouterReplace h k => RouterReplace h (Async_bind f k)
  | Await q k => Await q (λ r, Async_bind f (k r))
  end.

(** Sequencing, with the awaited function first so that the type of its
    result is known to the continuation. *)
Definition Async_then {A B} (t : Async A) (f : A → Async B) : Async B := Async_bind f t.

Declare Scope async_scope.
Delimit Scope async_scope with async.
Notation "x ← y ; z" := (Async_then y (λ x, z))
  (at level 20, y at level 100, z at level 200, only parsing) : async_scope.
Notation "x ;; z" := (Async_then x (λ _, z))
  (at level 100, z at level 200, only parsing, right associativity) : async_scope.
Local Open Scope async_scope.

(** [try { t } catch (e) { handler(e) }] *)
Fixpoint try_catch {A} (t : Async A) (handler : string → Async A) : Async A :=
  match t with
  | Ret a => Ret a
  | Throw e => handler e
  | SetState u k => SetState u (try_catch k handler)
  | ReadCancelled k => ReadCancelled (λ c, try_catch (k c) handler)
  | ConsoleError m k => ConsoleError m (try_catch k handler)
  | Alert a m k => Alert a m (try_catch k handler)
  | RouterReplace h k => RouterReplace h (try_catch k handler)
  | Await q k => Await q (λ r, try_catch (k r) handler)
  end.

(** [try { t } finally { cleanup }] *)
Fixpoint try_finally {A} (t : Async A) (cleanup : Async unit) : Async A :=
  match t with
  | Ret a => Async_bind (λ _, Ret a) cleanup
  | Throw e => Async_bind (λ _, Throw e) cleanup
  | SetState u k => SetState u (try_finally k cleanup)
  | ReadCancelled k => ReadCancelled (λ c, try_finally (k c) cleanup)
  | ConsoleError m k => ConsoleError m (try_finally k cleanup)
  | Alert a m k => Alert a m (try_finally k cleanup)
  | RouterReplace h k => RouterReplace h (try_finally k cleanup)
  | Await q k => Await q (λ r, try_finally (k r) cleanup)
  end.

Definition set (u : Setter) : Async unit := SetState u (Ret tt).
Definition readCancelled : Async bool := ReadCancelled Ret.
Definition call {R} (q : Request R) : Async R := Await q Ret.

(** [const { data, error } = await q; if (error) throw error;] *)
Definition check {A} (q : Request (Response A)) : Async A :=
  r ← call q;
  match r with
  | Failed e => Throw e
  | Data a => Ret a
  end.

(** ** Running an asynchronous function *)

Definition is_Failed {A} (r : Response A) : bool :=
  match r with Failed _ => true | Data _ => false end.

(** Whether the call [q] resolved to an error. *)
Definition resolved_to_error {R} (q : Request R) : R → bool :=
  match q in Request R return R → bool with
  | getItem _ => λ _, false
  | setItem _ _ => λ _, false
  | removeItem _ => λ _, false
  | select_daily_log _ _ => is_Failed
  | update_daily_log _ _ _ _ => is_Failed
  | insert_daily_log _ _ _ _ => is_Failed
  | select_daily_log_conditions _ => is_Failed
  | select_daily_log_triggers _ => is_Failed
  | delete_daily_log_conditions _ => is_Failed
  | delete_daily_log_triggers _ => is_Failed
  | insert_daily_log_conditions _ => is_Failed
  | insert_daily_log_triggers _ => is_Failed
  | insert_moment_log _ _ _ _ _ => is_Failed
  | insert_moment_log_conditions _ => is_Failed
  | insert_moment_log_triggers _ => is_Failed
  | select_user _ => is_Failed
  | update_user _ _ _ _ => is_Failed
  | select_user_triggers _ => is_Failed
  end.

(** One awaited call, as logged: the table, the verb, and whether it
    resolved to an error. *)
Record Call := { table : Table; verb : Verb; failed : bool }.

Definition log_call {R} (q : Request R) (r : R) : Call :=
  {| table := (describe q).1; verb := (describe q).2; failed := resolved_to_error q r |}.

(** What the environment decides during a run: which awaited call (counted
    from 0) the store rejects and with which error, and during which awaited
    call, if any, the effect cleanup sets [cancelled = true]. *)
Record Schedule := { fault : nat → option string; cancel_at : option nat }.

Definition no_fault : nat → option string := λ _, None.
Definition undisturbed : Schedule := {| fault := no_fault; cancel_at := None |}.

(** The value of [cancelled] once [n] awaited calls have resolved. *)
Definition cancelled_after (sch : Schedule) (n : nat) : bool :=
  match cancel_at sch with
  | Some c => bool_decide (c < n)%nat
  | None => false
  end.

Module Env.
Record t := mk {
  screen : Screen.t;
  storage : gmap string string;
  db : DB.t;
  console : list string;
  alerts : list (string * string);
  routes : list string;
  (** the awaited calls so far *)
  calls : list Call;
  (** the setter calls so far, each with the value [cancelled] had *)
  sets : list (bool * Setter);
  (** the state at each suspension point so far: the updates of one
      synchronous stretch are batched into one render *)
  renders : list Screen.t;
}.

Definition start (s : Screen.t) (storage : gmap string string) (db : DB.t) : t :=
  mk s storage db [] [] [] [] [] [].
End Env.

Inductive Outcome (A : Type) :=
| Returned (a : A)
| Threw (error : string).
Arguments Returned {A} a.
Arguments Threw {A} error.

Fixpoint exec {A} (sch : Schedule) (t : Async A) (e : Env.t) : Outcome A * Env.t :=
  let '(Env.mk s st db con al ro cs ss rs) := e in
  match t with
  | Ret a => (Returned a, e)
  | Throw err => (Threw err, e)
  | SetState u k =>
      exec sch k (Env.mk (apply_setter u s) st db con al ro cs
                         (ss ++ [(cancelled_after sch (length cs), u)]) rs)
  | ReadCancelled k => exec sch (k (cancelled_after sch (length cs))) e
  | ConsoleError m k => exec sch k (Env.mk s st db (con ++ [m]) al ro cs ss rs)
  | Alert a m k => exec sch k (Env.mk s st db con (al ++ [(a, m)]) ro cs ss rs)
  | RouterReplace h k => exec sch k (Env.mk s st db con al (ro ++ [h]) cs ss rs)
  | Await q k =>
      let '(r, st', db') :=
        match rejected q (fault sch (length cs)) with
        | Some r => (r, st, db)
        | None => perform q st db
        end in
      exec sch (k r) (Env.mk s st' db' con al ro (cs ++ [log_call q r]) ss (rs ++ [s]))
  end.

(** ** The host environment *)

(** What the screen calls but does not define: JSON and the clock. *)
Class Host := {
  (** [JSON.parse(raw) as Draft]: [None] when it throws or yields a falsy
      value; any other value is taken to have the shape of a [Draft], as the
      cast in the source does *)
  JSON_parse : string → option Draft.t;
  JSON_stringify : Draft.t → string;
  (** [new Date().toISOString()] *)
  Date_now_iso : string;
  (** [new Date().toISOString().split('T')[0]] *)
  Date_now_utc_day : string;
  (** [new Date(a).toDateString() === new Date(b).toDateString()] *)
  Date_same_day : string → string → bool;
  (** the same comparison, with one day subtracted from [b] by [setDate] *)
  Date_day_before : string → string → bool;
}.

(** [userId] as the guards [if (!userId) return] see it: a missing user and
    an empty id are both falsy. *)
Definition signedIn (userId : option string) : option string :=
  match userId with
  | Some id => if bool_decide (id = "") then None else Some id
  | None => None
  end.

(** [`unifiedLogDraft:${userId ?? 'anon'}:${today}:${mode}`] *)
Definition draftKey (userId : option string) (today : string) (mode : Mode) : string :=
  "unifiedLogDraft:" +:+ default "anon" userId +:+ ":" +:+ today +:+ ":"
    +:+ Mode_to_string mode.

(** ** The screen's functions *)

Section UnifiedLogScreen.
Context `{Host}.
Local Open Scope async_scope.

(** The props and memoised values every closure of the component captures:
    the signed-in user and [today = getLocalISODate()], computed once. *)
Variable userId : option string.
Variable today : string.

Definition saveDraft (s : Screen.t) : Async unit :=
  match signedIn userId with
  | None => Ret tt
  | Some _ =>
      let draft :=
        Draft.mk (Screen.mode s) (Screen.overallSeverity s) (Screen.selectedConditions s)
                 (Screen.conditionSeverities s)
                 (match Screen.mode s with
                  | moment => Some (Screen.whatDoing s)
                  | daily => None
                  end)
                 (Screen.notes s) (Screen.triggerValues s) Date_now_iso in
      call (setItem (draftKey userId today (Screen.mode s)) (JSON_stringify draft))
  end.

Definition loadDraft (mode : Mode) : Async (option Draft.t) :=
  match signedIn userId with
  | None => Ret None
  | Some _ =>
      raw ← call (getItem (draftKey userId today mode));
      match raw with
      | None => Ret None
      | Some raw => if bool_decide (raw = "") then Ret None else Ret (JSON_parse raw)
      end
  end.

Definition clearDraft (mode : Mode) : Async unit :=
  match signedIn userId with
  | None => Ret tt
  | Some _ => call (removeItem (draftKey userId today mode))
  end.

Definition loadEnabledTriggers : Async unit :=
  match signedIn userId with
  | None => Ret tt
  | Some uid =>
      set (setTriggersLoading true);;
      try_finally
        (try_catch
           (triggers ← check (select_user_triggers uid);
            let leaf := leafTriggers triggers in
            set (setEnabledTriggers leaf);;
            set (setTriggerValuesWith (keepEnabledValues leaf)))
           (λ e, ConsoleError ("Error loading enabled triggers: " +:+ e) (Ret tt)))
        (set (setTriggersLoading false))
  end.

Definition resetForm : Async unit :=
  set (setOverallSeverity None);;
  set (setSelectedConditions []);;
  set (setConditionSeverities ∅);;
  set (setWhatDoing "");;
  set (setNotes "");;
  set (setTriggerValues ∅).

(** [severities[row.user_condition_id] = row.severity] for the rows whose
    severity is neither null nor undefined *)
Definition severities_of (dc : list ConditionRow.t) : gmap string Z :=
  foldl (λ severities row,
           match ConditionRow.severity row with
           | Some v => <[ConditionRow.user_condition_id row := v]> severities
           | None => severities
           end) ∅ dc.

(** [nextTV[row.trigger_id] = { value: row.value, valueText: row.value_text }] *)
Definition trigger_values_of (dt : list TriggerRow.t) : gmap string TriggerValue.t :=
  foldl (λ nextTV row,
           <[TriggerRow.trigger_id row :=
               TriggerValue.mk (TriggerRow.value row) (TriggerRow.value_text row)]> nextTV)
        ∅ dt.

(** The body of the hydration effect, for the [mode] its closure captured. *)
Definition hydrate (mode : Mode) : Async unit :=
  match signedIn userId with
  | None => Ret tt
  | Some uid =>
      set (setHydrated false);;
      resetForm;;
      (* 1) draft wins *)
      draft ← loadDraft mode;
      cancelled ← readCancelled;
      match (if cancelled then None else draft) with
      | Some draft =>
          set (setOverallSeverity (Draft.overallSeverity draft));;
          set (setSelectedConditions (Draft.selectedConditions draft));;
          set (setConditionSeverities (Draft.conditionSeverities draft));;
          set (setWhatDoing (match Draft.mode draft with
                             | moment => default "" (Draft.whatDoing draft)
                             | daily => ""
                             end));;
          set (setNotes (Draft.notes draft));;
          set (setTriggerValues (Draft.triggerValues draft));;
          set (setHydrated true)
      | None =>
          (* 2) no draft and daily mode: autofill from today's row *)
          match mode with
          | daily =>
              set (setWhatDoing "");;
              try_catch
                (row ← check (select_daily_log uid today);
                 cancelled ← readCancelled;
                 (* if (!cancelled && daily?.id) *)
                 match (if cancelled then None else row) with
                 | None => Ret tt
                 | Some row =>
                     if bool_decide (DailyLog.id row = "") then Ret tt
                     else
                       set (setOverallSeverity (DailyLog.overall_severity row));;
                       set (setNotes (default "" (DailyLog.notes row)));;
                       dc ← check (select_daily_log_conditions (DailyLog.id row));
                       set (setSelectedConditions (ConditionRow.user_condition_id <$> dc));;
                       set (setConditionSeverities (severities_of dc));;
                       dt ← check (select_daily_log_triggers (DailyLog.id row));
                       set (setTriggerValues (trigger_values_of dt))
                 end)
                (λ e, ConsoleError ("[UnifiedLogScreen] hydrate daily from DB failed " +:+ e)
                                   (Ret tt))
          | moment => Ret tt
          end;;
          cancelled ← readCancelled;
          if cancelled then Ret tt else set (setHydrated true)
      end
  end.

(** The autosave effect, run after a render in which one of its
    dependencies changed. *)
Definition autosaveEffect (s : Screen.t) : Async unit :=
  match signedIn userId with
  | None => Ret tt
  | Some _ =>
      if negb (Screen.hydrated s) then Ret tt
      else if Screen.saved s then Ret tt
      else try_catch (saveDraft s)
             (λ e, ConsoleError ("[UnifiedLogScreen] saveDraft failed " +:+ e) (Ret tt))
  end.

(** The dependency array of the autosave effect ([userId] and [saveDraft]
    change only with the other entries). *)
Definition autosaveDeps (s : Screen.t) :=
  (Screen.hydrated s, Screen.saved s, Screen.mode s, Screen.overallSeverity s,
   Screen.selectedConditions s, Screen.conditionSeverities s, Screen.whatDoing s,
   Screen.notes s, Screen.triggerValues s).

(** The draft write that rendering [next] after [prev] initiates: the
    effect runs when a dependency changed, and a write is initiated when its
    body reaches [AsyncStorage.setItem].  The dependencies are compared by
    their contents; React compares arrays and objects by identity, so a
    setter call that stores an equal but new array or object runs the effect
    in the code where this gives [None]: [None] may under-report a write
    between two renders with the same contents, [Some] does not over-report. *)
Definition autosaveWrite (prev next : Screen.t) : option (string * string) :=
  if bool_decide (autosaveDeps prev = autosaveDeps next) then None
  else match autosaveEffect next with
       | Await (setItem key raw) _ => Some (key, raw)
       | _ => None
       end.

Definition handleCancel (s : Screen.t) : Async unit :=
  try_finally (saveDraft s) (RouterReplace "/(tabs)/dashboard" (Ret tt)).

(** [lib/streak.ts] *)
Definition updateStreak (userId : string) (logDate : option string) : Async (Z * Z) :=
  let dateToUse := default Date_now_utc_day (valueText_or_null logDate) in
  user ← check (select_user userId);
  let lastLog := valueText_or_null (from_option User.last_log_date None user) in
  let current_streak := default 0 (from_option User.current_streak None user) in
  let newCurrentStreak :=
    match lastLog with
    | None => 1
    | Some lastLog =>
        if Date_day_before lastLog dateToUse then current_streak + 1
        else if negb (Date_same_day lastLog dateToUse) then 1
        else if bool_decide (current_streak = 0) then 1 else current_streak
    end in
  let newLongestStreak :=
    Z.max newCurrentStreak (default 0 (from_option User.longest_streak None user)) in
  check (update_user userId newCurrentStreak newLongestStreak dateToUse);;
  Ret (newCurrentStreak, newLongestStreak).

(** The rows [handleSave] inserts for the children of the log [log_id]. *)
Definition condition_rows (log_id : string) (s : Screen.t) : list ConditionRow.t :=
  (λ user_condition_id,
     ConditionRow.mk log_id user_condition_id
                     (Screen.conditionSeverities s !! user_condition_id))
  <$> Screen.selectedConditions s.

Definition trigger_rows (log_id : string) (entries : list TriggerEntry.t)
    : list TriggerRow.t :=
  (λ t, TriggerRow.mk log_id (TriggerEntry.trigger_id t) (TriggerEntry.value t)
                      (TriggerEntry.value_text t))
  <$> entries.

(** [handleSave], for the state [s] its closure captured. *)
Definition handleSave (s : Screen.t) : Async unit :=
  match signedIn userId with
  | None => Ret tt
  | Some uid =>
      set (setLoading true);;
      try_finally
        (try_catch
           (let nowIso := Date_now_iso in
            let finalOverallSeverity :=
              finalOverallSeverity (Screen.overallSeverity s) (Screen.selectedConditions s)
                                   (Screen.conditionSeverities s) in
            let triggerEntries := triggerEntries (Screen.triggerValues s) in
            match Screen.mode s with
            | daily =>
                existing ← check (select_daily_log uid today);
                dailyLogId ←
                  match existing with
                  | Some existing =>
                      check (update_daily_log (DailyLog.id existing) finalOverallSeverity
                                              (or_null (Screen.notes s)) nowIso);;
                      check (delete_daily_log_conditions (DailyLog.id existing));;
                      check (delete_daily_log_triggers (DailyLog.id existing));;
                      Ret (DailyLog.id existing)
                  | None =>
                      created ← check (insert_daily_log uid today finalOverallSeverity
                                                        (or_null (Screen.notes s)));
                      Ret (DailyLog.id created)
                  end;
                (if bool_decide (0 < length (Screen.selectedConditions s))%nat
                 then check (insert_daily_log_conditions (condition_rows dailyLogId s))
                 else Ret tt);;
                (if bool_decide (0 < length triggerEntries)%nat
                 then check (insert_daily_log_triggers (trigger_rows dailyLogId triggerEntries))
                 else Ret tt);;
                updateStreak uid None;;
                (* only reset draft/data after a successful save *)
                clearDraft (Screen.mode s);;
                resetForm;;
                set (setSaved true)
            | moment =>
                created ← check (insert_moment_log uid today finalOverallSeverity
                                                   (or_null (Screen.whatDoing s))
                                                   (or_null (Screen.notes s)));
                let momentId := MomentLog.id created in
                (if bool_decide (0 < length (Screen.selectedConditions s))%nat
                 then check (insert_moment_log_conditions (condition_rows momentId s))
                 else Ret tt);;
                (if bool_decide (0 < length triggerEntries)%nat
                 then check (insert_moment_log_triggers (trigger_rows momentId triggerEntries))
                 else Ret tt);;
                updateStreak uid None;;
                clearDraft (Screen.mode s);;
                resetForm;;
                set (setSaved true)
            end)
           (λ e, ConsoleError ("[UnifiedLogScreen] save failed " +:+ e)
                   (Alert "Save failed"
                          (if bool_decide (e = "") then "Check console logs." else e)
                          (Ret tt))))
        (set (setLoading false))
  end.

(** The mode pills: [onPress] of "Quick" and of "Daily". *)
Definition pressMode (m : Mode) : Async unit :=
  match m with
  | moment => set (setHydrated false);; set (setMode moment)
  | daily => set (setHydrated false);; set (setWhatDoing "");; set (setMode daily)
  end.

(** The button of the "Saved" overlay. *)
Definition pressBackToDashboard : Async unit :=
  set (setSaved false);; RouterReplace "/(tabs)/dashboard" (Ret tt).

End UnifiedLogScreen.

(** ** Runs *)

(** The environment a function leaves behind when it is started in the
    state [s], with the given draft cache and tables. *)
Definition run {A} (sch : Schedule) (t : Async A) (s : Screen.t)
    (storage : gmap string string) (db : DB.t) : Env.t :=
  (exec sch t (Env.start s storage db)).2.

(** [t] run until it stands at an [await] with [n] of its awaited calls
    resolved: what is left of it, and the environment at that point. *)
Fixpoint suspended {A} (sch : Schedule) (n : nat) (t : Async A) (e : Env.t)
    : Async A * Env.t :=
  let '(Env.mk s st db con al ro cs ss rs) := e in
  match t with
  | Ret _ | Throw _ => (t, e)
  | SetState u k =>
      suspended sch n k (Env.mk (apply_setter u s) st db con al ro cs
                                (ss ++ [(cancelled_after sch (length cs), u)]) rs)
  | ReadCancelled k => suspended sch n (k (cancelled_after sch (length cs))) e
  | ConsoleError m k => suspended sch n k (Env.mk s st db (con ++ [m]) al ro cs ss rs)
  | Alert a m k => suspended sch n k (Env.mk s st db con (al ++ [(a, m)]) ro cs ss rs)
  | RouterReplace h k => suspended sch n k (Env.mk s st db con al (ro ++ [h]) cs ss rs)
  | Await q k =>
      match n with
      | O => (t, e)
      | S n' =>
          let '(r, st', db') :=
            match rejected q (fault sch (length cs)) with
            | Some r => (r, st, db)
            | None => perform q st db
            end in
          suspended sch n' (k r)
                    (Env.mk s st' db' con al ro (cs ++ [log_call q r]) ss (rs ++ [s]))
      end
  end.

(** [triggerValues[onPeriodTrigger.id]?.value]: the current value of the
    enabled trigger keyed on_period, if there is one and it has a value. *)
Definition onPeriodValue (enabledTriggers : list Trigger.t)
    (triggerValues : gmap string TriggerValue.t) : option Z :=
  match onPeriodTrigger enabledTriggers with
  | None => None
  | Some t =>
      match triggerValues !! Trigger.id t with
      | None => None
      | Some d => TriggerValue.value d
      end
  end.

(** The tables that hold check-ins, as opposed to [users] and [user_triggers]. *)
Definition check_in_tables (db : DB.t) :=
  (DB.daily_logs db, DB.daily_log_conditions db, DB.daily_log_triggers db,
   DB.moment_logs db, DB.moment_log_conditions db, DB.moment_log_triggers db).

(** The rows of a child table that belong to the log [log_id], and the others. *)
Definition conditions_of (log_id : string) (rows : list ConditionRow.t) :=
  List.filter (λ r, bool_decide (ConditionRow.log_id r = log_id)) rows.
Definition conditions_of_others (log_id : string) (rows : list ConditionRow.t) :=
  List.filter (λ r, bool_decide (ConditionRow.log_id r ≠ log_id)) rows.
Definition triggers_of (log_id : string) (rows : list TriggerRow.t) :=
  List.filter (λ r, bool_decide (TriggerRow.log_id r = log_id)) rows.
Definition triggers_of_others (log_id : string) (rows : list TriggerRow.t) :=
  List.filter (λ r, bool_decide (TriggerRow.log_id r ≠ log_id)) rows.

(** The rows of [daily_logs] for a user and a day. *)
Definition daily_logs_of (user_id date : string) (rows : list DailyLog.t) :=
  List.filter (λ r, bool_decide (DailyLog.user_id r = user_id)
                    && bool_decide (DailyLog.date r = date)) rows.

(** ** Concrete inputs *)

Module Example.

(** A host whose [JSON.stringify] prints the mode, the overall severity,
    the selected conditions and the notes of a draft, and whose
    [JSON.parse] reads back the one string [raw0]. *)
Definition stringify (d : Draft.t) : string :=
  "{mode:" +:+ Mode_to_string (Draft.mode d)
  +:+ ",overallSeverity:" +:+ from_option pretty "null" (Draft.overallSeverity d)
  +:+ ",selectedConditions:[" +:+ String.concat "," (Draft.selectedConditions d)
  +:+ "],notes:" +:+ Draft.notes d +:+ "}".

Definition draft0 : Draft.t :=
  Draft.mk daily (Some 8) ["migraine"] {[ "migraine" := 6 ]} None "slept badly"
           {[ "sleep_duration" := TriggerValue.mk (Some 0) (Some "4 hours or less") ]}
           "2025-03-01T09:00:00.000Z".

Definition raw0 : string := stringify draft0.

Definition host : Host := {|
  JSON_parse := λ raw, if bool_decide (raw = raw0) then Some draft0 else None;
  JSON_stringify := stringify;
  Date_now_iso := "2025-03-01T10:00:00.000Z";
  Date_now_utc_day := "2025-03-01";
  Date_same_day := λ a b, bool_decide (a = b);
  Date_day_before := λ a b, bool_decide (a = "2025-02-28" ∧ b = "2025-03-01");
|}.

Definition user : option string := Some "u1".
Definition today : string := "2025-03-01".

(** Tables in which user u1 already has a daily row for today, with one
    condition and one trigger. *)
Definition db0 : DB.t :=
  DB.mk [DailyLog.mk "L1" "u1" "2025-03-01" (Some 5) (Some "from the server") None]
        [ConditionRow.mk "L1" "fatigue" (Some 3)]
        [TriggerRow.mk "L1" "stress" (Some 1) (Some "Yes")]
        [] [] []
        [User.mk "u1" (Some 2) (Some 4) (Some "2025-02-28")]
        [UserTrigger.mk "u1" true 2 (Trigger.mk "t-pain" "period_pain" "Period pain" scale);
         UserTrigger.mk "u1" true 1 (Trigger.mk "t-period" "on_period" "On period" binary);
         UserTrigger.mk "u1" false 3 (Trigger.mk "t-sleep" "sleep_duration" "Sleep" enum);
         UserTrigger.mk "u1" true 0 (Trigger.mk "t-cycle" "cycle" "Cycle" group)]
        0.

(** A draft cache holding [draft0] for (u1, today, daily). *)
Definition cache0 : gmap string string := {[ draftKey user today daily := raw0 ]}.

(** A daily form: two conditions selected, one of them with a severity;
    one trigger with a value and one reset to null. *)
Definition form0 : Screen.t :=
  Screen.mk daily false false None ["migraine"; "fatigue"] {[ "migraine" := 6 ]} "" []
            {[ "sleep_duration" := TriggerValue.mk (Some 0) (Some "4 hours or less");
               "stress" := TriggerValue.mk None None ]}
            false "typed today" true.

(** A second daily form, with another trigger selection. *)
Definition form1 : Screen.t :=
  Screen.mk daily false false (Some 4) ["fatigue"] {[ "fatigue" := 2 ]} "" []
            {[ "caffeine" := TriggerValue.mk (Some 1) (Some "Yes") ]}
            false "" true.

(** A moment form. *)
Definition form2 : Screen.t :=
  Screen.mk moment false false None ["migraine"] {[ "migraine" := 6 ]} "walking" []
            {[ "sleep_duration" := TriggerValue.mk (Some 0) None ]}
            false "" true.

(** The store rejects the [n]-th awaited call. *)
Definition failing_at (n : nat) : Schedule :=
  {| fault := λ i, if bool_decide (i = n) then Some "network request failed" else None;
     cancel_at := None |}.

(** The effect cleanup runs during the [n]-th awaited call. *)
Definition cancelled_during (n : nat) : Schedule :=
  {| fault := no_fault; cancel_at := Some n |}.

(** The mode is switched from daily to moment while the daily hydration
    awaits the conditions of today's row: the daily pass as it is
    suspended there; then the press and the whole pass of the moment
    context; then the rest of the daily pass, whose [cancelled] is now
    true. *)
Definition daily_pass_suspended : Async unit * Env.t :=
  suspended undisturbed 2 (@hydrate host user today daily)
            (Env.start (Screen.initial daily) ∅ db0).

Definition moment_context_hydrated : Env.t :=
  (exec undisturbed (@hydrate host user today moment)
        (exec undisturbed (pressMode moment) daily_pass_suspended.2).2).2.

Definition daily_pass_resumed : Env.t :=
  (exec (cancelled_during 2) daily_pass_suspended.1 moment_context_hydrated).2.

(** Hydration of today's daily row, with no draft in the cache. *)
Definition hydrated_from_row : Env.t :=
  run undisturbed (@hydrate host user today daily) (Screen.initial daily) ∅ db0.

(** A successful save of [form0], then the button of the overlay. *)
Definition saved0 : Env.t :=
  run undisturbed (@handleSave host user today form0) form0 cache0 db0.

Definition overlay_dismissed : Env.t :=
  (exec undisturbed pressBackToDashboard saved0).2.

(** The save of [form0] when the streak update cannot read the user's row
    (the call numbered 6), every call before it having succeeded. *)
Definition streak_failed : Env.t :=
  run (failing_at 6) (@handleSave host user today form0) form0 cache0 db0.

(** A draft cache holding a draft for (u1, today, moment), and the save of
    the moment form [form2] when the streak update cannot read the user's
    row (the call numbered 3). *)
Definition cache1 : gmap string string := {[ draftKey user today moment := raw0 ]}.

Definition moment_streak_failed : Env.t :=
  run (failing_at 3) (@handleSave host user today form2) form2 cache1 db0.

(** A form with values for an enabled trigger, for a trigger disabled in
    the settings and for a group. *)
Definition form3 : Screen.t :=
  Screen.mk daily false false None [] ∅ "" []
            {[ "t-period" := TriggerValue.mk (Some 1) (Some "Yes");
               "t-sleep" := TriggerValue.mk (Some 0) (Some "4 hours or less");
               "t-cycle" := TriggerValue.mk (Some 2) None ]}
            false "" true.

End Example.

(** ** The handlers of the form *)

(** [toggleCondition], called from the render of [s].  The updater it passes
    to [setConditionSeverities] is applied to the severities of that same
    state, as it is when no other update is pending. *)
Definition toggleCondition (conditionId : string) (s : Screen.t) : Screen.t :=
  if bool_decide (conditionId ∈ Screen.selectedConditions s)
  then
    apply_setter
      (setConditionSeverities (delete conditionId (Screen.conditionSeverities s)))
      (apply_setter
         (setSelectedConditions
            (List.filter (λ id, bool_decide (id ≠ conditionId))
                         (Screen.selectedConditions s)))
         s)
  else
    apply_setter
      (setSelectedConditions (Screen.selectedConditions s ++ [conditionId])) s.

(** The slider under a selected condition:
    [setConditionSeverities((prev) => ({ ...prev, [c.id]: v }))]. *)
Definition changeConditionSeverity (conditionId : string) (v : Z) (s : Screen.t)
    : Screen.t :=
  apply_setter
    (setConditionSeverities (<[conditionId := v]> (Screen.conditionSeverities s))) s.

(** [onValueChange] of the input of the trigger [triggerId]:
    [setTriggerValues((prev) => ({ ...prev, [t.id]: { value, valueText } }))]. *)
Definition changeTriggerValue (triggerId : string) (value : option Z)
    (valueText : option string) (s : Screen.t) : Screen.t :=
  apply_setter
    (setTriggerValuesWith (λ prev, <[triggerId := TriggerValue.mk value valueText]> prev)) s.

(** The buttons of [SimpleSlider] and of a scale input:
    [Array.from({ length: max - min + 1 }, (_, i) => min + i)], for integer
    bounds.  A length that is not positive gives no button. *)
Definition button_values (min max : Z) : list Z :=
  (λ i, min + i) <$> seqZ 0 (max - min + 1).

(** The part of [options_json] that [TriggerInput] reads. *)
Module TriggerOptions.
Record t := mk { options : option (list string); min : option Z; max : option Z }.
End TriggerOptions.

(** [components/TriggerInput]: what each button of the input passes to
    [onValueChange], in the order of the buttons.  An input of any other
    type renders nothing. *)
Definition TriggerInput_presses (input_type : InputType)
    (options_json : TriggerOptions.t) : list (option Z * option string) :=
  match input_type with
  | binary => [(Some 0, Some "No"); (Some 1, Some "Yes")]
  | scale =>
      (λ num, (Some num, None))
      <$> button_values (default 0 (TriggerOptions.min options_json))
                        (default 5 (TriggerOptions.max options_json))
  | enum =>
      imap (λ index option, (Some (Z.of_nat index), Some option))
           (default [] (TriggerOptions.options options_json))
  | group => []
  end.

(** The draft that [saveDraft] serialises for the state [s]. *)
Definition draftOf `{Host} (s : Screen.t) : Draft.t :=
  Draft.mk (Screen.mode s) (Screen.overallSeverity s) (Screen.selectedConditions s)
           (Screen.conditionSeverities s)
           (match Screen.mode s with
            | moment => Some (Screen.whatDoing s)
            | daily => None
            end)
           (Screen.notes s) (Screen.triggerValues s) Date_now_iso.

(** The form after [resetForm], the flags of [s] left as they are. *)
Definition blank (s : Screen.t) : Screen.t :=
  Screen.mk (Screen.mode s) (Screen.loading s) (Screen.saved s) None [] ∅ ""
            (Screen.enabledTriggers s) ∅ (Screen.triggersLoading s) "" (Screen.hydrated s).

(** [dateToUse] of [updateStreak]. *)
Definition dateToUse `{Host} (logDate : option string) : string :=
  default Date_now_utc_day (valueText_or_null logDate).

(** The rows of [users] with the id [id]. *)
Definition users_of (id : string) (rows : list User.t) : list User.t :=
  List.filter (λ u, bool_decide (User.id u = id)) rows.

(** [newCurrentStreak] and [newLongestStreak] of [updateStreak], from the
    row it has read. *)
Definition newStreaks `{Host} (user : option User.t) (dateToUse : string) : Z * Z :=
  let lastLog := valueText_or_null (from_option User.last_log_date None user) in
  let current_streak := default 0 (from_option User.current_streak None user) in
  let newCurrentStreak :=
    match lastLog with
    | None => 1
    | Some lastLog =>
        if Date_day_before lastLog dateToUse then current_streak + 1
        else if negb (Date_same_day lastLog dateToUse) then 1
        else if bool_decide (current_streak = 0) then 1 else current_streak
    end in
  (newCurrentStreak,
   Z.max newCurrentStreak (default 0 (from_option User.longest_streak None user))).

(** More concrete inputs. *)
Module Example2.

(** A host whose [JSON.parse] reads back the serialisation of the draft of
    [Example.form0], written at the time of its clock. *)
Definition host : Host := {|
  JSON_parse := λ raw,
    if bool_decide (raw = Example.stringify (@draftOf Example.host Example.form0))
    then Some (@draftOf Example.host Example.form0) else None;
  JSON_stringify := Example.stringify;
  Date_now_iso := "2025-03-01T10:00:00.000Z";
  Date_now_utc_day := "2025-03-01";
  Date_same_day := λ a b, bool_decide (a = b);
  Date_day_before := λ a b, bool_decide (a = "2025-02-28" ∧ b = "2025-03-01");
|}.

(** Tables without a daily row for u1. *)
Definition db1 : DB.t :=
  DB.mk [] [] [] [] [] []
        [User.mk "u1" (Some 2) (Some 4) (Some "2025-02-28");
         User.mk "u2" (Some 7) (Some 9) (Some "2025-02-27")]
        [] 0.

(** The enabled triggers of a user who tracks their period. *)
Definition on_period : Trigger.t := Trigger.mk "t-period" "on_period" "On period" binary.
Definition period_pain : Trigger.t := Trigger.mk "t-pain" "period_pain" "Period pain" scale.

Definition cycle_form : Screen.t :=
  Screen.mk daily false false None [] ∅ "" [on_period; period_pain]
            {[ "t-period" := TriggerValue.mk (Some 1) (Some "Yes");
               "t-pain" := TriggerValue.mk (Some 3) None ]}
            false "" true.

End Example2.

(** * Properties *)

(** ** Lists filtered by a boolean test *)

Lemma elem_of_List_filter {A} (f : A → bool) (l : list A) (x : A) :
  x ∈ List.filter f l ↔ x ∈ l ∧ f x = true.
Proof. rewrite !list_elem_of_In. apply filter_In. Qed.

Lemma List_filter_all {A} (f : A → bool) (l : list A) :
  (∀ x, x ∈ l → f x = true) → List.filter f l = l.
Proof.
  induction l as [|a l IH]; intros Hall; [done|].
  simpl. rewrite (Hall a) by left. f_equal. apply IH. intros x Hx. apply Hall. by right.
Qed.

Lemma List_filter_none {A} (f : A → bool) (l : list A) :
  (∀ x, x ∈ l → f x = false) → List.filter f l = [].
Proof.
  induction l as [|a l IH]; intros Hall; [done|].
  simpl. rewrite (Hall a) by left. apply IH. intros x Hx. apply Hall. by right.
Qed.

Lemma List_filter_filter {A} (f g : A → bool) (l : list A) :
  List.filter f (List.filter g l) = List.filter (λ x, g x && f x) l.
Proof.
  induction l as [|a l IH]; [done|]. simpl.
  destruct (g a); simpl; [destruct (f a)|]; by rewrite IH.
Qed.

Lemma List_filter_fmap {A} (p : A → bool) (f : A → A) (l : list A) :
  (∀ x, p (f x) = p x) → List.filter p (f <$> l) = f <$> List.filter p l.
Proof.
  intros Hp. induction l as [|a l IH]; [done|].
  rewrite fmap_cons. simpl. rewrite Hp. destruct (p a); by rewrite IH.
Qed.

Lemma NoDup_fst_List_filter {A B} (f : A * B → bool) (l : list (A * B)) :
  NoDup l.*1 → NoDup (List.filter f l).*1.
Proof.
  induction l as [|a l IH]; simpl; [done|].
  intros [Hnotin Hnd]%NoDup_cons. destruct (f a); simpl; [|by apply IH].
  constructor; [|by apply IH].
  intros (x & Hx1 & [Hx _]%elem_of_List_filter)%list_elem_of_fmap.
  apply Hnotin. apply list_elem_of_fmap. by exists x.
Qed.

(** ** Trigger visibility *)

Lemma showPeriodPain_value (enabledTriggers : list Trigger.t)
    (triggerValues : gmap string TriggerValue.t) :
  showPeriodPain enabledTriggers triggerValues
  = bool_decide (onPeriodValue enabledTriggers triggerValues = Some 1).
Proof.
  unfold showPeriodPain, onPeriodValue.
  destruct (onPeriodTrigger enabledTriggers) as [t|]; [|done].
  by destruct (triggerValues !! Trigger.id t).
Qed.

Lemma onPeriodTrigger_Some (enabledTriggers : list Trigger.t) (p : Trigger.t) :
  onPeriodTrigger enabledTriggers = Some p →
  p ∈ enabledTriggers ∧ Trigger.key p = "on_period".
Proof.
  intros [Hin Hk]%find_some. rewrite list_elem_of_In. split; [done|].
  by apply bool_decide_eq_true in Hk.
Qed.

Lemma onPeriodTrigger_None (enabledTriggers : list Trigger.t) :
  onPeriodTrigger enabledTriggers = None ↔
  ∀ t, t ∈ enabledTriggers → Trigger.key t ≠ "on_period".
Proof.
  split.
  - intros Hnone t Hin Hk. apply list_elem_of_In in Hin.
    pose proof (find_none _ _ Hnone t Hin) as Hf. simpl in Hf.
    by apply bool_decide_eq_false in Hf.
  - intros Hall. destruct (onPeriodTrigger enabledTriggers) as [p|] eqn:Hp; [|done].
    apply onPeriodTrigger_Some in Hp as [Hin Hk]. by destruct (Hall p Hin).
Qed.

Lemma onPeriodTrigger_first (pre post : list Trigger.t) (p : Trigger.t) :
  (∀ t, t ∈ pre → Trigger.key t ≠ "on_period") →
  Trigger.key p = "on_period" →
  onPeriodTrigger (pre ++ p :: post) = Some p.
Proof.
  intros Hpre Hp. unfold onPeriodTrigger.
  induction pre as [|a pre IH]; cbn [app List.find].
  - by rewrite (bool_decide_eq_true_2 _ Hp).
  - rewrite bool_decide_eq_false_2 by (apply Hpre; left).
    apply IH. intros t Ht. apply Hpre. by right.
Qed.

Lemma onPeriodTrigger_unique (enabledTriggers : list Trigger.t) (p : Trigger.t) :
  p ∈ enabledTriggers →
  Trigger.key p = "on_period" →
  (∀ t, t ∈ enabledTriggers → Trigger.key t = "on_period" → Trigger.id t = Trigger.id p) →
  ∃ p', onPeriodTrigger enabledTriggers = Some p' ∧ Trigger.id p' = Trigger.id p.
Proof.
  intros Hin Hk Huniq.
  destruct (onPeriodTrigger enabledTriggers) as [p'|] eqn:Hp'.
  - exists p'. split; [done|].
    apply onPeriodTrigger_Some in Hp' as [Hin' Hk']. by apply Huniq.
  - exfalso. by eapply onPeriodTrigger_None.
Qed.

(** C6. The visible triggers are the enabled triggers, in their order, minus
    the triggers keyed period_pain when the value of the trigger keyed
    on_period is not exactly 1; that value is absent when no enabled trigger
    is keyed on_period or when it has no entry or a null value in the form.
    A trigger keyed period_pain is visible exactly when the value is 1, and
    every other trigger is always visible.  The trigger keyed on_period is
    found whenever one is enabled: it is the first enabled trigger with that
    key, so that, with [p] that trigger (or the only one keyed on_period), a
    trigger keyed period_pain is visible exactly when the form holds the
    value 1 for [p]; and when no enabled trigger is keyed on_period none
    keyed period_pain is visible. *)
Theorem filteredTriggers_visibility
    (enabledTriggers : list Trigger.t) (triggerValues : gmap string TriggerValue.t) :
  (∀ t, t ∈ filteredTriggers enabledTriggers triggerValues → t ∈ enabledTriggers) ∧
  List.filter (λ t, bool_decide (Trigger.key t ≠ "period_pain"))
              (filteredTriggers enabledTriggers triggerValues)
  = List.filter (λ t, bool_decide (Trigger.key t ≠ "period_pain")) enabledTriggers ∧
  (∀ t, t ∈ enabledTriggers → Trigger.key t ≠ "period_pain" →
        t ∈ filteredTriggers enabledTriggers triggerValues) ∧
  (∀ t, t ∈ enabledTriggers → Trigger.key t = "period_pain" →
        (t ∈ filteredTriggers enabledTriggers triggerValues
         ↔ onPeriodValue enabledTriggers triggerValues = Some 1)) ∧
  (onPeriodValue enabledTriggers triggerValues = Some 1 →
   filteredTriggers enabledTriggers triggerValues = enabledTriggers) ∧
  ((∀ t, t ∈ enabledTriggers → Trigger.key t ≠ "on_period") →
   onPeriodValue enabledTriggers triggerValues = None) ∧
  (∀ p, onPeriodTrigger enabledTriggers = Some p →
        p ∈ enabledTriggers ∧ Trigger.key p = "on_period" ∧
        onPeriodValue enabledTriggers triggerValues
        = from_option TriggerValue.value None (triggerValues !! Trigger.id p)) ∧
  (∀ pre p post,
     enabledTriggers = pre ++ p :: post →
     (∀ t, t ∈ pre → Trigger.key t ≠ "on_period") →
     Trigger.key p = "on_period" →
     onPeriodTrigger enabledTriggers = Some p
     ∧ ∀ q, q ∈ enabledTriggers → Trigger.key q = "period_pain" →
            (q ∈ filteredTriggers enabledTriggers triggerValues
             ↔ ∃ d, triggerValues !! Trigger.id p = Some d
                    ∧ TriggerValue.value d = Some 1)) ∧
  (∀ p, p ∈ enabledTriggers →
        Trigger.key p = "on_period" →
        (∀ t, t ∈ enabledTriggers → Trigger.key t = "on_period" →
              Trigger.id t = Trigger.id p) →
        ∀ q, q ∈ enabledTriggers → Trigger.key q = "period_pain" →
             (q ∈ filteredTriggers enabledTriggers triggerValues
              ↔ ∃ d, triggerValues !! Trigger.id p = Some d
                     ∧ TriggerValue.value d = Some 1)) ∧
  ((∀ t, t ∈ enabledTriggers → Trigger.key t ≠ "on_period") →
   ∀ q, Trigger.key q = "period_pain" →
        q ∉ filteredTriggers enabledTriggers triggerValues).
Proof.
  assert (Hshown : ∀ p q,
            onPeriodTrigger enabledTriggers = Some p →
            q ∈ enabledTriggers → Trigger.key q = "period_pain" →
            (q ∈ filteredTriggers enabledTriggers triggerValues
             ↔ ∃ d, triggerValues !! Trigger.id p = Some d
                    ∧ TriggerValue.value d = Some 1)).
  { intros p q Hp Hq Hk. unfold filteredTriggers.
    rewrite elem_of_List_filter, (bool_decide_eq_true_2 _ Hk).
    unfold showPeriodPain. rewrite Hp.
    destruct (triggerValues !! Trigger.id p) as [d|].
    - rewrite bool_decide_eq_true. split.
      + intros [_ Hv]. by exists d.
      + intros (d' & [= <-] & Hv). done.
    - split; [by intros [_ ?]|]. by intros (d' & ? & _). }
  unfold filteredTriggers. rewrite showPeriodPain_value.
  split; [|split; [|split; [|split; [|split; [|split; [|split; [|split; [|split]]]]]]]].
  - intros t Ht. by apply elem_of_List_filter in Ht as [? _].
  - rewrite List_filter_filter. apply filter_ext. intros t.
    destruct (decide (Trigger.key t = "period_pain")) as [Hk|Hk].
    + rewrite (bool_decide_eq_false_2 (Trigger.key t ≠ "period_pain")) by tauto.
      apply andb_false_r.
    + by rewrite (bool_decide_eq_false_2 _ Hk).
  - intros t Hin Hk. apply elem_of_List_filter. split; [done|].
    by rewrite (bool_decide_eq_false_2 _ Hk).
  - intros t Hin Hk. rewrite elem_of_List_filter, (bool_decide_eq_true_2 _ Hk).
    rewrite bool_decide_eq_true. tauto.
  - intros Hv. apply List_filter_all. intros t _.
    rewrite (bool_decide_eq_true_2 _ Hv). by destruct (bool_decide _).
  - intros Hnone%onPeriodTrigger_None. unfold onPeriodValue. by rewrite Hnone.
  - intros p Hp. destruct (onPeriodTrigger_Some _ _ Hp) as [Hin Hk].
    split; [done|]. split; [done|].
    unfold onPeriodValue. rewrite Hp. by destruct (triggerValues !! Trigger.id p).
  - intros pre p post Heq Hpre Hk.
    assert (Hp : onPeriodTrigger enabledTriggers = Some p)
      by (rewrite Heq; by apply onPeriodTrigger_first).
    split; [done|]. intros q Hq Hkq.
    rewrite <- (Hshown p q Hp Hq Hkq). unfold filteredTriggers.
    by rewrite showPeriodPain_value.
  - intros p Hin Hk Huniq q Hq Hkq.
    destruct (onPeriodTrigger_unique enabledTriggers p Hin Hk Huniq) as (p' & Hp' & Hid).
    rewrite <- Hid, <- (Hshown p' q Hp' Hq Hkq). unfold filteredTriggers.
    by rewrite showPeriodPain_value.
  - intros Hnone%onPeriodTrigger_None q Hkq.
    rewrite elem_of_List_filter, (bool_decide_eq_true_2 _ Hkq).
    unfold onPeriodValue. rewrite Hnone. by intros [_ ?%bool_decide_eq_true].
Qed.

(** C6 at the form [Example2.cycle_form], whose enabled triggers are
    on_period and period_pain: period pain is shown while on_period is 1,
    and hidden once on_period is 0, has no value, or is not enabled. *)
Lemma filteredTriggers_visibility_witness :
  (Example2.on_period ∈ Screen.enabledTriggers Example2.cycle_form
   ∧ Example2.period_pain ∈ Screen.enabledTriggers Example2.cycle_form
   ∧ Trigger.key Example2.on_period = "on_period"
   ∧ Trigger.key Example2.period_pain = "period_pain"
   ∧ Screen.triggerValues Example2.cycle_form !! Trigger.id Example2.on_period
     = Some (TriggerValue.mk (Some 1) (Some "Yes")))
  ∧ Example2.period_pain
    ∈ filteredTriggers (Screen.enabledTriggers Example2.cycle_form)
                       (Screen.triggerValues Example2.cycle_form)
  ∧ (Example2.period_pain
     ∉ filteredTriggers (Screen.enabledTriggers Example2.cycle_form)
         (<["t-period" := TriggerValue.mk (Some 0) (Some "No")]>
            (Screen.triggerValues Example2.cycle_form)))
  ∧ (Example2.period_pain
     ∉ filteredTriggers (Screen.enabledTriggers Example2.cycle_form)
         (delete "t-period" (Screen.triggerValues Example2.cycle_form)))
  ∧ (Example2.period_pain
     ∉ filteredTriggers [Example2.period_pain] (Screen.triggerValues Example2.cycle_form)).
Proof.
  assert (Hhyp : Example2.on_period ∈ Screen.enabledTriggers Example2.cycle_form
   ∧ Example2.period_pain ∈ Screen.enabledTriggers Example2.cycle_form
   ∧ Trigger.key Example2.on_period = "on_period"
   ∧ Trigger.key Example2.period_pain = "period_pain"
   ∧ Screen.triggerValues Example2.cycle_form !! Trigger.id Example2.on_period
     = Some (TriggerValue.mk (Some 1) (Some "Yes"))).
  { split; [left|]. split; [right; left|]. split; [reflexivity|].
    split; [reflexivity|vm_compute; reflexivity]. }
  split; [exact Hhyp|]. destruct Hhyp as (Hp & Hq & Hkp & Hkq & Hv).
  assert (Huniq : ∀ t, t ∈ Screen.enabledTriggers Example2.cycle_form →
                       Trigger.key t = "on_period" →
                       Trigger.id t = Trigger.id Example2.on_period).
  { intros t [->|Ht]%elem_of_cons Hk; [reflexivity|].
    apply list_elem_of_singleton in Ht as ->. discriminate Hk. }
  split; [|split; [|split]].
  - destruct (filteredTriggers_visibility (Screen.enabledTriggers Example2.cycle_form)
                (Screen.triggerValues Example2.cycle_form))
      as (_ & _ & _ & _ & _ & _ & _ & _ & Hshown & _).
    apply (Hshown _ Hp Hkp Huniq _ Hq Hkq). by eexists.
  - destruct (filteredTriggers_visibility (Screen.enabledTriggers Example2.cycle_form)
                (<["t-period" := TriggerValue.mk (Some 0) (Some "No")]>
                   (Screen.triggerValues Example2.cycle_form)))
      as (_ & _ & _ & _ & _ & _ & _ & _ & Hshown & _).
    intros (d & Hd & Hone)%(Hshown _ Hp Hkp Huniq _ Hq Hkq).
    vm_compute in Hd. injection Hd as <-. discriminate Hone.
  - destruct (filteredTriggers_visibility (Screen.enabledTriggers Example2.cycle_form)
                (delete "t-period" (Screen.triggerValues Example2.cycle_form)))
      as (_ & _ & _ & _ & _ & _ & _ & _ & Hshown & _).
    intros (d & Hd & _)%(Hshown _ Hp Hkp Huniq _ Hq Hkq).
    vm_compute in Hd. discriminate Hd.
  - destruct (filteredTriggers_visibility [Example2.period_pain]
                (Screen.triggerValues Example2.cycle_form))
      as (_ & _ & _ & _ & _ & _ & _ & _ & _ & Hnone).
    apply Hnone; [|done].
    intros t Ht%list_elem_of_singleton Hk. subst t. discriminate Hk.
Defined.

(** ** The fallback for the overall severity *)

Lemma Math_round_div_half_up (sum n : Z) :
  0 < n →
  n * (2 * Math_round_div sum n - 1) ≤ 2 * sum < n * (2 * Math_round_div sum n + 1).
Proof.
  intros Hn. unfold Math_round_div.
  pose proof (Z.div_mod (2 * sum + n) (2 * n) ltac:(lia)) as Hdm.
  pose proof (Z.mod_pos_bound (2 * sum + n) (2 * n) ltac:(lia)) as Hb.
  nia.
Qed.

Lemma severitySum_foldr (selectedConditions : list string)
    (conditionSeverities : gmap string Z) :
  severitySum selectedConditions conditionSeverities
  = foldr Z.add 0 ((λ id, default 0 (conditionSeverities !! id)) <$> selectedConditions).
Proof.
  unfold severitySum.
  assert (Hgen : ∀ acc,
    foldl (λ sum id, sum + default 0 (conditionSeverities !! id)) acc selectedConditions
    = acc + foldr Z.add 0 ((λ id, default 0 (conditionSeverities !! id))
                             <$> selectedConditions)).
  { induction selectedConditions as [|a sel IH]; intros acc; [simpl; lia|].
    cbn [foldl]. rewrite IH, fmap_cons. cbn [foldr]. lia. }
  rewrite Hgen. apply Z.add_0_l.
Qed.

(** C2, the specification's statement refuted.  With two conditions selected
    and a severity set for one of them only, the code divides the sum by the
    number of selected conditions, where the mean of the severities that are
    set is 6. *)
Lemma finalOverallSeverity_not_mean_of_set_severities :
  finalOverallSeverity None ["migraine"; "fatigue"] {[ "migraine" := 6 ]} = Some 3
  ∧ spec_finalOverallSeverity None {[ "migraine" := 6 ]} = Some 6.
Proof. split; reflexivity. Qed.

(** C2, amended.  The final overall severity is the explicit field when it is
    set.  Otherwise, when at least one condition is selected, it is the
    round-half-up quotient [r] of the sum, over the selected conditions, of
    their severities (0 for a selected condition without one) by the number
    of selected conditions: [r - 1/2 ≤ sum / n < r + 1/2].  Otherwise it is
    null.  Conditions with severities 6 and 7 give 7, and no condition gives
    null. *)
Theorem finalOverallSeverity_fallback
    (overallSeverity : option Z) (selectedConditions : list string)
    (conditionSeverities : gmap string Z) :
  match overallSeverity with
  | Some v =>
      finalOverallSeverity overallSeverity selectedConditions conditionSeverities = Some v
  | None =>
      match selectedConditions with
      | [] => finalOverallSeverity overallSeverity selectedConditions conditionSeverities = None
      | _ :: _ =>
          ∃ r, finalOverallSeverity overallSeverity selectedConditions conditionSeverities
               = Some r
               ∧ Z.of_nat (length selectedConditions) * (2 * r - 1)
                 ≤ 2 * foldr Z.add 0 ((λ id, default 0 (conditionSeverities !! id))
                                        <$> selectedConditions)
                 < Z.of_nat (length selectedConditions) * (2 * r + 1)
      end
  end
  ∧ finalOverallSeverity None ["A"; "B"] {[ "A" := 6; "B" := 7 ]} = Some 7
  ∧ finalOverallSeverity None [] ∅ = None.
Proof.
  split; [|split; reflexivity].
  destruct overallSeverity as [v|]; [done|].
  destruct selectedConditions as [|a sel]; [done|].
  unfold finalOverallSeverity, avgConditionSeverity.
  rewrite bool_decide_eq_true_2 by (simpl; lia).
  eexists. split; [done|]. rewrite <- severitySum_foldr.
  apply Math_round_div_half_up. simpl; lia.
Qed.

(** ** The trigger write-set *)

Lemma triggerEntries_ids (triggerValues : gmap string TriggerValue.t) :
  TriggerEntry.trigger_id <$> triggerEntries triggerValues
  = (List.filter (λ e : string * TriggerValue.t,
                    bool_decide (TriggerValue.value e.2 ≠ None))
                 (map_to_list triggerValues)).*1.
Proof. unfold triggerEntries. rewrite <- list_fmap_compose. by apply list_fmap_ext. Qed.

Lemma elem_of_triggerEntries (triggerValues : gmap string TriggerValue.t)
    (e : TriggerEntry.t) :
  e ∈ triggerEntries triggerValues ↔
  ∃ d, triggerValues !! TriggerEntry.trigger_id e = Some d
       ∧ TriggerValue.value d ≠ None
       ∧ TriggerEntry.value e = TriggerValue.value d
       ∧ TriggerEntry.value_text e = valueText_or_null (TriggerValue.valueText d).
Proof.
  unfold triggerEntries. rewrite list_elem_of_fmap. split.
  - intros ([id d] & -> & [Hin Hv]%elem_of_List_filter). simpl in *.
    apply elem_of_map_to_list in Hin. apply bool_decide_eq_true in Hv. by exists d.
  - intros (d & Hd & Hv & He1 & He2). exists (TriggerEntry.trigger_id e, d). split.
    + destruct e; simpl in *. by subst.
    + apply elem_of_List_filter. split; [by apply elem_of_map_to_list|].
      by apply bool_decide_eq_true.
Qed.

Lemma NoDup_triggerEntries (triggerValues : gmap string TriggerValue.t) :
  NoDup (TriggerEntry.trigger_id <$> triggerEntries triggerValues).
Proof.
  rewrite triggerEntries_ids. apply NoDup_fst_List_filter, NoDup_fst_map_to_list.
Qed.

(** C8. The write-set holds one entry per trigger of the form whose value is
    not null, carrying that value: no trigger id occurs twice, a trigger with
    a value has an entry, and a trigger whose value is null, or that has no
    entry in the form, has none; no entry carries a null value. *)
Theorem triggerEntries_non_null (triggerValues : gmap string TriggerValue.t) :
  NoDup (TriggerEntry.trigger_id <$> triggerEntries triggerValues) ∧
  (∀ e, e ∈ triggerEntries triggerValues ↔
        ∃ d, triggerValues !! TriggerEntry.trigger_id e = Some d
             ∧ TriggerValue.value d ≠ None
             ∧ TriggerEntry.value e = TriggerValue.value d
             ∧ TriggerEntry.value_text e = valueText_or_null (TriggerValue.valueText d)) ∧
  (∀ id d, triggerValues !! id = Some d →
           (id ∈ TriggerEntry.trigger_id <$> triggerEntries triggerValues
            ↔ TriggerValue.value d ≠ None)) ∧
  (∀ id, triggerValues !! id = None →
         id ∉ TriggerEntry.trigger_id <$> triggerEntries triggerValues) ∧
  (∀ e, e ∈ triggerEntries triggerValues → TriggerEntry.value e ≠ None).
Proof.
  split; [|split; [|split; [|split]]].
  - apply NoDup_triggerEntries.
  - apply elem_of_triggerEntries.
  - intros id d Hd. rewrite list_elem_of_fmap. split.
    + intros (e & -> & (d' & Hd' & Hv & _)%elem_of_triggerEntries). congruence.
    + intros Hv.
      exists (TriggerEntry.mk id (TriggerValue.value d)
                              (valueText_or_null (TriggerValue.valueText d))).
      split; [done|]. apply elem_of_triggerEntries. by exists d.
  - intros id Hnone (e & -> & (d & Hd & _)%elem_of_triggerEntries)%list_elem_of_fmap.
    congruence.
  - intros e (d & _ & Hv & He & _)%elem_of_triggerEntries. congruence.
Qed.

(** ** Running effect trees *)

Lemma exec_then {A B} (sch : Schedule) (t : Async A) (f : A → Async B) (e : Env.t) :
  exec sch (Async_then t f) e
  = match exec sch t e with
    | (Returned a, e') => exec sch (f a) e'
    | (Threw err, e') => (Threw err, e')
    end.
Proof.
  unfold Async_then. revert e.
  induction t as [a|err|u k IH|k IH|m k IH|a m k IH|h k IH|R q k IH];
    intros [s st db con al ro cs ss rs]; cbn [Async_bind exec]; try done.
  destruct (match rejected q (fault sch (length cs)) with
            | Some r => (r, st, db)
            | None => perform q st db
            end) as [[r st'] db'].
  apply IH.
Qed.

Lemma exec_try_catch {A} (sch : Schedule) (t : Async A) (handler : string → Async A)
    (e : Env.t) :
  exec sch (try_catch t handler) e
  = match exec sch t e with
    | (Returned a, e') => (Returned a, e')
    | (Threw err, e') => exec sch (handler err) e'
    end.
Proof.
  revert e.
  induction t as [a|err|u k IH|k IH|m k IH|a m k IH|h k IH|R q k IH];
    intros [s st db con al ro cs ss rs]; cbn [try_catch exec]; try done.
  destruct (match rejected q (fault sch (length cs)) with
            | Some r => (r, st, db)
            | None => perform q st db
            end) as [[r st'] db'].
  apply IH.
Qed.

Lemma exec_try_finally {A} (sch : Schedule) (t : Async A) (cleanup : Async unit)
    (e : Env.t) :
  exec sch (try_finally t cleanup) e
  = match exec sch t e with
    | (o, e') =>
        match exec sch cleanup e' with
        | (Returned _, e'') => (o, e'')
        | (Threw err, e'') => (Threw err, e'')
        end
    end.
Proof.
  revert e.
  induction t as [a|err|u k IH|k IH|m k IH|a m k IH|h k IH|R q k IH];
    intros [s st db con al ro cs ss rs]; cbn [try_finally exec]; try done.
  - change (Async_bind (λ _, Ret a) cleanup) with (Async_then cleanup (λ _, Ret a)).
    rewrite exec_then. destruct (exec sch cleanup _) as [[[]|] e']; [by destruct e'|done].
  - change (Async_bind (λ _, Throw err) cleanup)
      with (Async_then cleanup (λ _, @Throw A err)).
    rewrite exec_then. destruct (exec sch cleanup _) as [[[]|] e']; [by destruct e'|done].
  - destruct (match rejected q (fault sch (length cs)) with
              | Some r => (r, st, db)
              | None => perform q st db
              end) as [[r st'] db'].
    apply IH.
Qed.

(** Suspending a function at one of its awaits and resuming it there is the
    same as running it through. *)
Lemma suspended_resume {A} (sch : Schedule) (n : nat) (t : Async A) (e : Env.t) :
  exec sch (suspended sch n t e).1 (suspended sch n t e).2 = exec sch t e.
Proof.
  revert n e.
  induction t as [a|err|u k IH|k IH|m k IH|a m k IH|h k IH|R q k IH];
    intros n [s st db con al ro cs ss rs]; cbn [suspended exec]; try done.
  destruct n as [|n]; [done|].
  destruct (match rejected q (fault sch (length cs)) with
            | Some r => (r, st, db)
            | None => perform q st db
            end) as [[r st'] db'].
  apply IH.
Qed.

(** Symbolic execution: the pieces of data stay folded, and a run is
    unfolded call by call, with a case distinction on what each awaited call
    resolves to. *)
#[local] Arguments draftKey : simpl never.
#[local] Arguments finalOverallSeverity : simpl never.
#[local] Arguments triggerEntries : simpl never.
#[local] Arguments condition_rows : simpl never.
#[local] Arguments trigger_rows : simpl never.
#[local] Arguments or_null : simpl never.
#[local] Arguments leafTriggers : simpl never.
#[local] Arguments keepEnabledValues : simpl never.
#[local] Arguments enabled_triggers_of : simpl never.
#[local] Arguments severities_of : simpl never.
#[local] Arguments trigger_values_of : simpl never.

Ltac run_step H :=
  match type of H with
  | context [fault ?sch ?n] => destruct (fault sch n) as [?err|] eqn:?
  | context [maybeSingle ?l] => destruct l as [|? [|? ?]] eqn:?
  | context [cancelled_after ?sch ?n] => destruct (cancelled_after sch n) eqn:?
  | context [bool_decide ?P] => destruct (bool_decide P) eqn:?
  end; cbn in H.

(** A run in which a call failed contradicts "no call failed", and a run in
    which none failed contradicts "a call failed". *)
Ltac all_succeeded_absurd :=
  let Hall := fresh "Hall" in
  intros Hall; exfalso; repeat (apply Forall_cons in Hall as [? Hall]); discriminate.

Ltac some_failed_absurd :=
  let Hex := fresh "Hex" in
  intros Hex; exfalso;
  repeat (apply Exists_cons in Hex as [?|Hex]; [discriminate|]);
  by apply Exists_nil in Hex.

Ltac aborted_here :=
  lazymatch goal with
  | |- ∃ cs c, ?l = cs ++ [c] ∧ _ =>
      exists (removelast l), (List.last l (Build_Call AsyncStorage Select false)); cbn;
      split; [reflexivity|split; [reflexivity|repeat constructor]]
  end.

(** ** Hydration *)

Section Hydration.
Context `{Host}.

(** C1. When the draft cache holds a parseable draft under the key of the
    editing context, and the pass is not cancelled, hydration leaves the
    form with the fields of the draft and nothing else (the activity text
    only when the draft's own mode is moment), marks hydration complete, and
    has awaited one call only, the read of the draft cache: the tables are
    not read, whatever rows they hold and whether or not they would fail. *)
Theorem hydrate_draft_wins (userId : option string) (uid today : string) (mode : Mode)
    (faults : nat → option string) (s : Screen.t) (storage : gmap string string)
    (db : DB.t) (raw : string) (draft : Draft.t) :
  signedIn userId = Some uid →
  storage !! draftKey userId today mode = Some raw →
  raw ≠ "" →
  JSON_parse raw = Some draft →
  Env.screen (run {| fault := faults; cancel_at := None |} (hydrate userId today mode)
                  s storage db)
  = Screen.mk (Screen.mode s) (Screen.loading s) (Screen.saved s)
              (Draft.overallSeverity draft) (Draft.selectedConditions draft)
              (Draft.conditionSeverities draft)
              (match Draft.mode draft with
               | moment => default "" (Draft.whatDoing draft)
               | daily => ""
               end)
              (Screen.enabledTriggers s) (Draft.triggerValues draft)
              (Screen.triggersLoading s) (Draft.notes draft) true
  ∧ Env.calls (run {| fault := faults; cancel_at := None |} (hydrate userId today mode)
                   s storage db)
    = [{| table := AsyncStorage; verb := Select; failed := false |}]
  ∧ Env.db (run {| fault := faults; cancel_at := None |} (hydrate userId today mode)
                s storage db) = db
  ∧ Env.storage (run {| fault := faults; cancel_at := None |} (hydrate userId today mode)
                     s storage db) = storage.
Proof.
  intros Huid Hraw Hne Hparse.
  unfold run, hydrate, loadDraft. rewrite Huid.
  destruct s, db. cbn. rewrite Hraw. cbn.
  rewrite (bool_decide_eq_false_2 _ Hne). cbn. rewrite Hparse. by cbn.
Qed.

(** While a hydration pass runs, every render at one of its suspension
    points has the hydrated flag unset: the pass clears it before its first
    await and sets it in its last synchronous stretch only. *)
Lemma hydrate_keeps_unhydrated (userId : option string) (today : string) (mode : Mode)
    (sch : Schedule) (s : Screen.t) (storage : gmap string string) (db : DB.t) :
  Forall (λ r, Screen.hydrated r = false)
         (Env.renders (run sch (hydrate userId today mode) s storage db)).
Proof.
  unfold run.
  remember (exec sch (hydrate userId today mode) (Env.start s storage db)) as r eqn:Hr.
  unfold hydrate, loadDraft in Hr.
  destruct (signedIn userId) as [uid|]; [|subst r; constructor].
  destruct s, db. cbn in Hr.
  destruct (storage !! draftKey userId today mode) as [raw|]; cbn in Hr.
  all: try (destruct (bool_decide (raw = "")); cbn in Hr).
  all: try (destruct (JSON_parse raw) as [draft|]; cbn in Hr).
  all: destruct (cancelled_after sch 1) eqn:Hc1; cbn in Hr.
  all: destruct mode; cbn in Hr.
  all: repeat run_step Hr.
  all: subst r; cbn; repeat constructor.
Qed.

End Hydration.

(** C1 at a concrete input: the cache holds a draft for (u1, today, daily)
    and the tables hold a daily row for the same user and day. *)
Lemma hydrate_draft_wins_witness :
  (signedIn Example.user = Some "u1"
   ∧ Example.cache0 !! draftKey Example.user Example.today daily = Some Example.raw0
   ∧ Example.raw0 ≠ ""
   ∧ @JSON_parse Example.host Example.raw0 = Some Example.draft0)
  ∧ Env.screen (run undisturbed (@hydrate Example.host Example.user Example.today daily)
                    (Screen.initial daily) Example.cache0 Example.db0)
    = Screen.mk daily false false (Some 8) ["migraine"] {[ "migraine" := 6 ]} "" []
                (Draft.triggerValues Example.draft0) false "slept badly" true
  ∧ Env.calls (run undisturbed (@hydrate Example.host Example.user Example.today daily)
                   (Screen.initial daily) Example.cache0 Example.db0)
    = [{| table := AsyncStorage; verb := Select; failed := false |}].
Proof.
  assert (Hhyp : signedIn Example.user = Some "u1"
                 ∧ Example.cache0 !! draftKey Example.user Example.today daily
                   = Some Example.raw0
                 ∧ Example.raw0 ≠ ""
                 ∧ @JSON_parse Example.host Example.raw0 = Some Example.draft0).
  { split; [reflexivity|]. split; [vm_compute; reflexivity|].
    split; [|vm_compute; reflexivity]. intros Heq. vm_compute in Heq. discriminate. }
  split; [exact Hhyp|].
  destruct Hhyp as (Huid & Hraw & Hne & Hparse).
  destruct (@hydrate_draft_wins Example.host Example.user "u1" Example.today daily no_fault
              (Screen.initial daily) Example.cache0 Example.db0 Example.raw0 Example.draft0
              Huid Hraw Hne Hparse) as (Hscreen & Hcalls & _).
  split; [exact Hscreen|exact Hcalls].
Defined.

(** C4, at the input where the code departs from it.  User u1 has a daily
    row for today and no draft.  The mode is switched to moment while the
    daily pass awaits the conditions of that row, so the pass resumes with
    [cancelled = true] after the moment context has been hydrated (empty, and
    marked complete).  The pass checked [cancelled] before that await only:
    it goes on to write the selected conditions, the condition severities and
    the trigger values of the daily row into the form, which now belongs to
    the moment context, and the next autosave stores them in the moment
    draft. *)
Theorem hydrate_cancelled_pass_overwrites_form :
  (Screen.mode (Env.screen Example.moment_context_hydrated) = moment
   ∧ Screen.hydrated (Env.screen Example.moment_context_hydrated) = true
   ∧ Screen.selectedConditions (Env.screen Example.moment_context_hydrated) = []
   ∧ Screen.conditionSeverities (Env.screen Example.moment_context_hydrated) = ∅
   ∧ Screen.triggerValues (Env.screen Example.moment_context_hydrated) = ∅)
  ∧ List.filter (λ c : bool * Setter, c.1 && writes_form_field c.2)
                (Env.sets Example.daily_pass_resumed)
    = [(true, setSelectedConditions ["fatigue"]);
       (true, setConditionSeverities {[ "fatigue" := 3 ]});
       (true, setTriggerValues {[ "stress" := TriggerValue.mk (Some 1) (Some "Yes") ]})]
  ∧ (Screen.mode (Env.screen Example.daily_pass_resumed) = moment
     ∧ Screen.hydrated (Env.screen Example.daily_pass_resumed) = true
     ∧ Screen.selectedConditions (Env.screen Example.daily_pass_resumed) = ["fatigue"]
     ∧ Screen.conditionSeverities (Env.screen Example.daily_pass_resumed)
       = {[ "fatigue" := 3 ]}
     ∧ Screen.triggerValues (Env.screen Example.daily_pass_resumed)
       = {[ "stress" := TriggerValue.mk (Some 1) (Some "Yes") ]})
  ∧ @autosaveWrite Example.host Example.user Example.today
      (Env.screen Example.moment_context_hydrated) (Env.screen Example.daily_pass_resumed)
    = Some ("unifiedLogDraft:u1:2025-03-01:moment",
            "{mode:moment,overallSeverity:null,selectedConditions:[fatigue],notes:}").
Proof. repeat apply conj; vm_compute; reflexivity. Qed.

(** ** Autosave *)

Section Autosave.
Context `{Host}.

(** A draft write is initiated only by a render in which the hydrated flag
    is set and the saved flag is not, and it goes to the key of the mode of
    that render. *)
Lemma autosaveWrite_guard (userId : option string) (today : string)
    (prev next : Screen.t) (w : string * string) :
  autosaveWrite userId today prev next = Some w →
  Screen.hydrated next = true ∧ Screen.saved next = false
  ∧ w.1 = draftKey userId today (Screen.mode next).
Proof.
  unfold autosaveWrite, autosaveEffect, saveDraft.
  case_bool_decide as Hdeps; [done|].
  destruct (signedIn userId); [|done].
  destruct (Screen.hydrated next); [|done].
  destruct (Screen.saved next); [done|]. cbn.
  by intros [= <-].
Qed.

(** Conversely the render in which one of the two flags stops holding the
    effect back does initiate a write, without any edit of the form. *)
Lemma autosaveWrite_on_flag (userId : option string) (uid today : string)
    (prev next : Screen.t) :
  signedIn userId = Some uid →
  Screen.hydrated next = true → Screen.saved next = false →
  (Screen.hydrated prev = false ∨ Screen.saved prev = true) →
  is_Some (autosaveWrite userId today prev next).
Proof.
  intros Huid Hhyd Hsaved Hprev.
  unfold autosaveWrite, autosaveEffect, saveDraft. rewrite Huid, Hhyd, Hsaved.
  rewrite bool_decide_eq_false_2; [by cbn|].
  unfold autosaveDeps. rewrite Hhyd, Hsaved. intros [=]. destruct Hprev; congruence.
Qed.

(** What that write is: the draft of the form as it is in that render,
    under the draft key of its mode. *)
Lemma autosaveWrite_draft (userId : option string) (uid today : string)
    (prev next : Screen.t) :
  signedIn userId = Some uid →
  Screen.hydrated next = true → Screen.saved next = false →
  (Screen.hydrated prev = false ∨ Screen.saved prev = true) →
  autosaveWrite userId today prev next
  = Some (draftKey userId today (Screen.mode next), JSON_stringify (draftOf next)).
Proof.
  intros Huid Hhyd Hsaved Hprev.
  unfold autosaveWrite, autosaveEffect, saveDraft. rewrite Huid, Hhyd, Hsaved.
  rewrite bool_decide_eq_false_2; [done|].
  unfold autosaveDeps. rewrite Hhyd, Hsaved. intros [=]. destruct Hprev; congruence.
Qed.

End Autosave.

(** C9, the specification's statement refuted.  Hydration of today's daily
    row, with no draft in the cache and no edit: the render in which the
    pass marks hydration complete initiates a draft write, and the draft
    duplicates the row.  And a successful save, which has removed the draft,
    followed by the button of the overlay, which clears the saved flag: that
    render initiates a write of the emptied form under the same key. *)
Lemma autosave_fires_on_hydration_and_after_dismissal :
  (Env.storage Example.hydrated_from_row = ∅
   ∧ Screen.hydrated <$> last (Env.renders Example.hydrated_from_row) = Some false
   ∧ Screen.hydrated (Env.screen Example.hydrated_from_row) = true
   ∧ from_option
       (λ prev, @autosaveWrite Example.host Example.user Example.today prev
                  (Env.screen Example.hydrated_from_row))
       None (last (Env.renders Example.hydrated_from_row))
     = Some ("unifiedLogDraft:u1:2025-03-01:daily",
             "{mode:daily,overallSeverity:5,selectedConditions:[fatigue],notes:from the server}"))
  ∧ (Forall (λ c, failed c = false) (Env.calls Example.saved0)
     ∧ Screen.saved (Env.screen Example.saved0) = true
     ∧ Env.storage Example.saved0 !! "unifiedLogDraft:u1:2025-03-01:daily" = None
     ∧ Screen.saved (Env.screen Example.overlay_dismissed) = false
     ∧ @autosaveWrite Example.host Example.user Example.today
         (Env.screen Example.saved0) (Env.screen Example.overlay_dismissed)
       = Some ("unifiedLogDraft:u1:2025-03-01:daily",
               "{mode:daily,overallSeverity:null,selectedConditions:[],notes:}")).
Proof. repeat apply conj; vm_compute; first [reflexivity | repeat constructor]. Qed.

(** ** The enabled triggers *)

Lemma keepEnabledValues_from (leaf : list Trigger.t)
    (prev acc : gmap string TriggerValue.t) (id : string) :
  foldl (λ next t, match prev !! Trigger.id t with
                   | Some d => <[Trigger.id t := d]> next
                   | None => next
                   end) acc leaf !! id
  = if bool_decide (id ∈ (Trigger.id <$> leaf : list string))
    then match prev !! id with Some d => Some d | None => acc !! id end
    else acc !! id.
Proof.
  revert acc. induction leaf as [|t leaf IH]; intros acc.
  - case_bool_decide as Hin; [|done]. by apply elem_of_nil in Hin.
  - cbn [foldl]. rewrite IH, fmap_cons.
    destruct (decide (id = Trigger.id t)) as [->|Hne].
    + rewrite (bool_decide_eq_true_2 (_ ∈ _ :: _)) by left.
      destruct (prev !! Trigger.id t) eqn:Hp.
      * rewrite lookup_insert_eq. by case_bool_decide.
      * by case_bool_decide.
    + assert (Hiff : id ∈ Trigger.id t :: (Trigger.id <$> leaf) ↔ id ∈ Trigger.id <$> leaf).
      { rewrite elem_of_cons. tauto. }
      rewrite (bool_decide_ext _ _ Hiff).
      destruct (prev !! Trigger.id t) eqn:Hp; [|done].
      by rewrite lookup_insert_ne.
Qed.

Lemma keepEnabledValues_lookup (leaf : list Trigger.t) (prev : gmap string TriggerValue.t)
    (id : string) (d : TriggerValue.t) :
  keepEnabledValues leaf prev !! id = Some d
  ↔ prev !! id = Some d ∧ id ∈ Trigger.id <$> leaf.
Proof.
  unfold keepEnabledValues. rewrite keepEnabledValues_from, lookup_empty.
  case_bool_decide as Hin.
  - destruct (prev !! id); split; try tauto; intros [? ?]; done.
  - split; [done|tauto].
Qed.

(** C10. When the load of the enabled triggers succeeds, the list of enabled
    triggers becomes the fetched triggers that are not groups, and the
    trigger values of the form are pruned to it: an entry is in the map
    afterwards exactly when it was in the map before, with the same value,
    and its trigger id is the id of one of the newly enabled triggers. *)
Theorem loadEnabledTriggers_prunes (userId : option string) (uid : string)
    (sch : Schedule) (s : Screen.t) (storage : gmap string string) (db : DB.t) :
  signedIn userId = Some uid →
  Forall (λ c, failed c = false)
         (Env.calls (run sch (loadEnabledTriggers userId) s storage db)) →
  Screen.enabledTriggers (Env.screen (run sch (loadEnabledTriggers userId) s storage db))
  = leafTriggers (enabled_triggers_of uid (DB.user_triggers db))
  ∧ (∀ t, t ∈ Screen.enabledTriggers
                (Env.screen (run sch (loadEnabledTriggers userId) s storage db)) →
          Trigger.input_type t ≠ group)
  ∧ (∀ id d,
       Screen.triggerValues
         (Env.screen (run sch (loadEnabledTriggers userId) s storage db)) !! id = Some d
       ↔ Screen.triggerValues s !! id = Some d
         ∧ id ∈ Trigger.id <$> Screen.enabledTriggers
                  (Env.screen (run sch (loadEnabledTriggers userId) s storage db))).
Proof.
  intros Huid. unfold run.
  remember (exec sch (loadEnabledTriggers userId) (Env.start s storage db)) as r eqn:Hr.
  unfold loadEnabledTriggers in Hr. rewrite Huid in Hr.
  destruct s, db. cbn in Hr. repeat run_step Hr; subst r; cbn.
  all: first [all_succeeded_absurd | intros _].
  all: split; [done|]; split.
  all: first [ by intros t [_ Ht%bool_decide_eq_true]%elem_of_List_filter
             | intros id d; apply keepEnabledValues_lookup ].
Qed.

(** C10 at a concrete input: of the values for t-period (enabled), t-sleep
    (disabled) and t-cycle (a group), only the first is kept. *)
Lemma loadEnabledTriggers_prunes_witness :
  (signedIn Example.user = Some "u1"
   ∧ Forall (λ c, failed c = false)
       (Env.calls (run undisturbed (loadEnabledTriggers Example.user) Example.form3
                       ∅ Example.db0)))
  ∧ Screen.enabledTriggers
      (Env.screen (run undisturbed (loadEnabledTriggers Example.user) Example.form3
                       ∅ Example.db0))
    = leafTriggers (enabled_triggers_of "u1" (DB.user_triggers Example.db0))
  ∧ ∀ id d,
      Screen.triggerValues
        (Env.screen (run undisturbed (loadEnabledTriggers Example.user) Example.form3
                         ∅ Example.db0)) !! id = Some d
      ↔ Screen.triggerValues Example.form3 !! id = Some d
        ∧ id ∈ Trigger.id <$> Screen.enabledTriggers
                 (Env.screen (run undisturbed (loadEnabledTriggers Example.user)
                                  Example.form3 ∅ Example.db0)).
Proof.
  assert (Hhyp : signedIn Example.user = Some "u1"
     ∧ Forall (λ c, failed c = false)
         (Env.calls (run undisturbed (loadEnabledTriggers Example.user) Example.form3
                         ∅ Example.db0))).
  { split; [reflexivity|]. vm_compute. repeat constructor. }
  split; [exact Hhyp|].
  destruct Hhyp as [Huid Hok].
  destruct (loadEnabledTriggers_prunes Example.user "u1" undisturbed Example.form3 ∅
              Example.db0 Huid Hok) as (Hlist & _ & Hvalues).
  split; [exact Hlist|exact Hvalues].
Defined.

Example loadEnabledTriggers_prunes_example :
  Trigger.id <$> Screen.enabledTriggers
     (Env.screen (run undisturbed (loadEnabledTriggers Example.user) Example.form3
                      ∅ Example.db0))
  = ["t-period"; "t-pain"]
  ∧ Screen.triggerValues
      (Env.screen (run undisturbed (loadEnabledTriggers Example.user) Example.form3
                       ∅ Example.db0))
    = {[ "t-period" := TriggerValue.mk (Some 1) (Some "Yes") ]}.
Proof. split; vm_compute; reflexivity. Qed.

(** ** Saving *)

Section Saving.
Context `{Host}.

(** What a save leaves behind.  While it runs, the renders show the form
    as it was when Save was pressed, with the loading flag set.  If one of
    its awaited calls fails, that call is the last one, the error is
    alerted, and neither the draft cache nor the form is touched.  If none
    fails, the draft of the editing context is removed, the form is reset
    and the saved flag is set. *)
Lemma handleSave_outcome (userId : option string) (uid today : string)
    (sch : Schedule) (s : Screen.t) (storage : gmap string string) (db : DB.t) :
  signedIn userId = Some uid →
  Forall (λ r, r = apply_setter (setLoading true) s)
         (Env.renders (run sch (handleSave userId today s) s storage db))
  ∧ (Exists (λ c, failed c = true)
            (Env.calls (run sch (handleSave userId today s) s storage db)) →
     (∃ cs c, Env.calls (run sch (handleSave userId today s) s storage db) = cs ++ [c]
              ∧ failed c = true ∧ Forall (λ c, failed c = false) cs)
     ∧ (∃ message, Env.alerts (run sch (handleSave userId today s) s storage db)
                   = [("Save failed", message)])
     ∧ Env.storage (run sch (handleSave userId today s) s storage db) = storage
     ∧ Env.screen (run sch (handleSave userId today s) s storage db)
       = apply_setter (setLoading false) s)
  ∧ (Forall (λ c, failed c = false)
            (Env.calls (run sch (handleSave userId today s) s storage db)) →
     Env.alerts (run sch (handleSave userId today s) s storage db) = []
     ∧ Env.storage (run sch (handleSave userId today s) s storage db)
       = delete (draftKey userId today (Screen.mode s)) storage
     ∧ Env.storage (run sch (handleSave userId today s) s storage db)
         !! draftKey userId today (Screen.mode s) = None
     ∧ Env.screen (run sch (handleSave userId today s) s storage db)
       = Screen.mk (Screen.mode s) false true None [] ∅ "" (Screen.enabledTriggers s) ∅
                   (Screen.triggersLoading s) "" (Screen.hydrated s)).
Proof.
  intros Huid. unfold run.
  remember (exec sch (handleSave userId today s) (Env.start s storage db)) as r eqn:Hr.
  unfold handleSave, clearDraft, updateStreak in Hr. rewrite Huid in Hr.
  destruct s as [mode loading saved sev sel csev doing trigs tv tl notes hyd], db.
  destruct mode; cbn in Hr; repeat run_step Hr; subst r; cbn.
  all: split; [repeat constructor|].
  all: split; [first [some_failed_absurd | intros _; split; [aborted_here|eauto]]
              | first [all_succeeded_absurd | intros _; rewrite lookup_delete_eq; done]].
Qed.

(** C5, amended.  If any awaited call of the save sequence fails, be it
    the lookup of today's row, a write of the check-in or a call of the
    streak update that follows the writes, the sequence stops at that call,
    an alert is shown, and the draft cache is left as it was; if every call
    succeeds, the draft under the key of the editing context is removed and
    is absent afterwards. *)
Theorem handleSave_clears_draft_only_on_success (userId : option string)
    (uid today : string) (sch : Schedule) (s : Screen.t)
    (storage : gmap string string) (db : DB.t) :
  signedIn userId = Some uid →
  (Exists (λ c, failed c = true)
          (Env.calls (run sch (handleSave userId today s) s storage db)) →
   (∃ cs c, Env.calls (run sch (handleSave userId today s) s storage db) = cs ++ [c]
            ∧ failed c = true ∧ Forall (λ c, failed c = false) cs)
   ∧ (∃ message, Env.alerts (run sch (handleSave userId today s) s storage db)
                 = [("Save failed", message)])
   ∧ Env.storage (run sch (handleSave userId today s) s storage db) = storage)
  ∧ (Forall (λ c, failed c = false)
            (Env.calls (run sch (handleSave userId today s) s storage db)) →
     Env.alerts (run sch (handleSave userId today s) s storage db) = []
     ∧ Env.storage (run sch (handleSave userId today s) s storage db)
       = delete (draftKey userId today (Screen.mode s)) storage
     ∧ Env.storage (run sch (handleSave userId today s) s storage db)
         !! draftKey userId today (Screen.mode s) = None).
Proof.
  intros Huid.
  destruct (handleSave_outcome userId uid today sch s storage db Huid)
    as (_ & Hfail & Hok).
  split.
  - intros Hex. destruct (Hfail Hex) as (Habort & Halert & Hstorage & _). auto.
  - intros Hall. destruct (Hok Hall) as (Halert & Hstorage & Hgone & _). auto.
Qed.

(** C3, amended.  If every call on the check-in tables succeeds and a call
    of the streak update fails, the check-in stays written, exactly as the
    save that succeeds throughout writes it; but the failure is handled as
    a failed save: it is logged and alerted, the draft cache is left as it
    was, and the form is neither reset nor marked saved. *)
Theorem handleSave_streak_failure_is_save_failure (userId : option string)
    (uid today : string) (sch : Schedule) (s : Screen.t)
    (storage : gmap string string) (db : DB.t) :
  signedIn userId = Some uid →
  Forall (λ c, table c ≠ users → failed c = false)
         (Env.calls (run sch (handleSave userId today s) s storage db)) →
  Exists (λ c, table c = users ∧ failed c = true)
         (Env.calls (run sch (handleSave userId today s) s storage db)) →
  check_in_tables (Env.db (run sch (handleSave userId today s) s storage db))
  = check_in_tables (Env.db (run undisturbed (handleSave userId today s) s storage db))
  ∧ (∃ error, Env.console (run sch (handleSave userId today s) s storage db)
              = ["[UnifiedLogScreen] save failed " +:+ error])
  ∧ (∃ message, Env.alerts (run sch (handleSave userId today s) s storage db)
                = [("Save failed", message)])
  ∧ Env.storage (run sch (handleSave userId today s) s storage db) = storage
  ∧ Env.screen (run sch (handleSave userId today s) s storage db)
    = apply_setter (setLoading false) s.
Proof.
  intros Huid. unfold run.
  remember (exec sch (handleSave userId today s) (Env.start s storage db)) as r eqn:Hr.
  remember (exec undisturbed (handleSave userId today s) (Env.start s storage db))
    as r0 eqn:Hr0.
  unfold handleSave, clearDraft, updateStreak in Hr, Hr0. rewrite Huid in Hr, Hr0.
  destruct s as [mode loading saved sev sel csev doing trigs tv tl notes hyd], db.
  destruct mode; cbn in Hr, Hr0; repeat (run_step Hr; cbn in Hr0); subst r r0; cbn.
  all: intros Hall Hex.
  all: repeat (apply Forall_cons in Hall as [? Hall]).
  all: repeat (apply Exists_cons in Hex as [[? ?]|Hex]; [try discriminate|]).
  all: try (by apply Exists_nil in Hex).
  all: try match goal with Hc : _ ≠ users → true = false |- _ => by destruct Hc end.
  all: split; [|eauto 10].
  all: repeat (match goal with
               | |- context [maybeSingle ?l] => destruct l as [|? [|? ?]]
               | |- context [bool_decide ?P] => destruct (bool_decide P)
               end; cbn).
  all: reflexivity.
Qed.

End Saving.

(** C5, the specification's statement refuted: a moment save whose three
    inserts all succeed, and whose streak update then fails to read the
    user's row.  No write has failed, and the draft is still in the cache. *)
Lemma handleSave_writes_succeed_draft_kept :
  (λ c, (table c, verb c, failed c)) <$> Env.calls Example.moment_streak_failed
  = [(moment_logs, Insert, false); (moment_log_conditions, Insert, false);
     (moment_log_triggers, Insert, false); (users, Select, true)]
  ∧ Env.storage Example.moment_streak_failed
      !! "unifiedLogDraft:u1:2025-03-01:moment" = Some Example.raw0
  ∧ Env.alerts Example.moment_streak_failed = [("Save failed", "network request failed")].
Proof. repeat apply conj; vm_compute; reflexivity. Qed.

(** C5 at concrete inputs: the save of a daily form when the update of
    today's row fails, and when nothing fails. *)
Lemma handleSave_clears_draft_only_on_success_witness :
  signedIn Example.user = Some "u1"
  ∧ Env.storage (run (Example.failing_at 1)
                     (@handleSave Example.host Example.user Example.today Example.form0)
                     Example.form0 Example.cache0 Example.db0)
    = Example.cache0
  ∧ Env.storage (run undisturbed
                     (@handleSave Example.host Example.user Example.today Example.form0)
                     Example.form0 Example.cache0 Example.db0)
      !! draftKey Example.user Example.today daily = None.
Proof.
  assert (Huid : signedIn Example.user = Some "u1") by reflexivity.
  split; [exact Huid|]. split.
  - destruct (@handleSave_clears_draft_only_on_success Example.host Example.user "u1"
                Example.today (Example.failing_at 1) Example.form0 Example.cache0
                Example.db0 Huid) as [Hfail _].
    apply Hfail. vm_compute. right. left. reflexivity.
  - destruct (@handleSave_clears_draft_only_on_success Example.host Example.user "u1"
                Example.today undisturbed Example.form0 Example.cache0
                Example.db0 Huid) as [_ Hok].
    apply Hok. vm_compute. repeat constructor.
Defined.

(** C3, the specification's statement refuted: the save of a daily form
    whose writes all succeed and whose streak update fails.  The rows are
    written, but the user is alerted, the draft is still in the cache, the
    form still holds what was typed and the saved flag is not set. *)
Lemma handleSave_streak_failure_surfaces :
  (λ c, (table c, verb c, failed c)) <$> Env.calls Example.streak_failed
  = [(daily_logs, Select, false); (daily_logs, Update, false);
     (daily_log_conditions, Delete, false); (daily_log_triggers, Delete, false);
     (daily_log_conditions, Insert, false); (daily_log_triggers, Insert, false);
     (users, Select, true)]
  ∧ DB.daily_log_triggers (Env.db Example.streak_failed)
    = [TriggerRow.mk "L1" "sleep_duration" (Some 0) (Some "4 hours or less")]
  ∧ Env.alerts Example.streak_failed = [("Save failed", "network request failed")]
  ∧ Env.storage Example.streak_failed !! "unifiedLogDraft:u1:2025-03-01:daily"
    = Some Example.raw0
  ∧ Screen.saved (Env.screen Example.streak_failed) = false
  ∧ Screen.notes (Env.screen Example.streak_failed) = "typed today"
  ∧ Screen.selectedConditions (Env.screen Example.streak_failed) = ["migraine"; "fatigue"].
Proof. repeat apply conj; vm_compute; reflexivity. Qed.

(** C3 at a concrete input: the save of a daily form when the write of the
    streak (the call numbered 7) fails. *)
Lemma handleSave_streak_failure_is_save_failure_witness :
  (signedIn Example.user = Some "u1"
   ∧ Forall (λ c, table c ≠ users → failed c = false)
       (Env.calls (run (Example.failing_at 7)
                       (@handleSave Example.host Example.user Example.today Example.form0)
                       Example.form0 Example.cache0 Example.db0))
   ∧ Exists (λ c, table c = users ∧ failed c = true)
       (Env.calls (run (Example.failing_at 7)
                       (@handleSave Example.host Example.user Example.today Example.form0)
                       Example.form0 Example.cache0 Example.db0)))
  ∧ (∃ message,
       Env.alerts (run (Example.failing_at 7)
                       (@handleSave Example.host Example.user Example.today Example.form0)
                       Example.form0 Example.cache0 Example.db0)
       = [("Save failed", message)])
  ∧ Env.storage (run (Example.failing_at 7)
                     (@handleSave Example.host Example.user Example.today Example.form0)
                     Example.form0 Example.cache0 Example.db0)
    = Example.cache0.
Proof.
  assert (Hhyp : signedIn Example.user = Some "u1"
   ∧ Forall (λ c, table c ≠ users → failed c = false)
       (Env.calls (run (Example.failing_at 7)
                       (@handleSave Example.host Example.user Example.today Example.form0)
                       Example.form0 Example.cache0 Example.db0))
   ∧ Exists (λ c, table c = users ∧ failed c = true)
       (Env.calls (run (Example.failing_at 7)
                       (@handleSave Example.host Example.user Example.today Example.form0)
                       Example.form0 Example.cache0 Example.db0))).
  { split; [reflexivity|]. split.
    - vm_compute. repeat constructor. intros Hne. by destruct Hne.
    - vm_compute. do 7 right. left. split; reflexivity. }
  split; [exact Hhyp|].
  destruct Hhyp as (Huid & Hwrites & Hstreak).
  destruct (@handleSave_streak_failure_is_save_failure Example.host Example.user "u1"
              Example.today (Example.failing_at 7) Example.form0 Example.cache0
              Example.db0 Huid Hwrites Hstreak) as (_ & _ & Halert & Hstorage & _).
  split; [exact Halert|exact Hstorage].
Defined.

(** ** Replacing the children of a daily row *)

Section Replace.
Context {A : Type} (f : A → string) (log_id : string).

Lemma filter_eq_after_insert (old rows : list A) :
  (∀ r, r ∈ rows → f r = log_id) →
  List.filter (λ r, bool_decide (f r = log_id))
              (List.filter (λ r, bool_decide (f r ≠ log_id)) old ++ rows)
  = rows.
Proof.
  intros Hnew. rewrite List.filter_app, List_filter_filter.
  rewrite (List_filter_none _ old), (List_filter_all _ rows); [done| |].
  - intros r Hr. apply bool_decide_eq_true. by apply Hnew.
  - intros r _. destruct (decide (f r = log_id)) as [Heq|Hne].
    + by rewrite (bool_decide_eq_false_2 (_ ≠ _)) by tauto.
    + by rewrite (bool_decide_eq_false_2 _ Hne), andb_false_r.
Qed.

Lemma filter_ne_after_insert (old rows : list A) :
  (∀ r, r ∈ rows → f r = log_id) →
  List.filter (λ r, bool_decide (f r ≠ log_id))
              (List.filter (λ r, bool_decide (f r ≠ log_id)) old ++ rows)
  = List.filter (λ r, bool_decide (f r ≠ log_id)) old.
Proof.
  intros Hnew. rewrite List.filter_app, List_filter_filter.
  rewrite (List_filter_none _ rows), app_nil_r.
  - apply filter_ext. intros r. by destruct (bool_decide _).
  - intros r Hr. apply bool_decide_eq_false. specialize (Hnew r Hr). tauto.
Qed.

Lemma filter_eq_after_delete (old : list A) :
  List.filter (λ r, bool_decide (f r = log_id))
              (List.filter (λ r, bool_decide (f r ≠ log_id)) old) = [].
Proof.
  rewrite <- (app_nil_r (List.filter (λ r, bool_decide (f r ≠ log_id)) old)).
  apply filter_eq_after_insert. intros r Hr. by apply elem_of_nil in Hr.
Qed.

Lemma filter_ne_after_delete (old : list A) :
  List.filter (λ r, bool_decide (f r ≠ log_id))
              (List.filter (λ r, bool_decide (f r ≠ log_id)) old)
  = List.filter (λ r, bool_decide (f r ≠ log_id)) old.
Proof.
  rewrite <- (app_nil_r (List.filter (λ r, bool_decide (f r ≠ log_id)) old)) at 1.
  apply filter_ne_after_insert. intros r Hr. by apply elem_of_nil in Hr.
Qed.
End Replace.

Lemma trigger_rows_log_id (log_id : string) (entries : list TriggerEntry.t)
    (r : TriggerRow.t) :
  r ∈ trigger_rows log_id entries → TriggerRow.log_id r = log_id.
Proof. by intros (e & -> & _)%list_elem_of_fmap. Qed.

Lemma condition_rows_log_id (log_id : string) (s : Screen.t) (r : ConditionRow.t) :
  r ∈ condition_rows log_id s → ConditionRow.log_id r = log_id.
Proof. by intros (e & -> & _)%list_elem_of_fmap. Qed.

Lemma no_length_nil {A} (l : list A) : bool_decide (0 < length l)%nat = false → l = [].
Proof. intros Hl%bool_decide_eq_false. destruct l; [done|]. simpl in Hl. lia. Qed.

Lemma daily_logs_of_update (uid today id : string) (sev : option Z) (notes : option string)
    (now : string) (rows : list DailyLog.t) :
  daily_logs_of uid today (set_daily_log id sev notes now <$> rows)
  = set_daily_log id sev notes now <$> daily_logs_of uid today rows.
Proof.
  apply List_filter_fmap. intros r. unfold set_daily_log.
  by destruct (bool_decide (DailyLog.id r = id)).
Qed.

Section ReplaceOnSave.
Context `{Host}.

(** One successful daily save against the row [existing] of (user, today):
    the row is updated in place, its children are deleted before any is
    inserted, and afterwards its children are the rows of this save, the
    children of the other logs being what they were. *)
Lemma handleSave_daily_existing (userId : option string) (uid today : string)
    (sch : Schedule) (s : Screen.t) (storage : gmap string string) (db : DB.t)
    (existing : DailyLog.t) :
  signedIn userId = Some uid →
  Screen.mode s = daily →
  daily_logs_of uid today (DB.daily_logs db) = [existing] →
  Forall (λ c, failed c = false)
         (Env.calls (run sch (handleSave userId today s) s storage db)) →
  (∃ row, daily_logs_of uid today
            (DB.daily_logs (Env.db (run sch (handleSave userId today s) s storage db)))
          = [row]
          ∧ DailyLog.id row = DailyLog.id existing)
  ∧ triggers_of (DailyLog.id existing)
      (DB.daily_log_triggers (Env.db (run sch (handleSave userId today s) s storage db)))
    = trigger_rows (DailyLog.id existing) (triggerEntries (Screen.triggerValues s))
  ∧ conditions_of (DailyLog.id existing)
      (DB.daily_log_conditions (Env.db (run sch (handleSave userId today s) s storage db)))
    = condition_rows (DailyLog.id existing) s
  ∧ triggers_of_others (DailyLog.id existing)
      (DB.daily_log_triggers (Env.db (run sch (handleSave userId today s) s storage db)))
    = triggers_of_others (DailyLog.id existing) (DB.daily_log_triggers db)
  ∧ conditions_of_others (DailyLog.id existing)
      (DB.daily_log_conditions (Env.db (run sch (handleSave userId today s) s storage db)))
    = conditions_of_others (DailyLog.id existing) (DB.daily_log_conditions db)
  ∧ (λ c, (table c, verb c))
      <$> Env.calls (run sch (handleSave userId today s) s storage db)
    = [(daily_logs, Select); (daily_logs, Update);
       (daily_log_conditions, Delete); (daily_log_triggers, Delete)]
      ++ (if bool_decide (0 < length (Screen.selectedConditions s))%nat
          then [(daily_log_conditions, Insert)] else [])
      ++ (if bool_decide (0 < length (triggerEntries (Screen.triggerValues s)))%nat
          then [(daily_log_triggers, Insert)] else [])
      ++ [(users, Select); (users, Update); (AsyncStorage, Delete)].
Proof.
  intros Huid Hmode Hex. unfold run.
  remember (exec sch (handleSave userId today s) (Env.start s storage db)) as r eqn:Hr.
  unfold handleSave, clearDraft, updateStreak in Hr. rewrite Huid, Hmode in Hr.
  destruct s as [mode loading saved sev sel csev doing trigs tv tl notes hyd],
           db as [dl dlc dlt ml mlc mlt us ut n].
  unfold daily_logs_of in Hex. cbn in Hr, Hex, Hmode. subst mode. cbn.
  destruct (fault sch 0) as [err|] eqn:Hf0; cbn in Hr; [|rewrite Hex in Hr; cbn in Hr];
    repeat run_step Hr; subst r; cbn.
  all: first [all_succeeded_absurd | intros _].
  all: fold (daily_logs_of uid today
               (set_daily_log (DailyLog.id existing) (finalOverallSeverity sev sel csev)
                              (or_null notes) Date_now_iso <$> dl)).
  all: rewrite daily_logs_of_update; unfold daily_logs_of; rewrite Hex.
  all: repeat match goal with
       | Hb : bool_decide (0 < length _)%nat = false |- _ =>
           apply no_length_nil in Hb; rewrite ?Hb
       end.
  all: split; [eexists; split; [reflexivity|];
               unfold set_daily_log; by rewrite bool_decide_eq_true_2|].
  all: repeat apply conj; try reflexivity.
  all: first [ apply (filter_eq_after_insert TriggerRow.log_id), trigger_rows_log_id
             | apply (filter_eq_after_insert ConditionRow.log_id), condition_rows_log_id
             | apply (filter_ne_after_insert TriggerRow.log_id), trigger_rows_log_id
             | apply (filter_ne_after_insert ConditionRow.log_id), condition_rows_log_id
             | apply (filter_eq_after_delete TriggerRow.log_id)
             | apply (filter_eq_after_delete ConditionRow.log_id)
             | apply (filter_ne_after_delete TriggerRow.log_id)
             | apply (filter_ne_after_delete ConditionRow.log_id) ].
Qed.

(** C7. Two successive successful daily saves against the row of (user,
    today): each deletes the conditions and the triggers of the row before
    it inserts its own, so after the second save the triggers of the row
    are the write-set of the second form, one row per trigger, and its
    conditions are those of the second form; nothing of the first save is
    left, whatever the two trigger selections are. *)
Theorem handleSave_daily_replaces_children (userId : option string) (uid today : string)
    (sch1 sch2 : Schedule) (s1 s2 : Screen.t) (storage : gmap string string) (db : DB.t)
    (existing : DailyLog.t) :
  signedIn userId = Some uid →
  Screen.mode s1 = daily →
  Screen.mode s2 = daily →
  daily_logs_of uid today (DB.daily_logs db) = [existing] →
  Forall (λ c, failed c = false)
         (Env.calls (run sch1 (handleSave userId today s1) s1 storage db)) →
  Forall (λ c, failed c = false)
         (Env.calls (run sch2 (handleSave userId today s2) s2
                         (Env.storage (run sch1 (handleSave userId today s1) s1 storage db))
                         (Env.db (run sch1 (handleSave userId today s1) s1 storage db)))) →
  triggers_of (DailyLog.id existing)
    (DB.daily_log_triggers
       (Env.db (run sch1 (handleSave userId today s1) s1 storage db)))
  = trigger_rows (DailyLog.id existing) (triggerEntries (Screen.triggerValues s1))
  ∧ triggers_of (DailyLog.id existing)
      (DB.daily_log_triggers
         (Env.db (run sch2 (handleSave userId today s2) s2
                      (Env.storage (run sch1 (handleSave userId today s1) s1 storage db))
                      (Env.db (run sch1 (handleSave userId today s1) s1 storage db)))))
    = trigger_rows (DailyLog.id existing) (triggerEntries (Screen.triggerValues s2))
  ∧ NoDup (TriggerRow.trigger_id
             <$> triggers_of (DailyLog.id existing)
                   (DB.daily_log_triggers
                      (Env.db (run sch2 (handleSave userId today s2) s2
                                   (Env.storage
                                      (run sch1 (handleSave userId today s1) s1 storage db))
                                   (Env.db
                                      (run sch1 (handleSave userId today s1) s1 storage db))))))
  ∧ conditions_of (DailyLog.id existing)
      (DB.daily_log_conditions
         (Env.db (run sch2 (handleSave userId today s2) s2
                      (Env.storage (run sch1 (handleSave userId today s1) s1 storage db))
                      (Env.db (run sch1 (handleSave userId today s1) s1 storage db)))))
    = condition_rows (DailyLog.id existing) s2
  ∧ take 4 ((λ c, (table c, verb c))
              <$> Env.calls
                    (run sch2 (handleSave userId today s2) s2
                         (Env.storage (run sch1 (handleSave userId today s1) s1 storage db))
                         (Env.db (run sch1 (handleSave userId today s1) s1 storage db))))
    = [(daily_logs, Select); (daily_logs, Update);
       (daily_log_conditions, Delete); (daily_log_triggers, Delete)].
Proof.
  intros Huid Hmode1 Hmode2 Hex Hok1 Hok2.
  destruct (handleSave_daily_existing userId uid today sch1 s1 storage db existing
              Huid Hmode1 Hex Hok1)
    as ((row & Hrow & Hid) & Htrig1 & _).
  rewrite <- Hid in *.
  destruct (handleSave_daily_existing userId uid today sch2 s2 _ _ row
              Huid Hmode2 Hrow Hok2)
    as (_ & Htrig2 & Hcond2 & _ & _ & Hcalls).
  split; [exact Htrig1|]. split; [exact Htrig2|]. split; [|split; [exact Hcond2|]].
  - rewrite Htrig2. unfold trigger_rows. rewrite <- list_fmap_compose.
    apply NoDup_triggerEntries.
  - by rewrite Hcalls.
Qed.

End ReplaceOnSave.

(** C7 at a concrete input: the daily row of u1 holds a trigger stress; a
    first save writes sleep_duration, a second one caffeine. *)
Lemma handleSave_daily_replaces_children_witness :
  (signedIn Example.user = Some "u1"
   ∧ daily_logs_of "u1" Example.today (DB.daily_logs Example.db0)
     = [DailyLog.mk "L1" "u1" "2025-03-01" (Some 5) (Some "from the server") None])
  ∧ DB.daily_log_triggers
      (Env.db (run undisturbed
                   (@handleSave Example.host Example.user Example.today Example.form1)
                   Example.form1
                   (Env.storage Example.saved0) (Env.db Example.saved0)))
    = [TriggerRow.mk "L1" "caffeine" (Some 1) (Some "Yes")]
  ∧ triggers_of "L1"
      (DB.daily_log_triggers
         (Env.db (run undisturbed
                      (@handleSave Example.host Example.user Example.today Example.form1)
                      Example.form1
                      (Env.storage Example.saved0) (Env.db Example.saved0))))
    = trigger_rows "L1" (triggerEntries (Screen.triggerValues Example.form1)).
Proof.
  assert (Huid : signedIn Example.user = Some "u1") by reflexivity.
  assert (Hex : daily_logs_of "u1" Example.today (DB.daily_logs Example.db0)
                = [DailyLog.mk "L1" "u1" "2025-03-01" (Some 5) (Some "from the server") None])
    by (vm_compute; reflexivity).
  split; [by split|]. split; [vm_compute; reflexivity|].
  refine (proj1 (proj2
    (@handleSave_daily_replaces_children Example.host Example.user "u1" Example.today
       undisturbed undisturbed Example.form0 Example.form1 Example.cache0 Example.db0
       _ Huid eq_refl eq_refl Hex _ _))).
  - vm_compute. repeat constructor.
  - vm_compute. repeat constructor.
Defined.

(** ** The autosave guards *)

(** C9, amended.  A render initiates a draft write only if its hydrated flag
    is set and its saved flag is not.  Every render at a suspension point of
    a hydration pass has the hydrated flag unset, and so does the render
    after a press on a mode pill, so none of them initiates a write.  A save
    that succeeds sets the saved flag in the same render that resets the
    form, and the renders while it runs leave the autosave dependencies as
    they were, so none of these initiates a write either.  But the render in
    which the hydrated flag becomes set, or the saved flag unset, does
    initiate a write of the form as it then is, without any edit: what it
    writes, under the draft key of the mode, is the draft of the form of
    that render. *)
Theorem autosave_guarded `{Host} (userId : option string) (today : string) :
  (∀ prev next w,
     autosaveWrite userId today prev next = Some w →
     Screen.hydrated next = true ∧ Screen.saved next = false
     ∧ w.1 = draftKey userId today (Screen.mode next))
  ∧ (∀ mode sch s storage db prev r,
       r ∈ Env.renders (run sch (hydrate userId today mode) s storage db) →
       autosaveWrite userId today prev r = None)
  ∧ (∀ m sch s storage db prev,
       autosaveWrite userId today prev (Env.screen (run sch (pressMode m) s storage db))
       = None)
  ∧ (∀ uid sch s storage db prev,
       signedIn userId = Some uid →
       Forall (λ c, failed c = false)
              (Env.calls (run sch (handleSave userId today s) s storage db)) →
       Screen.saved (Env.screen (run sch (handleSave userId today s) s storage db)) = true
       ∧ autosaveWrite userId today prev
           (Env.screen (run sch (handleSave userId today s) s storage db)) = None
       ∧ Forall (λ r, autosaveWrite userId today s r = None)
                (Env.renders (run sch (handleSave userId today s) s storage db)))
  ∧ (∀ uid prev next,
       signedIn userId = Some uid →
       Screen.hydrated next = true → Screen.saved next = false →
       Screen.hydrated prev = false ∨ Screen.saved prev = true →
       is_Some (autosaveWrite userId today prev next))
  ∧ (∀ uid prev next,
       signedIn userId = Some uid →
       Screen.hydrated next = true → Screen.saved next = false →
       Screen.hydrated prev = false ∨ Screen.saved prev = true →
       autosaveWrite userId today prev next
       = Some (draftKey userId today (Screen.mode next), JSON_stringify (draftOf next))).
Proof.
  assert (Hguard : ∀ prev next,
            Screen.hydrated next = false ∨ Screen.saved next = true →
            autosaveWrite userId today prev next = None).
  { intros prev next Hflag.
    destruct (autosaveWrite userId today prev next) as [w|] eqn:Hw; [|done].
    apply autosaveWrite_guard in Hw as (Hhyd & Hsaved & _).
    destruct Hflag; congruence. }
  split; [apply autosaveWrite_guard|]. split; [|split; [|split; [|split]]].
  - intros mode sch s storage db prev r Hr. apply Hguard. left.
    pose proof (hydrate_keeps_unhydrated userId today mode sch s storage db) as Hclosed.
    rewrite Forall_forall in Hclosed. by apply Hclosed.
  - intros m sch s storage db prev. apply Hguard. left. by destruct m, s.
  - intros uid sch s storage db prev Huid Hok.
    destruct (handleSave_outcome userId uid today sch s storage db Huid)
      as (Hrenders & _ & Hsaved).
    destruct (Hsaved Hok) as (_ & _ & _ & Hscreen).
    split; [by rewrite Hscreen|]. split; [apply Hguard; right; by rewrite Hscreen|].
    eapply Forall_impl; [exact Hrenders|]. intros r ->.
    unfold autosaveWrite. rewrite bool_decide_eq_true_2; [done|]. by destruct s.
  - intros uid prev next. apply autosaveWrite_on_flag.
  - intros uid prev next. apply autosaveWrite_draft.
Qed.

(** * Further properties

    What the handlers of the form, the remaining paths of hydration and of
    the save, and the streak update do beyond the statements above. *)

#[local] Arguments newStreaks : simpl never.
#[local] Arguments dateToUse : simpl never.

(** ** The inputs of the form *)

Lemma foldr_add_bounds (lo hi : Z) (l : list Z) :
  Forall (λ v, lo ≤ v ≤ hi) l →
  Z.of_nat (length l) * lo ≤ foldr Z.add 0 l ≤ Z.of_nat (length l) * hi.
Proof.
  induction 1 as [|v l Hv Hl IH]; [simpl; lia|].
  cbn [foldr length]. lia.
Qed.

Lemma Math_round_div_bounds (lo hi sum n : Z) :
  0 < n → n * lo ≤ sum ≤ n * hi → lo ≤ Math_round_div sum n ≤ hi.
Proof.
  intros Hn Hsum. pose proof (Math_round_div_half_up sum n Hn) as Hr. nia.
Qed.

(** X1. The severity a save stores stays within the bounds of the sliders:
    if the overall severity, when set, and the severities of the selected
    conditions lie between [lo] and [hi], with [lo <= 0 <= hi] since a
    selected condition without a severity counts as 0, then so does the
    final overall severity whenever it is not null. *)
Theorem finalOverallSeverity_in_range (lo hi : Z) (overallSeverity : option Z)
    (selectedConditions : list string) (conditionSeverities : gmap string Z) (r : Z) :
  lo ≤ 0 ≤ hi →
  (∀ v, overallSeverity = Some v → lo ≤ v ≤ hi) →
  (∀ id v, id ∈ selectedConditions → conditionSeverities !! id = Some v → lo ≤ v ≤ hi) →
  finalOverallSeverity overallSeverity selectedConditions conditionSeverities = Some r →
  lo ≤ r ≤ hi.
Proof.
  intros Hzero Hov Hsev. unfold finalOverallSeverity, avgConditionSeverity.
  destruct overallSeverity as [v|]; [intros [= <-]; by apply Hov|].
  case_bool_decide as Hlen; [|done]. intros [= <-].
  apply Math_round_div_bounds; [done|]. rewrite severitySum_foldr.
  rewrite <- (length_fmap (λ id, default 0 (conditionSeverities !! id))).
  apply foldr_add_bounds. apply Forall_fmap, Forall_forall. intros id Hid. simpl.
  destruct (conditionSeverities !! id) as [v|] eqn:Hv; simpl; [by eapply Hsev|lia].
Qed.

(** X1 at the sliders of the screen, which run from 0 to 10: severities 6
    and 9 give the final severity 8. *)
Lemma finalOverallSeverity_in_range_witness :
  (0 ≤ 0 ≤ 10
   ∧ finalOverallSeverity None ["migraine"; "fatigue"]
                          {[ "migraine" := 6; "fatigue" := 9 ]} = Some 8)
  ∧ 0 ≤ 8 ≤ 10.
Proof.
  assert (Hhyp : 0 ≤ 0 ≤ 10
                 ∧ finalOverallSeverity None ["migraine"; "fatigue"]
                                        {[ "migraine" := 6; "fatigue" := 9 ]} = Some 8)
    by (split; [lia|vm_compute; reflexivity]).
  split; [exact Hhyp|]. destruct Hhyp as [Hzero Hfinal].
  refine (finalOverallSeverity_in_range 0 10 None ["migraine"; "fatigue"]
            {[ "migraine" := 6; "fatigue" := 9 ]} 8 Hzero _ _ Hfinal).
  - intros v Hv. discriminate Hv.
  - intros id v Hid Hv.
    apply elem_of_cons in Hid as [->|Hid];
      [|apply list_elem_of_singleton in Hid as ->];
      vm_compute in Hv; injection Hv as <-; lia.
Defined.

Lemma elem_of_button_values (min max v : Z) :
  v ∈ button_values min max ↔ min ≤ v ≤ max.
Proof.
  unfold button_values. rewrite list_elem_of_fmap. split.
  - intros (i & -> & Hi%elem_of_seqZ). lia.
  - intros Hv. exists (v - min). split; [lia|]. apply elem_of_seqZ. lia.
Qed.

(** X2. The buttons of a slider from [min] to [max] carry exactly the
    integers from [min] to [max], in increasing order, one button each; a
    slider whose [max] is below its [min] has no button. *)
Theorem button_values_range (min max : Z) :
  (∀ v, v ∈ button_values min max ↔ min ≤ v ≤ max)
  ∧ length (button_values min max) = Z.to_nat (max - min + 1)
  ∧ (∀ i v, button_values min max !! i = Some v → v = min + Z.of_nat i)
  ∧ (max < min → button_values min max = []).
Proof.
  split; [apply elem_of_button_values|]. split; [|split].
  - unfold button_values. by rewrite length_fmap, length_seqZ.
  - intros i v. unfold button_values. rewrite list_lookup_fmap.
    destruct (seqZ 0 (max - min + 1) !! i) as [j|] eqn:Hj; [|done].
    apply lookup_seqZ in Hj as [-> _]. intros [= <-]. lia.
  - intros Hlt. unfold button_values. by rewrite seqZ_nil by lia.
Qed.

(** X3. Whatever button of a trigger input is pressed, the value passed to
    [onValueChange] is a number, never null: 0 with "No" or 1 with "Yes" for
    a binary input; a number between the bounds of the scale (0 and 5 when
    the options give none) and no text for a scale; the index of an option
    with that option as text for an enum.  An input of another type has no
    button. *)
Theorem TriggerInput_presses_sound (input_type : InputType)
    (options_json : TriggerOptions.t) (value : option Z) (valueText : option string) :
  (value, valueText) ∈ TriggerInput_presses input_type options_json →
  ∃ v, value = Some v ∧
    match input_type with
    | binary => (v = 0 ∧ valueText = Some "No") ∨ (v = 1 ∧ valueText = Some "Yes")
    | scale =>
        default 0 (TriggerOptions.min options_json) ≤ v
        ≤ default 5 (TriggerOptions.max options_json)
        ∧ valueText = None
    | enum =>
        0 ≤ v ∧ ∃ option, valueText = Some option
          ∧ default [] (TriggerOptions.options options_json) !! Z.to_nat v = Some option
    | group => False
    end.
Proof.
  destruct input_type; cbn [TriggerInput_presses].
  - intros [Hin|Hin%list_elem_of_singleton]%elem_of_cons; injection Hin as -> ->;
      eexists; split; eauto.
  - intros (v & [= -> ->] & Hv%elem_of_button_values)%list_elem_of_fmap.
    exists v. by split.
  - intros (i & option & [= -> ->] & Hi)%elem_of_lookup_imap.
    exists (Z.of_nat i). split; [done|]. split; [lia|].
    exists option. split; [done|]. by rewrite Nat2Z.id.
  - by intros Hin%elem_of_nil.
Qed.

(** X3 at a scale from 1 to 3. *)
Lemma TriggerInput_presses_sound_witness :
  (Some 2, None) ∈ TriggerInput_presses scale (TriggerOptions.mk None (Some 1) (Some 3))
  ∧ ∃ v, Some 2 = Some v ∧ 1 ≤ v ≤ 3 ∧ (None : option string) = None.
Proof.
  assert (Hin : (Some 2, None)
                ∈ TriggerInput_presses scale (TriggerOptions.mk None (Some 1) (Some 3)))
    by (vm_compute; right; left).
  split; [exact Hin|].
  exact (TriggerInput_presses_sound scale (TriggerOptions.mk None (Some 1) (Some 3))
           (Some 2) None Hin).
Defined.

Lemma changeTriggerValue_values (triggerId : string) (value : option Z)
    (valueText : option string) (s : Screen.t) :
  Screen.triggerValues (changeTriggerValue triggerId value valueText s)
  = <[triggerId := TriggerValue.mk value valueText]> (Screen.triggerValues s).
Proof. by destruct s. Qed.

(** X4. A value entered for a trigger is in the write-set of the next save,
    with its text normalised by [|| null], it is the only entry of that
    trigger, and the entries of the other triggers are what they were. *)
Theorem changeTriggerValue_written (triggerId : string) (v : Z)
    (valueText : option string) (s : Screen.t) :
  (TriggerEntry.mk triggerId (Some v) (valueText_or_null valueText)
     ∈ triggerEntries
         (Screen.triggerValues (changeTriggerValue triggerId (Some v) valueText s)))
  ∧ (∀ e, TriggerEntry.trigger_id e ≠ triggerId →
          (e ∈ triggerEntries
                 (Screen.triggerValues (changeTriggerValue triggerId (Some v) valueText s))
           ↔ e ∈ triggerEntries (Screen.triggerValues s)))
  ∧ (∀ e, e ∈ triggerEntries
                (Screen.triggerValues (changeTriggerValue triggerId (Some v) valueText s)) →
          TriggerEntry.trigger_id e = triggerId →
          e = TriggerEntry.mk triggerId (Some v) (valueText_or_null valueText)).
Proof.
  rewrite changeTriggerValue_values. split; [|split].
  - apply elem_of_triggerEntries. eexists. cbn. rewrite lookup_insert_eq. by cbn.
  - intros e Hne. rewrite !elem_of_triggerEntries. by rewrite lookup_insert_ne.
  - intros e (d & Hd & _ & Hv & Ht)%elem_of_triggerEntries Hid.
    rewrite Hid, lookup_insert_eq in Hd. injection Hd as <-.
    destruct e; cbn in *. by subst.
Qed.

(** X5. Hiding the period-pain input does not clear its value: when the
    on_period input is set to anything but 1, a period_pain trigger is no
    longer among the triggers shown, but the value it holds is still in the
    write-set of the save. *)
Theorem period_pain_hidden_but_written (s : Screen.t) (p q : Trigger.t) (d : TriggerValue.t)
    (value : option Z) (valueText : option string) :
  onPeriodTrigger (Screen.enabledTriggers s) = Some p →
  q ∈ Screen.enabledTriggers s →
  Trigger.key q = "period_pain" →
  Trigger.id q ≠ Trigger.id p →
  Screen.triggerValues s !! Trigger.id q = Some d →
  TriggerValue.value d ≠ None →
  value ≠ Some 1 →
  (q ∉ filteredTriggers
         (Screen.enabledTriggers (changeTriggerValue (Trigger.id p) value valueText s))
         (Screen.triggerValues (changeTriggerValue (Trigger.id p) value valueText s)))
  ∧ TriggerEntry.mk (Trigger.id q) (TriggerValue.value d)
                    (valueText_or_null (TriggerValue.valueText d))
    ∈ triggerEntries
        (Screen.triggerValues (changeTriggerValue (Trigger.id p) value valueText s)).
Proof.
  intros Hp Hq Hkey Hne Hd Hv Hvalue.
  rewrite changeTriggerValue_values.
  replace (Screen.enabledTriggers (changeTriggerValue (Trigger.id p) value valueText s))
    with (Screen.enabledTriggers s) by (by destruct s).
  split.
  - unfold filteredTriggers. rewrite elem_of_List_filter, (bool_decide_eq_true_2 _ Hkey).
    intros [_ Hshow]. unfold showPeriodPain in Hshow.
    rewrite Hp, lookup_insert_eq in Hshow. cbn in Hshow.
    by apply bool_decide_eq_true in Hshow.
  - apply elem_of_triggerEntries. exists d. cbn. by rewrite lookup_insert_ne.
Qed.

(** X5 at a form in which on_period is 1 and period pain is 3: "No" is
    pressed on on_period. *)
Lemma period_pain_hidden_but_written_witness :
  (onPeriodTrigger (Screen.enabledTriggers Example2.cycle_form) = Some Example2.on_period
   ∧ Example2.period_pain ∈ Screen.enabledTriggers Example2.cycle_form
   ∧ Screen.triggerValues Example2.cycle_form !! "t-pain"
     = Some (TriggerValue.mk (Some 3) None))
  ∧ (Example2.period_pain
     ∉ filteredTriggers
         (Screen.enabledTriggers
            (changeTriggerValue "t-period" (Some 0) (Some "No") Example2.cycle_form))
         (Screen.triggerValues
            (changeTriggerValue "t-period" (Some 0) (Some "No") Example2.cycle_form)))
  ∧ TriggerEntry.mk "t-pain" (Some 3) None
    ∈ triggerEntries
        (Screen.triggerValues
           (changeTriggerValue "t-period" (Some 0) (Some "No") Example2.cycle_form)).
Proof.
  assert (Hhyp : onPeriodTrigger (Screen.enabledTriggers Example2.cycle_form)
                 = Some Example2.on_period
                 ∧ Example2.period_pain ∈ Screen.enabledTriggers Example2.cycle_form
                 ∧ Screen.triggerValues Example2.cycle_form !! "t-pain"
                   = Some (TriggerValue.mk (Some 3) None)).
  { split; [vm_compute; reflexivity|]. split; [right; left|vm_compute; reflexivity]. }
  split; [exact Hhyp|]. destruct Hhyp as (Hp & Hq & Hd).
  refine (period_pain_hidden_but_written Example2.cycle_form Example2.on_period
            Example2.period_pain (TriggerValue.mk (Some 3) None) (Some 0) (Some "No")
            Hp Hq eq_refl _ Hd _ _).
  - intros Heq. vm_compute in Heq. discriminate Heq.
  - intros Heq. discriminate Heq.
  - intros Heq. discriminate Heq.
Defined.

Lemma toggleCondition_selected (conditionId : string) (s : Screen.t) :
  Screen.selectedConditions (toggleCondition conditionId s)
  = if bool_decide (conditionId ∈ Screen.selectedConditions s)
    then List.filter (λ id, bool_decide (id ≠ conditionId)) (Screen.selectedConditions s)
    else Screen.selectedConditions s ++ [conditionId].
Proof. unfold toggleCondition. destruct s. cbn. by case_bool_decide. Qed.

Lemma toggleCondition_severities (conditionId : string) (s : Screen.t) :
  Screen.conditionSeverities (toggleCondition conditionId s)
  = if bool_decide (conditionId ∈ Screen.selectedConditions s)
    then delete conditionId (Screen.conditionSeverities s)
    else Screen.conditionSeverities s.
Proof. unfold toggleCondition. destruct s. cbn. by case_bool_decide. Qed.

(** X6. A press on a condition flips its selection and nothing else: the
    condition is selected afterwards exactly when it was not before, the
    selection and the severity of every other condition are unchanged,
    and the severity of the condition itself is dropped when the press
    deselects it and unchanged when the press selects it. *)
Theorem toggleCondition_flips (conditionId : string) (s : Screen.t) :
  (conditionId ∈ Screen.selectedConditions (toggleCondition conditionId s)
   ↔ conditionId ∉ Screen.selectedConditions s)
  ∧ (∀ id, id ≠ conditionId →
           (id ∈ Screen.selectedConditions (toggleCondition conditionId s)
            ↔ id ∈ Screen.selectedConditions s)
           ∧ Screen.conditionSeverities (toggleCondition conditionId s) !! id
             = Screen.conditionSeverities s !! id)
  ∧ (conditionId ∈ Screen.selectedConditions s →
     Screen.conditionSeverities (toggleCondition conditionId s) !! conditionId = None)
  ∧ (conditionId ∉ Screen.selectedConditions s →
     Screen.conditionSeverities (toggleCondition conditionId s)
     = Screen.conditionSeverities s).
Proof.
  rewrite toggleCondition_selected, toggleCondition_severities.
  case_bool_decide as Hin; (split; [|split; [|split]]).
  - rewrite elem_of_List_filter, bool_decide_eq_true. tauto.
  - intros id Hne. rewrite elem_of_List_filter, bool_decide_eq_true.
    rewrite lookup_delete_ne by done. tauto.
  - intros _. apply lookup_delete_eq.
  - done.
  - rewrite elem_of_app, list_elem_of_singleton. tauto.
  - intros id Hne. rewrite elem_of_app, list_elem_of_singleton. tauto.
  - done.
  - done.
Qed.

(** X7. Two presses on a condition that was not selected restore the
    selection.  Two presses on a selected condition keep it selected but
    move it to the end of the selection; in both cases the severity of
    the condition is gone. *)
Theorem toggleCondition_twice (conditionId : string) (s : Screen.t) :
  (conditionId ∉ Screen.selectedConditions s →
   Screen.selectedConditions (toggleCondition conditionId (toggleCondition conditionId s))
   = Screen.selectedConditions s)
  ∧ (conditionId ∈ Screen.selectedConditions s →
     Screen.selectedConditions (toggleCondition conditionId (toggleCondition conditionId s))
     = List.filter (λ id, bool_decide (id ≠ conditionId)) (Screen.selectedConditions s)
       ++ [conditionId])
  ∧ Screen.conditionSeverities (toggleCondition conditionId (toggleCondition conditionId s))
    = delete conditionId (Screen.conditionSeverities s).
Proof.
  rewrite !toggleCondition_selected, !toggleCondition_severities, !toggleCondition_selected.
  destruct (decide (conditionId ∈ Screen.selectedConditions s)) as [Hin|Hnotin].
  - rewrite (bool_decide_eq_true_2 _ Hin).
    rewrite bool_decide_eq_false_2.
    2:{ rewrite elem_of_List_filter, bool_decide_eq_true. tauto. }
    by repeat split.
  - rewrite (bool_decide_eq_false_2 _ Hnotin).
    rewrite bool_decide_eq_true_2 by (apply elem_of_app; right; by left).
    split; [|by split].
    intros _. rewrite List.filter_app. cbn.
    rewrite bool_decide_eq_false_2 by tauto. rewrite app_nil_r.
    apply List_filter_all. intros id Hid. apply bool_decide_eq_true. by intros ->.
Qed.

(** X8. A severity chosen on the slider of a selected condition is forgotten
    when the condition is deselected: once it is selected again it has no
    severity, and a save writes its row with a null severity. *)
Theorem deselect_forgets_severity (conditionId : string) (v : Z) (s : Screen.t) :
  conditionId ∈ Screen.selectedConditions s →
  Screen.conditionSeverities (changeConditionSeverity conditionId v s) !! conditionId
  = Some v
  ∧ conditionId
    ∈ Screen.selectedConditions
        (toggleCondition conditionId
           (toggleCondition conditionId (changeConditionSeverity conditionId v s)))
  ∧ Screen.conditionSeverities
      (toggleCondition conditionId
         (toggleCondition conditionId (changeConditionSeverity conditionId v s)))
      !! conditionId = None
  ∧ ∀ log_id,
      ConditionRow.mk log_id conditionId None
      ∈ condition_rows log_id
          (toggleCondition conditionId
             (toggleCondition conditionId (changeConditionSeverity conditionId v s))).
Proof.
  intros Hin.
  assert (Hsel : Screen.selectedConditions (changeConditionSeverity conditionId v s)
                 = Screen.selectedConditions s) by (by destruct s).
  assert (Hback : conditionId
    ∈ Screen.selectedConditions
        (toggleCondition conditionId
           (toggleCondition conditionId (changeConditionSeverity conditionId v s)))).
  { rewrite !toggleCondition_selected, Hsel, (bool_decide_eq_true_2 _ Hin).
    rewrite bool_decide_eq_false_2.
    - apply elem_of_app. right. left.
    - rewrite elem_of_List_filter, bool_decide_eq_true. tauto. }
  assert (Hgone : Screen.conditionSeverities
      (toggleCondition conditionId
         (toggleCondition conditionId (changeConditionSeverity conditionId v s)))
      !! conditionId = None).
  { rewrite !toggleCondition_severities, !toggleCondition_selected, Hsel.
    rewrite (bool_decide_eq_true_2 _ Hin).
    rewrite bool_decide_eq_false_2.
    - apply lookup_delete_eq.
    - rewrite elem_of_List_filter, bool_decide_eq_true. tauto. }
  split; [destruct s; apply lookup_insert_eq|]. split; [done|]. split; [done|].
  intros log_id. unfold condition_rows. apply list_elem_of_fmap.
  exists conditionId. by rewrite Hgone.
Qed.

(** X8 at the form [Example.form0], whose condition migraine is selected. *)
Lemma deselect_forgets_severity_witness :
  "migraine" ∈ Screen.selectedConditions Example.form0
  ∧ Screen.conditionSeverities
      (toggleCondition "migraine"
         (toggleCondition "migraine" (changeConditionSeverity "migraine" 4 Example.form0)))
      !! "migraine" = None.
Proof.
  assert (Hin : "migraine" ∈ Screen.selectedConditions Example.form0) by left.
  split; [exact Hin|].
  exact (proj1 (proj2 (proj2 (deselect_forgets_severity "migraine" 4 Example.form0 Hin)))).
Defined.

Section FormAutosave.
Context `{Host}.

(** X9. On a form that is hydrated and not saved, every press on a condition
    initiates an autosave, and what it writes under the draft key of the
    mode is the form as it is after the press. *)
Theorem toggle_is_autosaved (userId : option string) (uid today : string)
    (conditionId : string) (s : Screen.t) :
  signedIn userId = Some uid →
  Screen.hydrated s = true →
  Screen.saved s = false →
  autosaveWrite userId today s (toggleCondition conditionId s)
  = Some (draftKey userId today (Screen.mode s),
          JSON_stringify (draftOf (toggleCondition conditionId s))).
Proof.
  intros Huid Hhyd Hsaved.
  assert (Hflags : Screen.hydrated (toggleCondition conditionId s) = true
                   ∧ Screen.saved (toggleCondition conditionId s) = false
                   ∧ Screen.mode (toggleCondition conditionId s) = Screen.mode s).
  { unfold toggleCondition. destruct s. cbn in *. by case_bool_decide. }
  destruct Hflags as (Hhyd' & Hsaved' & Hmode').
  unfold autosaveWrite, autosaveEffect, saveDraft. rewrite Huid, Hhyd', Hsaved'.
  rewrite bool_decide_eq_false_2.
  - cbn. unfold draftOf. by rewrite Hmode'.
  - unfold autosaveDeps. intros [= _ _ _ _ Hsel _].
    rewrite toggleCondition_selected in Hsel.
    case_bool_decide as Hin.
    + rewrite Hsel in Hin. apply elem_of_List_filter in Hin as [_ Hne].
      by apply bool_decide_eq_true in Hne.
    + apply Hin. rewrite Hsel. apply elem_of_app. right. left.
Qed.

End FormAutosave.

(** X9 at the form [Example.form0]. *)
Lemma toggle_is_autosaved_witness :
  (signedIn Example.user = Some "u1"
   ∧ Screen.hydrated Example.form0 = true ∧ Screen.saved Example.form0 = false)
  ∧ @autosaveWrite Example.host Example.user Example.today Example.form0
      (toggleCondition "fatigue" Example.form0)
    = Some (draftKey Example.user Example.today daily,
            Example.stringify (@draftOf Example.host (toggleCondition "fatigue" Example.form0))).
Proof.
  split; [by repeat split|].
  exact (@toggle_is_autosaved Example.host Example.user "u1" Example.today "fatigue"
           Example.form0 eq_refl eq_refl eq_refl).
Defined.

(** ** Hydration: the remaining paths *)

Section HydrationPaths.
Context `{Host}.

(** X10. Hydration only reads: whatever fails and whenever it is cancelled,
    a pass leaves the draft cache and the tables as they were, every call it
    awaits is a select, it shows no alert and does not navigate.  A pass of a
    signed-in user that is not cancelled and whose read of the draft cache is
    not rejected ends with the hydrated flag set, also when a select on a
    table failed; such a failure is logged to the console and nowhere
    else.  The read of the cache is awaited outside any [try], and the
    pass itself is not caught: a pass whose read is rejected ends where it
    stands at that await, the first one, with the form reset, the hydrated
    flag unset by an uncancelled write, and nothing logged. *)
Theorem hydrate_reads_only (userId : option string) (today : string) (mode : Mode)
    (sch : Schedule) (s : Screen.t) (storage : gmap string string) (db : DB.t) :
  Env.storage (run sch (hydrate userId today mode) s storage db) = storage
  ∧ Env.db (run sch (hydrate userId today mode) s storage db) = db
  ∧ Env.alerts (run sch (hydrate userId today mode) s storage db) = []
  ∧ Env.routes (run sch (hydrate userId today mode) s storage db) = []
  ∧ Forall (λ c, verb c = Select)
           (Env.calls (run sch (hydrate userId today mode) s storage db))
  ∧ (is_Some (signedIn userId) → cancel_at sch = None →
     Forall (λ c, table c = AsyncStorage → failed c = false)
            (Env.calls (run sch (hydrate userId today mode) s storage db)) →
     Screen.hydrated (Env.screen (run sch (hydrate userId today mode) s storage db)) = true)
  ∧ (Exists (λ c, table c ≠ AsyncStorage ∧ failed c = true)
            (Env.calls (run sch (hydrate userId today mode) s storage db)) →
     ∃ error, Env.console (run sch (hydrate userId today mode) s storage db)
              = ["[UnifiedLogScreen] hydrate daily from DB failed " +:+ error])
  ∧ (is_Some (signedIn userId) →
     (∃ k, (suspended sch 0 (hydrate userId today mode) (Env.start s storage db)).1
           = Await (getItem (draftKey userId today mode)) k)
     ∧ (suspended sch 0 (hydrate userId today mode) (Env.start s storage db)).2
       = Env.mk (Screen.mk (Screen.mode s) (Screen.loading s) (Screen.saved s) None [] ∅ ""
                           (Screen.enabledTriggers s) ∅ (Screen.triggersLoading s) ""
                           false)
                storage db [] [] [] []
                [(false, setHydrated false); (false, setOverallSeverity None);
                 (false, setSelectedConditions []); (false, setConditionSeverities ∅);
                 (false, setWhatDoing ""); (false, setNotes "");
                 (false, setTriggerValues ∅)]
                []).
Proof.
  unfold run.
  remember (exec sch (hydrate userId today mode) (Env.start s storage db)) as r eqn:Hr.
  remember (suspended sch 0 (hydrate userId today mode) (Env.start s storage db))
    as p eqn:Hp.
  unfold hydrate, loadDraft in Hr, Hp.
  destruct (signedIn userId) as [uid|].
  2:{ subst r p; cbn. do 7 (try apply conj); try reflexivity.
      all: first [by intros [? ?] | by intros ?%Exists_nil | constructor]. }
  assert (Hc0 : cancelled_after sch 0 = false).
  { unfold cancelled_after. destruct (cancel_at sch); [|done].
    apply bool_decide_eq_false. lia. }
  destruct s as [mode0 loading saved sev sel csev doing trigs tv tl notes hyd],
           db as [dl dlc dlt ml mlc mlt us ut n].
  cbn in Hr, Hp. rewrite !Hc0 in Hp.
  assert (Hstands : is_Some (Some uid) →
    (∃ k, p.1 = Await (getItem (draftKey userId today mode)) k)
    ∧ p.2 = Env.mk (Screen.mk mode0 loading saved None [] ∅ "" trigs ∅ tl "" false)
                   storage (DB.mk dl dlc dlt ml mlc mlt us ut n)
                   [] [] [] []
                   [(false, setHydrated false); (false, setOverallSeverity None);
                    (false, setSelectedConditions []); (false, setConditionSeverities ∅);
                    (false, setWhatDoing ""); (false, setNotes "");
                    (false, setTriggerValues ∅)]
                   []).
  { intros _. subst p. cbn. split; [by eexists|done]. }
  clear Hp.
  destruct (storage !! draftKey userId today mode) as [raw|]; cbn in Hr.
  all: try (destruct (bool_decide (raw = "")); cbn in Hr).
  all: try (destruct (JSON_parse raw) as [draft|]; cbn in Hr).
  all: destruct (cancelled_after sch 1) eqn:Hc1; cbn in Hr.
  all: destruct mode; cbn in Hr.
  all: repeat run_step Hr.
  all: subst r; cbn.
  all: do 7 (try (apply conj)); try exact Hstands; try reflexivity; try (repeat constructor).
  all: try (intros _ Hcancel _; unfold cancelled_after in *; rewrite Hcancel in *; done).
  all: try (intros Hx; exfalso;
            repeat (apply Exists_cons in Hx as [[Ht Hfl]|Hx]; [cbn in Ht, Hfl; congruence|]);
            by apply Exists_nil in Hx).
  all: try (intros _; eauto).
Qed.

(** What an uncancelled hydration pass of the daily form does when no draft
    is stored and today's row exists. *)
Lemma hydrate_daily_row_exec (userId : option string) (uid today : string)
    (sch : Schedule) (s : Screen.t) (storage : gmap string string)
    (db : DB.t) (row : DailyLog.t) :
  signedIn userId = Some uid →
  cancel_at sch = None →
  storage !! draftKey userId today daily = None →
  daily_logs_of uid today (DB.daily_logs db) = [row] →
  DailyLog.id row ≠ "" →
  (Forall (λ c, failed c = false)
     (Env.calls (run sch (hydrate userId today daily) s storage db)) →
   Env.screen (run sch (hydrate userId today daily) s storage db)
   = Screen.mk (Screen.mode s) (Screen.loading s) (Screen.saved s)
       (DailyLog.overall_severity row)
       (ConditionRow.user_condition_id
          <$> conditions_of (DailyLog.id row) (DB.daily_log_conditions db))
       (severities_of (conditions_of (DailyLog.id row) (DB.daily_log_conditions db)))
       ""
       (Screen.enabledTriggers s)
       (trigger_values_of (triggers_of (DailyLog.id row) (DB.daily_log_triggers db)))
       (Screen.triggersLoading s)
       (default "" (DailyLog.notes row))
       true
   ∧ (λ c, (table c, verb c))
       <$> Env.calls (run sch (hydrate userId today daily) s storage db)
     = [(AsyncStorage, Select); (daily_logs, Select);
        (daily_log_conditions, Select); (daily_log_triggers, Select)])
  ∧ (Exists (λ c, table c ≠ daily_logs ∧ failed c = true)
       (Env.calls (run sch (hydrate userId today daily) s storage db)) →
     (Env.screen (run sch (hydrate userId today daily) s storage db)
      = Screen.mk (Screen.mode s) (Screen.loading s) (Screen.saved s)
          (DailyLog.overall_severity row) [] ∅ "" (Screen.enabledTriggers s) ∅
          (Screen.triggersLoading s) (default "" (DailyLog.notes row)) true
      ∨ Env.screen (run sch (hydrate userId today daily) s storage db)
        = Screen.mk (Screen.mode s) (Screen.loading s) (Screen.saved s)
            (DailyLog.overall_severity row)
            (ConditionRow.user_condition_id
               <$> conditions_of (DailyLog.id row) (DB.daily_log_conditions db))
            (severities_of (conditions_of (DailyLog.id row) (DB.daily_log_conditions db)))
            "" (Screen.enabledTriggers s) ∅
            (Screen.triggersLoading s) (default "" (DailyLog.notes row)) true)
     ∧ Env.alerts (run sch (hydrate userId today daily) s storage db) = []
     ∧ ∃ error, Env.console (run sch (hydrate userId today daily) s storage db)
                = ["[UnifiedLogScreen] hydrate daily from DB failed " +:+ error]).
Proof.
  intros Huid Hcancel Hnone Hrow Hid. unfold run.
  assert (Hc : ∀ n, cancelled_after sch n = false)
    by (intros n; unfold cancelled_after; by rewrite Hcancel).
  remember (exec sch (hydrate userId today daily)
                 (Env.start s storage db)) as r eqn:Hr.
  unfold hydrate, loadDraft in Hr. rewrite Huid in Hr.
  destruct s, db. unfold daily_logs_of in Hrow. cbn in Hr, Hrow.
  rewrite Hnone in Hr. cbn in Hr. rewrite !Hc in Hr. cbn in Hr.
  destruct (fault sch 1) as [err|] eqn:Hf1; cbn in Hr;
    [|rewrite Hrow in Hr; cbn in Hr; rewrite !Hc in Hr;
      rewrite (bool_decide_eq_false_2 _ Hid) in Hr; cbn in Hr];
    repeat (first [rewrite !Hc in Hr; cbn in Hr | run_step Hr]); subst r; cbn.
  all: split; [first [all_succeeded_absurd | intros _; done]|].
  all: first [ intros Hchild; exfalso;
               repeat (apply Exists_cons in Hchild as [[Ht Hfl]|Hchild];
                       [cbn in Ht, Hfl; congruence|]);
               by apply Exists_nil in Hchild
             | intros _ ].
  all: split; [first [by left | by right]|]. 
  all: split; [done|by eexists].
Qed.

(** X11. With no draft stored, the daily form is filled from today's row:
    the overall severity and the notes of the row (an absent note as the empty
    string), the conditions of the row in the order of the select with the
    severities that are not null, and the trigger values of the row; the
    hydrated flag is set, by one read of the cache and three selects. *)
Theorem hydrate_daily_from_row (userId : option string) (uid today : string)
    (sch : Schedule) (s : Screen.t) (storage : gmap string string)
    (db : DB.t) (row : DailyLog.t) :
  signedIn userId = Some uid →
  cancel_at sch = None →
  storage !! draftKey userId today daily = None →
  daily_logs_of uid today (DB.daily_logs db) = [row] →
  DailyLog.id row ≠ "" →
  Forall (λ c, failed c = false)
    (Env.calls (run sch (hydrate userId today daily) s storage db)) →
  Env.screen (run sch (hydrate userId today daily) s storage db)
  = Screen.mk (Screen.mode s) (Screen.loading s) (Screen.saved s)
      (DailyLog.overall_severity row)
      (ConditionRow.user_condition_id
         <$> conditions_of (DailyLog.id row) (DB.daily_log_conditions db))
      (severities_of (conditions_of (DailyLog.id row) (DB.daily_log_conditions db)))
      ""
      (Screen.enabledTriggers s)
      (trigger_values_of (triggers_of (DailyLog.id row) (DB.daily_log_triggers db)))
      (Screen.triggersLoading s)
      (default "" (DailyLog.notes row))
      true
  ∧ (λ c, (table c, verb c))
      <$> Env.calls (run sch (hydrate userId today daily) s storage db)
    = [(AsyncStorage, Select); (daily_logs, Select);
       (daily_log_conditions, Select); (daily_log_triggers, Select)].
Proof.
  intros Huid Hcancel Hnone Hrow Hid.
  apply (hydrate_daily_row_exec userId uid today sch s storage db row); done.
Qed.

(** X12. When a select on a child table fails while the daily form is filled
    from today's row, the form keeps the severity and the notes of the row,
    has no trigger values, and is marked hydrated without an alert; the render
    that follows therefore autosaves this partial form as the draft. *)
Theorem hydrate_daily_child_failure_partial_form (userId : option string)
    (uid today : string) (sch : Schedule) (s : Screen.t) (storage : gmap string string)
    (db : DB.t) (row : DailyLog.t) :
  signedIn userId = Some uid →
  cancel_at sch = None →
  storage !! draftKey userId today daily = None →
  daily_logs_of uid today (DB.daily_logs db) = [row] →
  DailyLog.id row ≠ "" →
  Screen.saved s = false →
  Exists (λ c, table c ≠ daily_logs ∧ failed c = true)
    (Env.calls (run sch (hydrate userId today daily) s storage db)) →
  Screen.overallSeverity (Env.screen (run sch (hydrate userId today daily) s storage db))
  = DailyLog.overall_severity row
  ∧ Screen.notes (Env.screen (run sch (hydrate userId today daily) s storage db))
    = default "" (DailyLog.notes row)
  ∧ Screen.triggerValues (Env.screen (run sch (hydrate userId today daily) s storage db))
    = ∅
  ∧ Screen.hydrated (Env.screen (run sch (hydrate userId today daily) s storage db))
    = true
  ∧ Env.alerts (run sch (hydrate userId today daily) s storage db) = []
  ∧ (∀ prev, Screen.hydrated prev = false →
       autosaveWrite userId today prev
         (Env.screen (run sch (hydrate userId today daily) s storage db))
       = Some (draftKey userId today (Screen.mode s),
               JSON_stringify
                 (draftOf (Env.screen (run sch (hydrate userId today daily) s storage db))))).
Proof.
  intros Huid Hcancel Hnone Hrow Hid Hsaved Hfailed.
  destruct (hydrate_daily_row_exec userId uid today sch s storage db row
              Huid Hcancel Hnone Hrow Hid) as [_ Hpartial].
  destruct (Hpartial Hfailed) as (Hscreen & Halerts & _).
  assert (Hwrite : ∀ prev next,
            Screen.hydrated prev = false → Screen.hydrated next = true →
            Screen.saved next = false →
            autosaveWrite userId today prev next
            = Some (draftKey userId today (Screen.mode next),
                    JSON_stringify (draftOf next))).
  { intros prev next Hprev Hhyd Hsv.
    unfold autosaveWrite, autosaveEffect, saveDraft. rewrite Huid, Hhyd, Hsv.
    rewrite bool_decide_eq_false_2; [done|].
    unfold autosaveDeps. rewrite Hprev, Hhyd. by intros [=]. }
  destruct Hscreen as [-> | ->]; cbn [Screen.overallSeverity Screen.notes
    Screen.triggerValues Screen.hydrated].
  all: do 4 (split; [done|]); split; [done|].
  all: intros prev Hprev;
       match goal with
       | |- autosaveWrite _ _ _ ?next = _ => exact (Hwrite prev next Hprev eq_refl Hsaved)
       end.
Qed.

(** X13. A stored draft that is the empty string or that [JSON.parse]
    rejects is treated as no draft: the pass fills the form, makes the calls
    and logs what it would with nothing stored under the key; it shows no
    alert and leaves the corrupt entry in the cache. *)
Theorem hydrate_corrupt_draft_as_absent (userId : option string) (today : string)
    (mode : Mode) (sch : Schedule) (s : Screen.t) (storage : gmap string string)
    (db : DB.t) (raw : string) :
  storage !! draftKey userId today mode = Some raw →
  raw = "" ∨ JSON_parse raw = None →
  Env.screen (run sch (hydrate userId today mode) s storage db)
  = Env.screen (run sch (hydrate userId today mode) s
                    (delete (draftKey userId today mode) storage) db)
  ∧ Env.calls (run sch (hydrate userId today mode) s storage db)
    = Env.calls (run sch (hydrate userId today mode) s
                     (delete (draftKey userId today mode) storage) db)
  ∧ Env.console (run sch (hydrate userId today mode) s storage db)
    = Env.console (run sch (hydrate userId today mode) s
                       (delete (draftKey userId today mode) storage) db)
  ∧ Env.alerts (run sch (hydrate userId today mode) s storage db) = []
  ∧ Env.storage (run sch (hydrate userId today mode) s storage db) = storage.
Proof.
  intros Hraw Hbad. unfold run.
  remember (exec sch (hydrate userId today mode) (Env.start s storage db)) as r eqn:Hr.
  remember (exec sch (hydrate userId today mode)
                 (Env.start s (delete (draftKey userId today mode) storage) db))
    as r' eqn:Hr'.
  unfold hydrate, loadDraft in Hr, Hr'.
  destruct (signedIn userId) as [uid|]; [|by subst r r'].
  destruct s, db. cbn in Hr, Hr'.
  rewrite Hraw in Hr. rewrite lookup_delete_eq in Hr'. cbn in Hr, Hr'.
  assert (Hnone : (if bool_decide (raw = "") then @Ret (option Draft.t) None
                   else Ret (JSON_parse raw)) = Ret None).
  { destruct Hbad as [->|Hparse]; [done|]. rewrite Hparse. by case_bool_decide. }
  rewrite Hnone in Hr. cbn in Hr. clear Hnone Hraw Hbad.
  destruct mode; cbn in Hr, Hr'.
  all: repeat (run_step Hr; cbn in Hr').
  all: by subst r r'.
Qed.

(** X14. With no draft stored, a quick log starts blank: the pass resets
    the form, sets the hydrated flag and reads nothing but the draft cache. *)
Theorem hydrate_moment_starts_blank (userId : option string) (uid today : string)
    (sch : Schedule) (s : Screen.t) (storage : gmap string string) (db : DB.t) :
  signedIn userId = Some uid →
  cancel_at sch = None →
  storage !! draftKey userId today moment = None →
  Env.screen (run sch (hydrate userId today moment) s storage db)
  = Screen.mk (Screen.mode s) (Screen.loading s) (Screen.saved s) None [] ∅ ""
              (Screen.enabledTriggers s) ∅ (Screen.triggersLoading s) "" true
  ∧ Env.calls (run sch (hydrate userId today moment) s storage db)
    = [{| table := AsyncStorage; verb := Select; failed := false |}].
Proof.
  intros Huid Hcancel Hnone. unfold run, hydrate, loadDraft. rewrite Huid.
  assert (Hc : ∀ n, cancelled_after sch n = false)
    by (intros n; unfold cancelled_after; by rewrite Hcancel).
  destruct s, db. cbn. rewrite Hnone. cbn. repeat (rewrite Hc; cbn). done.
Qed.

(** X15. A pass cancelled while it reads the draft cache writes nothing
    from the draft or from today's row and never sets the hydrated flag,
    whatever is stored.  In the quick-log form it makes no state write at
    all once cancelled and awaits nothing more.  In the daily form it still
    makes one, [setWhatDoing('')], which no test of [cancelled] guards, and
    still looks up today's row.  A daily pass without a draft that is
    cancelled during that lookup makes no state write once cancelled.  In
    each case the form of a run on its own ends blank. *)
Theorem hydrate_cancelled_early_writes (userId : option string)
    (uid today : string) (mode : Mode) (sch : Schedule) (s : Screen.t)
    (storage : gmap string string) (db : DB.t) :
  signedIn userId = Some uid →
  cancel_at sch = Some 0%nat
  ∨ (cancel_at sch = Some 1%nat ∧ mode = daily
     ∧ storage !! draftKey userId today mode = None) →
  List.filter (λ w : bool * Setter, w.1)
              (Env.sets (run sch (hydrate userId today mode) s storage db))
  = match cancel_at sch, mode with
    | Some O, daily => [(true, setWhatDoing "")]
    | _, _ => []
    end
  ∧ Env.screen (run sch (hydrate userId today mode) s storage db)
    = Screen.mk (Screen.mode s) (Screen.loading s) (Screen.saved s) None [] ∅ ""
                (Screen.enabledTriggers s) ∅ (Screen.triggersLoading s) "" false
  ∧ (λ c, (table c, verb c))
      <$> Env.calls (run sch (hydrate userId today mode) s storage db)
    = match mode with
      | daily => [(AsyncStorage, Select); (daily_logs, Select)]
      | moment => [(AsyncStorage, Select)]
      end.
Proof.
  intros Huid Hcancel. unfold run.
  remember (exec sch (hydrate userId today mode) (Env.start s storage db)) as r eqn:Hr.
  unfold hydrate, loadDraft in Hr. rewrite Huid in Hr.
  assert (Hc0 : cancelled_after sch 0 = false).
  { unfold cancelled_after. destruct (cancel_at sch); [|done].
    apply bool_decide_eq_false. lia. }
  destruct s, db. cbn in Hr. rewrite !Hc0 in Hr.
  destruct Hcancel as [Hcancel|(Hcancel & -> & Hnone)]; rewrite Hcancel.
  - assert (Hc : ∀ n, cancelled_after sch (S n) = true)
      by (intros n; unfold cancelled_after; rewrite Hcancel;
          apply bool_decide_eq_true; lia).
    destruct (storage !! draftKey userId today mode) as [raw|]; cbn in Hr.
    all: try (destruct (bool_decide (raw = "")); cbn in Hr).
    all: try (destruct (JSON_parse raw) as [draft|]; cbn in Hr).
    all: rewrite ?Hc in Hr; cbn in Hr.
    all: destruct mode; cbn in Hr.
    all: repeat (first [rewrite !Hc in Hr; cbn in Hr | run_step Hr]).
    all: by subst r.
  - assert (Hc : ∀ n, cancelled_after sch (S (S n)) = true)
      by (intros n; unfold cancelled_after; rewrite Hcancel;
          apply bool_decide_eq_true; lia).
    assert (Hc1 : cancelled_after sch 1 = false)
      by (unfold cancelled_after; rewrite Hcancel; apply bool_decide_eq_false; lia).
    rewrite Hnone in Hr. cbn in Hr. rewrite !Hc1 in Hr. cbn in Hr.
    all: repeat (first [rewrite !Hc in Hr; cbn in Hr | run_step Hr]).
    all: by subst r.
Qed.

End HydrationPaths.

(** X10 at the tables [Example.db0], the lookup of today's row (the call
    numbered 1) failing: the pass still ends hydrated, with one line on the
    console; and the pass as it stands at the read of the cache. *)
Lemma hydrate_reads_only_witness :
  (is_Some (signedIn Example.user)
   ∧ cancel_at (Example.failing_at 1) = None
   ∧ Forall (λ c, table c = AsyncStorage → failed c = false)
       (Env.calls (run (Example.failing_at 1)
                       (@hydrate Example.host Example.user Example.today daily)
                       (Screen.initial daily) ∅ Example.db0))
   ∧ Exists (λ c, table c ≠ AsyncStorage ∧ failed c = true)
       (Env.calls (run (Example.failing_at 1)
                       (@hydrate Example.host Example.user Example.today daily)
                       (Screen.initial daily) ∅ Example.db0)))
  ∧ Screen.hydrated
      (Env.screen (run (Example.failing_at 1)
                       (@hydrate Example.host Example.user Example.today daily)
                       (Screen.initial daily) ∅ Example.db0))
    = true
  ∧ (∃ error,
       Env.console (run (Example.failing_at 1)
                        (@hydrate Example.host Example.user Example.today daily)
                        (Screen.initial daily) ∅ Example.db0)
       = ["[UnifiedLogScreen] hydrate daily from DB failed " +:+ error])
  ∧ Screen.hydrated
      (Env.screen (suspended (Example.failing_at 1) 0
                     (@hydrate Example.host Example.user Example.today daily)
                     (Env.start (Screen.initial daily) ∅ Example.db0)).2)
    = false.
Proof.
  assert (Hhyp : is_Some (signedIn Example.user)
   ∧ cancel_at (Example.failing_at 1) = None
   ∧ Forall (λ c, table c = AsyncStorage → failed c = false)
       (Env.calls (run (Example.failing_at 1)
                       (@hydrate Example.host Example.user Example.today daily)
                       (Screen.initial daily) ∅ Example.db0))
   ∧ Exists (λ c, table c ≠ AsyncStorage ∧ failed c = true)
       (Env.calls (run (Example.failing_at 1)
                       (@hydrate Example.host Example.user Example.today daily)
                       (Screen.initial daily) ∅ Example.db0))).
  { split; [by eexists|]. split; [reflexivity|]. split.
    - vm_compute. repeat constructor. intros Heq. discriminate Heq.
    - vm_compute. right. left. split; [intros Heq; discriminate Heq|reflexivity]. }
  split; [exact Hhyp|]. destruct Hhyp as (Huid & Hcancel & Hcache & Hfailed).
  destruct (@hydrate_reads_only Example.host Example.user Example.today daily
              (Example.failing_at 1) (Screen.initial daily) ∅ Example.db0)
    as (_ & _ & _ & _ & _ & Hhydrated & Hlogged & Hstands).
  split; [exact (Hhydrated Huid Hcancel Hcache)|].
  split; [exact (Hlogged Hfailed)|].
  destruct (Hstands Huid) as [_ Henv]. rewrite Henv. reflexivity.
Defined.

(** X11 at the tables [Example.db0]. *)
Lemma hydrate_daily_from_row_witness :
  (signedIn Example.user = Some "u1"
   ∧ daily_logs_of "u1" Example.today (DB.daily_logs Example.db0)
     = [DailyLog.mk "L1" "u1" "2025-03-01" (Some 5) (Some "from the server") None]
   ∧ Forall (λ c, failed c = false)
       (Env.calls (run undisturbed (@hydrate Example.host Example.user Example.today daily)
                       (Screen.initial daily) ∅ Example.db0)))
  ∧ Env.screen (run undisturbed (@hydrate Example.host Example.user Example.today daily)
                    (Screen.initial daily) ∅ Example.db0)
    = Screen.mk daily false false (Some 5) ["fatigue"] {[ "fatigue" := 3 ]} "" []
                {[ "stress" := TriggerValue.mk (Some 1) (Some "Yes") ]} false
                "from the server" true.
Proof.
  assert (Hhyp : signedIn Example.user = Some "u1"
   ∧ daily_logs_of "u1" Example.today (DB.daily_logs Example.db0)
     = [DailyLog.mk "L1" "u1" "2025-03-01" (Some 5) (Some "from the server") None]
   ∧ Forall (λ c, failed c = false)
       (Env.calls (run undisturbed (@hydrate Example.host Example.user Example.today daily)
                       (Screen.initial daily) ∅ Example.db0))).
  { split; [reflexivity|]. split; [vm_compute; reflexivity|].
    vm_compute. repeat constructor. }
  split; [exact Hhyp|]. destruct Hhyp as (Huid & Hrow & Hok).
  refine (eq_trans (proj1
    (@hydrate_daily_from_row Example.host Example.user "u1" Example.today undisturbed
       (Screen.initial daily) ∅ Example.db0 _ Huid eq_refl _ Hrow _ Hok)) _).
  - vm_compute. reflexivity.
  - intros Heq. discriminate Heq.
  - vm_compute. reflexivity.
Defined.

(** X12 at the tables [Example.db0], the select on the conditions of the
    row (the call numbered 2) failing. *)
Lemma hydrate_daily_child_failure_partial_form_witness :
  (signedIn Example.user = Some "u1"
   ∧ daily_logs_of "u1" Example.today (DB.daily_logs Example.db0)
     = [DailyLog.mk "L1" "u1" "2025-03-01" (Some 5) (Some "from the server") None]
   ∧ Exists (λ c, table c ≠ daily_logs ∧ failed c = true)
       (Env.calls (run (Example.failing_at 2)
                       (@hydrate Example.host Example.user Example.today daily)
                       (Screen.initial daily) ∅ Example.db0)))
  ∧ Screen.overallSeverity
      (Env.screen (run (Example.failing_at 2)
                       (@hydrate Example.host Example.user Example.today daily)
                       (Screen.initial daily) ∅ Example.db0))
    = Some 5
  ∧ Screen.hydrated
      (Env.screen (run (Example.failing_at 2)
                       (@hydrate Example.host Example.user Example.today daily)
                       (Screen.initial daily) ∅ Example.db0))
    = true.
Proof.
  assert (Hhyp : signedIn Example.user = Some "u1"
   ∧ daily_logs_of "u1" Example.today (DB.daily_logs Example.db0)
     = [DailyLog.mk "L1" "u1" "2025-03-01" (Some 5) (Some "from the server") None]
   ∧ Exists (λ c, table c ≠ daily_logs ∧ failed c = true)
       (Env.calls (run (Example.failing_at 2)
                       (@hydrate Example.host Example.user Example.today daily)
                       (Screen.initial daily) ∅ Example.db0))).
  { split; [reflexivity|]. split; [vm_compute; reflexivity|].
    vm_compute. do 2 right. left. split; [intros Heq; discriminate Heq|reflexivity]. }
  split; [exact Hhyp|]. destruct Hhyp as (Huid & Hrow & Hfailed).
  assert (Hnone : (∅ : gmap string string) !! draftKey Example.user Example.today daily = None)
    by (vm_compute; reflexivity).
  assert (Hid : DailyLog.id (DailyLog.mk "L1" "u1" "2025-03-01" (Some 5)
                                         (Some "from the server") None) ≠ "")
    by (intros Heq; discriminate Heq).
  destruct (@hydrate_daily_child_failure_partial_form Example.host Example.user "u1"
              Example.today (Example.failing_at 2) (Screen.initial daily) ∅ Example.db0 _
              Huid eq_refl Hnone Hrow Hid eq_refl Hfailed) as (Hsev & _ & _ & Hhyd & _).
  split; [exact Hsev|exact Hhyd].
Defined.

(** X13 at a cache whose entry for (u1, today, daily) is not JSON. *)
Lemma hydrate_corrupt_draft_as_absent_witness :
  (({[ draftKey Example.user Example.today daily := "{" ]} : gmap string string)
     !! draftKey Example.user Example.today daily = Some "{"
   ∧ @JSON_parse Example.host "{" = None)
  ∧ Env.screen (run undisturbed (@hydrate Example.host Example.user Example.today daily)
                    (Screen.initial daily)
                    {[ draftKey Example.user Example.today daily := "{" ]} Example.db0)
    = Env.screen (run undisturbed (@hydrate Example.host Example.user Example.today daily)
                      (Screen.initial daily)
                      (delete (draftKey Example.user Example.today daily)
                              {[ draftKey Example.user Example.today daily := "{" ]})
                      Example.db0).
Proof.
  assert (Hhyp :
    ({[ draftKey Example.user Example.today daily := "{" ]} : gmap string string)
      !! draftKey Example.user Example.today daily = Some "{"
    ∧ @JSON_parse Example.host "{" = None)
    by (split; vm_compute; reflexivity).
  split; [exact Hhyp|]. destruct Hhyp as [Hraw Hparse].
  exact (proj1 (@hydrate_corrupt_draft_as_absent Example.host Example.user Example.today
                  daily undisturbed (Screen.initial daily) _ Example.db0 "{" Hraw
                  (or_intror Hparse))).
Defined.

(** X14 at an empty cache. *)
Lemma hydrate_moment_starts_blank_witness :
  signedIn Example.user = Some "u1"
  ∧ Env.calls (run undisturbed (@hydrate Example.host Example.user Example.today moment)
                   Example.form2 ∅ Example.db0)
    = [{| table := AsyncStorage; verb := Select; failed := false |}].
Proof.
  split; [reflexivity|].
  refine (proj2 (@hydrate_moment_starts_blank Example.host Example.user "u1" Example.today
                   undisturbed Example.form2 ∅ Example.db0 eq_refl eq_refl _)).
  vm_compute. reflexivity.
Defined.

(** X15 at a daily pass cancelled while it reads the cache, a draft being
    stored. *)
Lemma hydrate_cancelled_early_writes_witness :
  (signedIn Example.user = Some "u1"
   ∧ cancel_at (Example.cancelled_during 0) = Some 0%nat)
  ∧ List.filter (λ w : bool * Setter, w.1)
      (Env.sets (run (Example.cancelled_during 0)
                     (@hydrate Example.host Example.user Example.today daily)
                     Example.form0 Example.cache0 Example.db0))
    = [(true, setWhatDoing "")]
  ∧ Env.screen (run (Example.cancelled_during 0)
                    (@hydrate Example.host Example.user Example.today daily)
                    Example.form0 Example.cache0 Example.db0)
    = Screen.mk daily false false None [] ∅ "" [] ∅ false "" false.
Proof.
  split; [by split|].
  destruct (@hydrate_cancelled_early_writes Example.host Example.user "u1"
              Example.today daily (Example.cancelled_during 0) Example.form0 Example.cache0
              Example.db0 eq_refl (or_introl eq_refl)) as (Hsets & Hscreen & _).
  split; [exact Hsets|exact Hscreen].
Defined.

(** ** Cancel *)

Section Cancel.
Context `{Host}.

(** What [handleCancel] does, for a signed-in user: one write of the draft of
    the state its closure captured, then the navigation. *)
Lemma handleCancel_run (userId : option string) (uid today : string) (sch : Schedule)
    (s : Screen.t) (e : Env.t) :
  signedIn userId = Some uid →
  (exec sch (handleCancel userId today s) e).2
  = Env.mk (Env.screen e)
           (<[draftKey userId today (Screen.mode s) := JSON_stringify (draftOf s)]>
              (Env.storage e))
           (Env.db e) (Env.console e) (Env.alerts e)
           (Env.routes e ++ ["/(tabs)/dashboard"])
           (Env.calls e ++ [{| table := AsyncStorage; verb := Update; failed := false |}])
           (Env.sets e) (Env.renders e ++ [Env.screen e]).
Proof.
  intros Huid. unfold handleCancel, saveDraft. rewrite Huid. by destruct e as [? ? []].
Qed.

(** X16. Cancel keeps what was typed: it navigates to the dashboard and
    leaves the tables alone, and, when [JSON.parse] reads back what
    [JSON.stringify] wrote, the next uncancelled hydration of the same mode
    restores the overall severity, the selected conditions, their
    severities, the trigger values and the notes of the cancelled form, and
    for a quick log the activity. *)
Theorem cancel_then_reopen (userId : option string) (uid today : string)
    (sch1 sch2 : Schedule) (s s' : Screen.t) (storage : gmap string string) (db : DB.t) :
  signedIn userId = Some uid →
  cancel_at sch2 = None →
  JSON_stringify (draftOf s) ≠ "" →
  JSON_parse (JSON_stringify (draftOf s)) = Some (draftOf s) →
  Env.routes (run sch1 (handleCancel userId today s) s storage db) = ["/(tabs)/dashboard"]
  ∧ Env.db (run sch1 (handleCancel userId today s) s storage db) = db
  ∧ Env.screen
      (run sch2 (hydrate userId today (Screen.mode s)) s'
           (Env.storage (run sch1 (handleCancel userId today s) s storage db)) db)
    = Screen.mk (Screen.mode s') (Screen.loading s') (Screen.saved s')
        (Screen.overallSeverity s) (Screen.selectedConditions s)
        (Screen.conditionSeverities s)
        (match Screen.mode s with moment => Screen.whatDoing s | daily => "" end)
        (Screen.enabledTriggers s') (Screen.triggerValues s)
        (Screen.triggersLoading s') (Screen.notes s) true.
Proof.
  intros Huid Hcancel Hne Hparse. unfold run.
  rewrite (handleCancel_run _ uid) by done. cbn.
  split; [done|]. split; [done|].
  assert (Hc : ∀ n, cancelled_after sch2 n = false)
    by (intros n; unfold cancelled_after; by rewrite Hcancel).
  unfold hydrate, loadDraft. rewrite Huid. destruct s', db. cbn.
  rewrite lookup_insert_eq. cbn. rewrite (bool_decide_eq_false_2 _ Hne). cbn.
  rewrite Hparse. cbn. rewrite Hc. cbn. by destruct s as [[] ? ? ? ? ? ? ? ? ? ? ?].
Qed.

(** X17. Cancel pressed while the hydration pass still awaits the read of the
    draft cache stores the draft of the form as the pass has just reset it:
    the hydrated flag is unset at that point, and the entry under the draft
    key becomes the draft of a blank form, whatever was stored there. *)
Theorem cancel_during_hydration_blanks_draft (userId : option string)
    (uid today : string) (sch1 sch2 : Schedule) (s : Screen.t)
    (storage : gmap string string) (db : DB.t) :
  signedIn userId = Some uid →
  Screen.hydrated
    (Env.screen (suspended sch1 0 (hydrate userId today (Screen.mode s))
                           (Env.start s storage db)).2) = false
  ∧ Env.storage
      (exec sch2
         (handleCancel userId today
            (Env.screen (suspended sch1 0 (hydrate userId today (Screen.mode s))
                                   (Env.start s storage db)).2))
         (suspended sch1 0 (hydrate userId today (Screen.mode s))
                    (Env.start s storage db)).2).2
    = <[draftKey userId today (Screen.mode s) := JSON_stringify (draftOf (blank s))]> storage.
Proof.
  intros Huid. rewrite (handleCancel_run _ uid) by done.
  unfold hydrate, loadDraft. rewrite Huid. by destruct s, db.
Qed.

End Cancel.

(** X16 at the form [Example.form0], with a host that reads back its draft. *)
Lemma cancel_then_reopen_witness :
  (signedIn Example.user = Some "u1"
   ∧ @JSON_stringify Example2.host (@draftOf Example2.host Example.form0) ≠ ""
   ∧ @JSON_parse Example2.host
       (@JSON_stringify Example2.host (@draftOf Example2.host Example.form0))
     = Some (@draftOf Example2.host Example.form0))
  ∧ Env.screen
      (run undisturbed (@hydrate Example2.host Example.user Example.today daily)
           (Screen.initial daily)
           (Env.storage (run undisturbed
                             (@handleCancel Example2.host Example.user Example.today
                                            Example.form0)
                             Example.form0 ∅ Example.db0))
           Example.db0)
    = Screen.mk daily false false None ["migraine"; "fatigue"] {[ "migraine" := 6 ]} "" []
        (Screen.triggerValues Example.form0) false "typed today" true.
Proof.
  assert (Hhyp : signedIn Example.user = Some "u1"
   ∧ @JSON_stringify Example2.host (@draftOf Example2.host Example.form0) ≠ ""
   ∧ @JSON_parse Example2.host
       (@JSON_stringify Example2.host (@draftOf Example2.host Example.form0))
     = Some (@draftOf Example2.host Example.form0)).
  { split; [reflexivity|]. split; [|vm_compute; reflexivity].
    intros Heq. vm_compute in Heq. discriminate Heq. }
  split; [exact Hhyp|]. destruct Hhyp as (Huid & Hne & Hparse).
  exact (proj2 (proj2
    (@cancel_then_reopen Example2.host Example.user "u1" Example.today undisturbed
       undisturbed Example.form0 (Screen.initial daily) ∅ Example.db0
       Huid eq_refl Hne Hparse))).
Defined.

(** X17 at a cache that holds a draft for (u1, today, daily). *)
Lemma cancel_during_hydration_blanks_draft_witness :
  signedIn Example.user = Some "u1"
  ∧ Env.storage
      (exec undisturbed
         (@handleCancel Example.host Example.user Example.today
            (Env.screen
               (suspended undisturbed 0
                  (@hydrate Example.host Example.user Example.today daily)
                  (Env.start Example.form0 Example.cache0 Example.db0)).2))
         (suspended undisturbed 0
            (@hydrate Example.host Example.user Example.today daily)
            (Env.start Example.form0 Example.cache0 Example.db0)).2).2
    = <[draftKey Example.user Example.today daily
        := Example.stringify (@draftOf Example.host (blank Example.form0))]> Example.cache0.
Proof.
  split; [reflexivity|].
  exact (proj2 (@cancel_during_hydration_blanks_draft Example.host Example.user "u1"
                  Example.today undisturbed undisturbed Example.form0 Example.cache0
                  Example.db0 eq_refl)).
Defined.

(** ** Saving: the remaining paths *)

Lemma daily_logs_of_app (uid today : string) (l1 l2 : list DailyLog.t) :
  daily_logs_of uid today (l1 ++ l2) = daily_logs_of uid today l1 ++ daily_logs_of uid today l2.
Proof. apply List.filter_app. Qed.

Lemma severities_of_condition_rows (log_id : string) (s : Screen.t) (id : string) (v : Z) :
  severities_of (condition_rows log_id s) !! id = Some v
  ↔ id ∈ Screen.selectedConditions s ∧ Screen.conditionSeverities s !! id = Some v.
Proof.
  unfold severities_of, condition_rows.
  assert (Hgen : ∀ (sel : list string) (acc : gmap string Z),
    foldl (λ severities row,
             match ConditionRow.severity row with
             | Some v => <[ConditionRow.user_condition_id row := v]> severities
             | None => severities
             end) acc
          ((λ user_condition_id,
              ConditionRow.mk log_id user_condition_id
                              (Screen.conditionSeverities s !! user_condition_id)) <$> sel)
      !! id
    = if bool_decide (id ∈ sel)
      then match Screen.conditionSeverities s !! id with
           | Some v => Some v
           | None => acc !! id
           end
      else acc !! id).
  { induction sel as [|a sel IH]; intros acc.
    - case_bool_decide as Hin; [|done]. by apply elem_of_nil in Hin.
    - rewrite fmap_cons. cbn [foldl]. rewrite IH. cbn.
      destruct (decide (id = a)) as [->|Hne].
      + rewrite (bool_decide_eq_true_2 (_ ∈ _ :: _)) by left.
        destruct (Screen.conditionSeverities s !! a) eqn:Ha.
        * rewrite lookup_insert_eq. by case_bool_decide.
        * by case_bool_decide.
      + assert (Hiff : id ∈ a :: sel ↔ id ∈ sel) by (rewrite elem_of_cons; tauto).
        rewrite (bool_decide_ext _ _ Hiff).
        destruct (Screen.conditionSeverities s !! a) eqn:Ha; [|done].
        by rewrite lookup_insert_ne. }
  rewrite Hgen, lookup_empty. case_bool_decide as Hin.
  - destruct (Screen.conditionSeverities s !! id); split; try tauto; intros [? ?]; done.
  - split; [done|tauto].
Qed.

Lemma trigger_values_of_trigger_rows (log_id : string) (entries : list TriggerEntry.t)
    (id : string) (d : TriggerValue.t) :
  NoDup (TriggerEntry.trigger_id <$> entries) →
  trigger_values_of (trigger_rows log_id entries) !! id = Some d
  ↔ ∃ e, e ∈ entries ∧ TriggerEntry.trigger_id e = id
         ∧ d = TriggerValue.mk (TriggerEntry.value e) (TriggerEntry.value_text e).
Proof.
  unfold trigger_values_of, trigger_rows.
  induction entries as [|e es IH] using rev_ind; intros Hnd.
  - cbn. rewrite lookup_empty. split; [done|]. by intros (e & Hin%elem_of_nil & _).
  - rewrite fmap_app, foldl_app. cbn [fmap list_fmap foldl]. cbn.
    rewrite fmap_app in Hnd. apply NoDup_app in Hnd as (Hnd & Hfresh & _).
    destruct (decide (id = TriggerEntry.trigger_id e)) as [->|Hne].
    + rewrite lookup_insert_eq. split.
      * intros [= <-]. exists e. split; [apply elem_of_app; right; by left|done].
      * intros (e' & [Hin|Hin%list_elem_of_singleton]%elem_of_app & Hid & ->).
        -- exfalso. eapply Hfresh; [|by left]. rewrite <- Hid.
           by apply list_elem_of_fmap_2.
        -- by subst.
    + rewrite lookup_insert_ne by done. rewrite (IH Hnd). split.
      * intros (e' & Hin & Hrest). exists e'. split; [apply elem_of_app; by left|done].
      * intros (e' & [Hin|Hin%list_elem_of_singleton]%elem_of_app & Hid & ->).
        -- by exists e'.
        -- subst. done.
Qed.

Lemma generated_id_inj (n m : nat) : generated_id n = generated_id m → n = m.
Proof.
  unfold generated_id. intros Heq. injection Heq as Heq.
  apply pretty_N_inj in Heq. by apply Nat2N.inj in Heq.
Qed.

Section SavePaths.
Context `{Host}.

(** X18. A daily save keeps at most one row per user and day: if the tables
    hold at most one daily row for (user, today) before the save, they hold
    at most one afterwards, whatever fails; and when no call fails they
    hold exactly one, created if there was none, with the final overall
    severity and the notes of the form. *)
Theorem handleSave_daily_one_row (userId : option string) (uid today : string)
    (sch : Schedule) (s : Screen.t) (storage : gmap string string) (db : DB.t) :
  signedIn userId = Some uid →
  Screen.mode s = daily →
  (length (daily_logs_of uid today (DB.daily_logs db)) ≤ 1)%nat →
  (length (daily_logs_of uid today
             (DB.daily_logs (Env.db (run sch (handleSave userId today s) s storage db))))
   ≤ 1)%nat
  ∧ (Forall (λ c, failed c = false)
            (Env.calls (run sch (handleSave userId today s) s storage db)) →
     ∃ row,
       daily_logs_of uid today
         (DB.daily_logs (Env.db (run sch (handleSave userId today s) s storage db)))
       = [row]
       ∧ DailyLog.overall_severity row
         = finalOverallSeverity (Screen.overallSeverity s) (Screen.selectedConditions s)
                                (Screen.conditionSeverities s)
       ∧ DailyLog.notes row = or_null (Screen.notes s)).
Proof.
  intros Huid Hmode Hlen. unfold run.
  remember (exec sch (handleSave userId today s) (Env.start s storage db)) as r eqn:Hr.
  unfold handleSave, clearDraft, updateStreak in Hr. rewrite Huid, Hmode in Hr.
  destruct s as [mode loading saved sev sel csev doing trigs tv tl notes hyd],
           db as [dl dlc dlt ml mlc mlt us ut n].
  cbn in Hr, Hmode. cbn [DB.daily_logs] in Hlen. subst mode. cbn.
  destruct (daily_logs_of uid today dl) as [|existing [|? ?]] eqn:Hex;
    [| |cbn in Hlen; lia].
  all: pose proof Hex as Hex'; unfold daily_logs_of in Hex'.
  all: destruct (fault sch 0) as [err|] eqn:Hf0; cbn in Hr;
         [|rewrite Hex' in Hr; cbn in Hr];
         repeat run_step Hr; subst r; cbn.
  all: repeat match goal with
       | |- context [List.filter ?p (?f <$> ?l)] =>
           change (List.filter p (f <$> l)) with (daily_logs_of uid today (f <$> l));
           rewrite daily_logs_of_update
       | |- context [List.filter ?p (?l ++ ?l')] =>
           change (List.filter p (l ++ l')) with (daily_logs_of uid today (l ++ l'));
           rewrite daily_logs_of_app
       | |- context [List.filter ?p ?l] =>
           is_var l;
           change (List.filter p l) with (daily_logs_of uid today l)
       end.
  all: rewrite ?Hex.
  all: unfold daily_logs_of; cbn; rewrite ?bool_decide_eq_true_2 by done; cbn.
  all: unfold set_daily_log; rewrite ?bool_decide_eq_true_2 by done.
  all: split; [cbn; lia|].
  all: first [all_succeeded_absurd | intros _; eexists; split; [reflexivity|by split]].
Qed.

(** The three daily tables after a successful daily save against the row
    [existing]. *)
Lemma handleSave_daily_existing_db (userId : option string) (uid today : string)
    (sch : Schedule) (s : Screen.t) (storage : gmap string string) (db : DB.t)
    (existing : DailyLog.t) :
  signedIn userId = Some uid →
  Screen.mode s = daily →
  daily_logs_of uid today (DB.daily_logs db) = [existing] →
  Forall (λ c, failed c = false)
         (Env.calls (run sch (handleSave userId today s) s storage db)) →
  DB.daily_logs (Env.db (run sch (handleSave userId today s) s storage db))
  = set_daily_log (DailyLog.id existing)
      (finalOverallSeverity (Screen.overallSeverity s) (Screen.selectedConditions s)
                            (Screen.conditionSeverities s))
      (or_null (Screen.notes s)) Date_now_iso <$> DB.daily_logs db
  ∧ DB.daily_log_conditions (Env.db (run sch (handleSave userId today s) s storage db))
    = conditions_of_others (DailyLog.id existing) (DB.daily_log_conditions db)
      ++ condition_rows (DailyLog.id existing) s
  ∧ DB.daily_log_triggers (Env.db (run sch (handleSave userId today s) s storage db))
    = triggers_of_others (DailyLog.id existing) (DB.daily_log_triggers db)
      ++ trigger_rows (DailyLog.id existing) (triggerEntries (Screen.triggerValues s)).
Proof.
  intros Huid Hmode Hex. unfold run.
  remember (exec sch (handleSave userId today s) (Env.start s storage db)) as r eqn:Hr.
  unfold handleSave, clearDraft, updateStreak in Hr. rewrite Huid, Hmode in Hr.
  destruct s as [mode loading saved sev sel csev doing trigs tv tl notes hyd],
           db as [dl dlc dlt ml mlc mlt us ut n].
  unfold daily_logs_of in Hex. cbn in Hr, Hex, Hmode. subst mode. cbn.
  destruct (fault sch 0) as [err|] eqn:Hf0; cbn in Hr; [|rewrite Hex in Hr; cbn in Hr];
    repeat run_step Hr; subst r; cbn.
  all: first [all_succeeded_absurd | intros _].
  all: repeat match goal with
       | Hb : bool_decide (0 < length _)%nat = false |- _ =>
           apply no_length_nil in Hb; rewrite ?Hb
       end.
  all: unfold conditions_of_others, triggers_of_others.
  all: repeat split; try reflexivity.
  all: by rewrite app_nil_r.
Qed.

(** X19. A saved daily check-in is read back: after a successful daily
    save against today's row, an uncancelled hydration of the daily form
    shows the final overall severity of the save, the selected conditions in
    their order, the notes, the severities of the selected conditions and no
    others, and the trigger values that were not null, their text
    normalised by [|| null]. *)
Theorem save_then_hydrate_daily (userId : option string) (uid today : string)
    (sch1 sch2 : Schedule) (s s' : Screen.t) (storage : gmap string string) (db : DB.t)
    (existing : DailyLog.t) :
  signedIn userId = Some uid →
  Screen.mode s = daily →
  daily_logs_of uid today (DB.daily_logs db) = [existing] →
  DailyLog.id existing ≠ "" →
  cancel_at sch2 = None →
  Forall (λ c, failed c = false)
         (Env.calls (run sch1 (handleSave userId today s) s storage db)) →
  Forall (λ c, failed c = false)
         (Env.calls (run sch2 (hydrate userId today daily) s'
                         (Env.storage (run sch1 (handleSave userId today s) s storage db))
                         (Env.db (run sch1 (handleSave userId today s) s storage db)))) →
  Screen.overallSeverity
    (Env.screen (run sch2 (hydrate userId today daily) s'
                     (Env.storage (run sch1 (handleSave userId today s) s storage db))
                     (Env.db (run sch1 (handleSave userId today s) s storage db))))
  = finalOverallSeverity (Screen.overallSeverity s) (Screen.selectedConditions s)
                         (Screen.conditionSeverities s)
  ∧ Screen.selectedConditions
      (Env.screen (run sch2 (hydrate userId today daily) s'
                       (Env.storage (run sch1 (handleSave userId today s) s storage db))
                       (Env.db (run sch1 (handleSave userId today s) s storage db))))
    = Screen.selectedConditions s
  ∧ Screen.notes
      (Env.screen (run sch2 (hydrate userId today daily) s'
                       (Env.storage (run sch1 (handleSave userId today s) s storage db))
                       (Env.db (run sch1 (handleSave userId today s) s storage db))))
    = Screen.notes s
  ∧ Screen.hydrated
      (Env.screen (run sch2 (hydrate userId today daily) s'
                       (Env.storage (run sch1 (handleSave userId today s) s storage db))
                       (Env.db (run sch1 (handleSave userId today s) s storage db))))
    = true
  ∧ (∀ id v,
       Screen.conditionSeverities
         (Env.screen (run sch2 (hydrate userId today daily) s'
                          (Env.storage (run sch1 (handleSave userId today s) s storage db))
                          (Env.db (run sch1 (handleSave userId today s) s storage db))))
         !! id = Some v
       ↔ id ∈ Screen.selectedConditions s ∧ Screen.conditionSeverities s !! id = Some v)
  ∧ (∀ id d,
       Screen.triggerValues
         (Env.screen (run sch2 (hydrate userId today daily) s'
                          (Env.storage (run sch1 (handleSave userId today s) s storage db))
                          (Env.db (run sch1 (handleSave userId today s) s storage db))))
         !! id = Some d
       ↔ ∃ d0, Screen.triggerValues s !! id = Some d0
               ∧ TriggerValue.value d0 ≠ None
               ∧ d = TriggerValue.mk (TriggerValue.value d0)
                       (valueText_or_null (TriggerValue.valueText d0))).
Proof.
  intros Huid Hmode Hex Hid Hcancel Hok1 Hok2.
  destruct (handleSave_daily_existing_db userId uid today sch1 s storage db existing
              Huid Hmode Hex Hok1) as (Hdl & Hdlc & Hdlt).
  destruct (handleSave_outcome userId uid today sch1 s storage db Huid)
    as (_ & _ & Hsaved).
  destruct (Hsaved Hok1) as (_ & _ & Hgone & _). rewrite Hmode in Hgone.
  assert (Hrow : daily_logs_of uid today
                   (DB.daily_logs (Env.db (run sch1 (handleSave userId today s) s storage db)))
                 = [set_daily_log (DailyLog.id existing)
                      (finalOverallSeverity (Screen.overallSeverity s)
                         (Screen.selectedConditions s) (Screen.conditionSeverities s))
                      (or_null (Screen.notes s)) Date_now_iso existing]).
  { by rewrite Hdl, daily_logs_of_update, Hex. }
  unfold set_daily_log in Hrow. rewrite bool_decide_eq_true_2 in Hrow by done.
  destruct (hydrate_daily_row_exec userId uid today sch2 s' _ _ _
              Huid Hcancel Hgone Hrow Hid) as [Hfull _].
  destruct (Hfull Hok2) as [Hscreen _].
  rewrite Hscreen. cbn. rewrite Hdlc, Hdlt.
  unfold conditions_of, conditions_of_others, triggers_of, triggers_of_others.
  rewrite (filter_eq_after_insert ConditionRow.log_id)
    by apply condition_rows_log_id.
  rewrite (filter_eq_after_insert TriggerRow.log_id)
    by apply trigger_rows_log_id.
  split; [done|]. split.
  { unfold condition_rows. rewrite <- list_fmap_compose. apply list_fmap_id. }
  split.
  { unfold or_null. by case_bool_decide. }
  split; [done|]. split.
  - intros id v. apply severities_of_condition_rows.
  - intros id d. rewrite trigger_values_of_trigger_rows by apply NoDup_triggerEntries.
    split.
    + intros (e & (d0 & Hd0 & Hv & He1 & He2)%elem_of_triggerEntries & <- & ->).
      exists d0. by rewrite He1, He2.
    + intros (d0 & Hd0 & Hv & ->).
      exists (TriggerEntry.mk id (TriggerValue.value d0)
                (valueText_or_null (TriggerValue.valueText d0))).
      split; [|done]. apply elem_of_triggerEntries. by exists d0.
Qed.

(** X20. The replacement of the children of today's row is not atomic: when
    an insert of the daily save fails, the triggers stored for the row are
    already deleted and stay deleted, its conditions are deleted or already
    replaced, and the row itself is already updated, while the user sees
    "Save failed" and the draft and the form are kept for a retry. *)
Theorem handleSave_daily_failed_insert_loses_children (userId : option string)
    (uid today : string) (sch : Schedule) (s : Screen.t) (storage : gmap string string)
    (db : DB.t) (existing : DailyLog.t) :
  signedIn userId = Some uid →
  Screen.mode s = daily →
  daily_logs_of uid today (DB.daily_logs db) = [existing] →
  Exists (λ c, verb c = Insert ∧ failed c = true)
         (Env.calls (run sch (handleSave userId today s) s storage db)) →
  triggers_of (DailyLog.id existing)
    (DB.daily_log_triggers (Env.db (run sch (handleSave userId today s) s storage db)))
  = []
  ∧ (conditions_of (DailyLog.id existing)
       (DB.daily_log_conditions (Env.db (run sch (handleSave userId today s) s storage db)))
     = []
     ∨ conditions_of (DailyLog.id existing)
         (DB.daily_log_conditions
            (Env.db (run sch (handleSave userId today s) s storage db)))
       = condition_rows (DailyLog.id existing) s)
  ∧ daily_logs_of uid today
      (DB.daily_logs (Env.db (run sch (handleSave userId today s) s storage db)))
    = [set_daily_log (DailyLog.id existing)
         (finalOverallSeverity (Screen.overallSeverity s) (Screen.selectedConditions s)
                               (Screen.conditionSeverities s))
         (or_null (Screen.notes s)) Date_now_iso existing]
  ∧ Env.storage (run sch (handleSave userId today s) s storage db) = storage
  ∧ Env.screen (run sch (handleSave userId today s) s storage db)
    = apply_setter (setLoading false) s
  ∧ ∃ message, Env.alerts (run sch (handleSave userId today s) s storage db)
               = [("Save failed", message)].
Proof.
  intros Huid Hmode Hex. unfold run.
  remember (exec sch (handleSave userId today s) (Env.start s storage db)) as r eqn:Hr.
  unfold handleSave, clearDraft, updateStreak in Hr. rewrite Huid, Hmode in Hr.
  destruct s as [mode loading saved sev sel csev doing trigs tv tl notes hyd],
           db as [dl dlc dlt ml mlc mlt us ut n].
  pose proof Hex as Hex'. unfold daily_logs_of in Hex'.
  cbn in Hr, Hex', Hmode. cbn [DB.daily_logs] in Hex. subst mode. cbn.
  destruct (fault sch 0) as [err|] eqn:Hf0; cbn in Hr; [|rewrite Hex' in Hr; cbn in Hr];
    repeat run_step Hr; subst r; cbn.
  all: first [ intros Hins; exfalso;
               repeat (apply Exists_cons in Hins as [[Hv Hfl]|Hins];
                       [cbn in Hv, Hfl; congruence|]);
               by apply Exists_nil in Hins
             | intros _ ].
  all: repeat match goal with
       | |- context [List.filter ?p (?f <$> ?l)] =>
           change (List.filter p (f <$> l)) with (daily_logs_of uid today (f <$> l))
       end.
  all: rewrite daily_logs_of_update, Hex.
  all: split; [apply (filter_eq_after_delete TriggerRow.log_id)|].
  all: split; [first [ left; apply (filter_eq_after_delete ConditionRow.log_id)
                     | right; apply (filter_eq_after_insert ConditionRow.log_id),
                                    condition_rows_log_id ]|].
  all: repeat (split; [reflexivity|]); eauto.
Qed.

(** What a save of a quick log does to the tables, whatever fails. *)
Lemma handleSave_moment_tables (userId : option string) (uid today : string)
    (sch : Schedule) (s : Screen.t) (storage : gmap string string) (db : DB.t) :
  signedIn userId = Some uid →
  Screen.mode s = moment →
  DB.daily_logs (Env.db (run sch (handleSave userId today s) s storage db))
  = DB.daily_logs db
  ∧ DB.daily_log_conditions (Env.db (run sch (handleSave userId today s) s storage db))
    = DB.daily_log_conditions db
  ∧ DB.daily_log_triggers (Env.db (run sch (handleSave userId today s) s storage db))
    = DB.daily_log_triggers db
  ∧ (fault sch 0 ≠ None →
     Env.db (run sch (handleSave userId today s) s storage db) = db)
  ∧ (fault sch 0 = None →
     DB.moment_logs (Env.db (run sch (handleSave userId today s) s storage db))
     = DB.moment_logs db
       ++ [MomentLog.mk (generated_id (DB.generated db)) uid today
             (finalOverallSeverity (Screen.overallSeverity s) (Screen.selectedConditions s)
                                   (Screen.conditionSeverities s))
             (or_null (Screen.whatDoing s)) (or_null (Screen.notes s))]
     ∧ DB.generated (Env.db (run sch (handleSave userId today s) s storage db))
       = S (DB.generated db)
     ∧ DB.moment_log_conditions db
       `prefix_of` DB.moment_log_conditions
                     (Env.db (run sch (handleSave userId today s) s storage db))
     ∧ DB.moment_log_triggers db
       `prefix_of` DB.moment_log_triggers
                     (Env.db (run sch (handleSave userId today s) s storage db)))
  ∧ (Forall (λ c, failed c = false)
            (Env.calls (run sch (handleSave userId today s) s storage db)) →
     fault sch 0 = None
     ∧ DB.moment_log_conditions (Env.db (run sch (handleSave userId today s) s storage db))
       = DB.moment_log_conditions db
         ++ condition_rows (generated_id (DB.generated db)) s
     ∧ DB.moment_log_triggers (Env.db (run sch (handleSave userId today s) s storage db))
       = DB.moment_log_triggers db
         ++ trigger_rows (generated_id (DB.generated db))
                         (triggerEntries (Screen.triggerValues s)))
  ∧ (Exists (λ c, failed c = true)
            (Env.calls (run sch (handleSave userId today s) s storage db)) →
     Env.screen (run sch (handleSave userId today s) s storage db)
     = apply_setter (setLoading false) s
     ∧ Env.storage (run sch (handleSave userId today s) s storage db) = storage).
Proof.
  intros Huid Hmode. unfold run.
  remember (exec sch (handleSave userId today s) (Env.start s storage db)) as r eqn:Hr.
  unfold handleSave, clearDraft, updateStreak in Hr. rewrite Huid, Hmode in Hr.
  destruct s as [mode loading saved sev sel csev doing trigs tv tl notes hyd],
           db as [dl dlc dlt ml mlc mlt us ut n].
  cbn in Hr, Hmode. subst mode.
  repeat run_step Hr; subst r; cbn.
  all: repeat match goal with
       | E : bool_decide (0 < length ?l)%nat = false |- _ =>
           apply no_length_nil in E
       end.
  all: do 3 (split; [reflexivity|]).
  all: split; [first [intros _; reflexivity | intros Hn; exfalso; by apply Hn]|].
  all: split; [first [done
                     | intros _; do 2 (split; [reflexivity|]);
                       split; first [reflexivity | by apply prefix_app_r]]|].
  all: split; [first [all_succeeded_absurd
                     | intros _; split; [done|];
                       unfold condition_rows, trigger_rows; cbn [Screen.selectedConditions];
                       repeat match goal with E : _ = [] |- _ => rewrite E end;
                       cbn [fmap list_fmap]; rewrite ?app_nil_r; done]|].
  all: first [some_failed_absurd | intros _; done].
Qed.

(** X21. A save of a quick log only appends: it never touches the daily
    tables, and the three moment tables before the save are prefixes of the
    ones after it, whatever fails.  When no call fails, exactly one row is
    appended to [moment_logs], with a fresh id, the final overall severity,
    the activity and the notes of the form, together with one condition row
    per selected condition and one trigger row per entry of the write-set. *)
Theorem handleSave_moment_appends (userId : option string) (uid today : string)
    (sch : Schedule) (s : Screen.t) (storage : gmap string string) (db : DB.t) :
  signedIn userId = Some uid →
  Screen.mode s = moment →
  DB.daily_logs (Env.db (run sch (handleSave userId today s) s storage db))
  = DB.daily_logs db
  ∧ DB.daily_log_conditions (Env.db (run sch (handleSave userId today s) s storage db))
    = DB.daily_log_conditions db
  ∧ DB.daily_log_triggers (Env.db (run sch (handleSave userId today s) s storage db))
    = DB.daily_log_triggers db
  ∧ DB.moment_logs db
    `prefix_of` DB.moment_logs (Env.db (run sch (handleSave userId today s) s storage db))
  ∧ DB.moment_log_conditions db
    `prefix_of` DB.moment_log_conditions
                  (Env.db (run sch (handleSave userId today s) s storage db))
  ∧ DB.moment_log_triggers db
    `prefix_of` DB.moment_log_triggers
                  (Env.db (run sch (handleSave userId today s) s storage db))
  ∧ (Forall (λ c, failed c = false)
            (Env.calls (run sch (handleSave userId today s) s storage db)) →
     DB.moment_logs (Env.db (run sch (handleSave userId today s) s storage db))
     = DB.moment_logs db
       ++ [MomentLog.mk (generated_id (DB.generated db)) uid today
             (finalOverallSeverity (Screen.overallSeverity s) (Screen.selectedConditions s)
                                   (Screen.conditionSeverities s))
             (or_null (Screen.whatDoing s)) (or_null (Screen.notes s))]
     ∧ DB.moment_log_conditions (Env.db (run sch (handleSave userId today s) s storage db))
       = DB.moment_log_conditions db
         ++ condition_rows (generated_id (DB.generated db)) s
     ∧ DB.moment_log_triggers (Env.db (run sch (handleSave userId today s) s storage db))
       = DB.moment_log_triggers db
         ++ trigger_rows (generated_id (DB.generated db))
                         (triggerEntries (Screen.triggerValues s))).
Proof.
  intros Huid Hmode.
  destruct (handleSave_moment_tables userId uid today sch s storage db Huid Hmode)
    as (Hdl & Hdlc & Hdlt & Hrejected & Haccepted & Hok & _).
  do 3 (split; [done|]).
  destruct (fault sch 0) as [err|] eqn:Hf.
  - rewrite Hrejected by done. do 3 (split; [done|]).
    intros [? _]%Hok. done.
  - destruct (Haccepted eq_refl) as (Hml & _ & Hmlc & Hmlt).
    split; [rewrite Hml; by apply prefix_app_r|]. do 2 (split; [done|]).
    intros (_ & ? & ?)%Hok. done.
Qed.

(** X22. A retried quick log is stored twice: when the insert into
    [moment_logs] succeeded and a later call of the save failed, the row is
    not rolled back and the form is kept, so a second save of the same form
    that succeeds leaves two rows with different ids and the same user,
    date, severity, activity and notes. *)
Theorem handleSave_moment_retry_duplicates (userId : option string) (uid today : string)
    (sch1 sch2 : Schedule) (s : Screen.t) (storage : gmap string string) (db : DB.t) :
  signedIn userId = Some uid →
  Screen.mode s = moment →
  fault sch1 0 = None →
  Exists (λ c, failed c = true)
         (Env.calls (run sch1 (handleSave userId today s) s storage db)) →
  Forall (λ c, failed c = false)
         (Env.calls
            (run sch2
               (handleSave userId today
                  (Env.screen (run sch1 (handleSave userId today s) s storage db)))
               (Env.screen (run sch1 (handleSave userId today s) s storage db))
               (Env.storage (run sch1 (handleSave userId today s) s storage db))
               (Env.db (run sch1 (handleSave userId today s) s storage db)))) →
  ∃ first second,
    DB.moment_logs
      (Env.db
         (run sch2
            (handleSave userId today
               (Env.screen (run sch1 (handleSave userId today s) s storage db)))
            (Env.screen (run sch1 (handleSave userId today s) s storage db))
            (Env.storage (run sch1 (handleSave userId today s) s storage db))
            (Env.db (run sch1 (handleSave userId today s) s storage db))))
    = DB.moment_logs db ++ [first; second]
    ∧ MomentLog.id first ≠ MomentLog.id second
    ∧ MomentLog.user_id first = MomentLog.user_id second
    ∧ MomentLog.date first = MomentLog.date second
    ∧ MomentLog.overall_severity first = MomentLog.overall_severity second
    ∧ MomentLog.activity first = MomentLog.activity second
    ∧ MomentLog.notes first = MomentLog.notes second.
Proof.
  intros Huid Hmode Hf Hfailed Hok2.
  destruct (handleSave_moment_tables userId uid today sch1 s storage db Huid Hmode)
    as (_ & _ & _ & _ & Haccepted & _ & Hkept).
  destruct (Haccepted Hf) as (Hml & Hn & _). destruct (Hkept Hfailed) as [Hs Hst].
  clear Haccepted Hkept.
  revert Hok2. rewrite Hs, Hst. intros Hok2.
  assert (Screen.mode (apply_setter (setLoading false) s) = moment) as Hmode'
    by (by destruct s).
  destruct (handleSave_moment_tables userId uid today sch2 _ storage
              (Env.db (run sch1 (handleSave userId today s) s storage db)) Huid Hmode')
    as (_ & _ & _ & _ & Haccepted & Hsecond & _).
  destruct (Hsecond Hok2) as (Hf2 & _). destruct (Haccepted Hf2) as (Hml2 & _).
  rewrite Hml2, Hml, Hn, <- app_assoc.
  eexists _, _. split; [reflexivity|]. cbn.
  split; [|by destruct s].
  intros Heq%generated_id_inj. lia.
Qed.

End SavePaths.

(** X18 at the tables [Example.db0], which hold one row for (u1, today). *)
Lemma handleSave_daily_one_row_witness :
  (signedIn Example.user = Some "u1"
   ∧ Screen.mode Example.form0 = daily
   ∧ (length (daily_logs_of "u1" Example.today (DB.daily_logs Example.db0)) ≤ 1)%nat)
  ∧ (length (daily_logs_of "u1" Example.today
               (DB.daily_logs
                  (Env.db (run (Example.failing_at 4)
                               (@handleSave Example.host Example.user Example.today
                                            Example.form0)
                               Example.form0 Example.cache0 Example.db0)))) ≤ 1)%nat.
Proof.
  assert (Hhyp : signedIn Example.user = Some "u1"
   ∧ Screen.mode Example.form0 = daily
   ∧ (length (daily_logs_of "u1" Example.today (DB.daily_logs Example.db0)) ≤ 1)%nat).
  { split; [reflexivity|]. split; [reflexivity|]. vm_compute. lia. }
  split; [exact Hhyp|]. destruct Hhyp as (Huid & Hmode & Hlen).
  exact (proj1 (@handleSave_daily_one_row Example.host Example.user "u1" Example.today
                  (Example.failing_at 4) Example.form0 Example.cache0 Example.db0
                  Huid Hmode Hlen)).
Defined.

(** X19 at the form [Example.form0] and the tables [Example.db0]. *)
Lemma save_then_hydrate_daily_witness :
  (signedIn Example.user = Some "u1"
   ∧ daily_logs_of "u1" Example.today (DB.daily_logs Example.db0)
     = [DailyLog.mk "L1" "u1" "2025-03-01" (Some 5) (Some "from the server") None]
   ∧ Forall (λ c, failed c = false) (Env.calls Example.saved0)
   ∧ Forall (λ c, failed c = false)
       (Env.calls (run undisturbed (@hydrate Example.host Example.user Example.today daily)
                       (Screen.initial daily)
                       (Env.storage Example.saved0) (Env.db Example.saved0))))
  ∧ Screen.overallSeverity
      (Env.screen (run undisturbed (@hydrate Example.host Example.user Example.today daily)
                       (Screen.initial daily)
                       (Env.storage Example.saved0) (Env.db Example.saved0)))
    = Some 3
  ∧ Screen.selectedConditions
      (Env.screen (run undisturbed (@hydrate Example.host Example.user Example.today daily)
                       (Screen.initial daily)
                       (Env.storage Example.saved0) (Env.db Example.saved0)))
    = ["migraine"; "fatigue"].
Proof.
  assert (Hhyp : signedIn Example.user = Some "u1"
   ∧ daily_logs_of "u1" Example.today (DB.daily_logs Example.db0)
     = [DailyLog.mk "L1" "u1" "2025-03-01" (Some 5) (Some "from the server") None]
   ∧ Forall (λ c, failed c = false) (Env.calls Example.saved0)
   ∧ Forall (λ c, failed c = false)
       (Env.calls (run undisturbed (@hydrate Example.host Example.user Example.today daily)
                       (Screen.initial daily)
                       (Env.storage Example.saved0) (Env.db Example.saved0)))).
  { split; [reflexivity|]. split; [vm_compute; reflexivity|].
    split; vm_compute; repeat constructor. }
  split; [exact Hhyp|]. destruct Hhyp as (Huid & Hrow & Hok1 & Hok2).
  assert (Hid : DailyLog.id (DailyLog.mk "L1" "u1" "2025-03-01" (Some 5)
                                         (Some "from the server") None) ≠ "")
    by (intros Heq; discriminate Heq).
  destruct (@save_then_hydrate_daily Example.host Example.user "u1" Example.today
              undisturbed undisturbed Example.form0 (Screen.initial daily) Example.cache0
              Example.db0 _ Huid eq_refl Hrow Hid eq_refl Hok1 Hok2)
    as (Hsev & Hsel & _).
  split; [exact Hsev|exact Hsel].
Defined.

(** X20 at the save of [Example.form0] when the insert of its triggers (the
    call numbered 5) fails: the trigger stress stored for the row is lost. *)
Lemma handleSave_daily_failed_insert_loses_children_witness :
  (signedIn Example.user = Some "u1"
   ∧ daily_logs_of "u1" Example.today (DB.daily_logs Example.db0)
     = [DailyLog.mk "L1" "u1" "2025-03-01" (Some 5) (Some "from the server") None]
   ∧ triggers_of "L1" (DB.daily_log_triggers Example.db0)
     = [TriggerRow.mk "L1" "stress" (Some 1) (Some "Yes")]
   ∧ Exists (λ c, verb c = Insert ∧ failed c = true)
       (Env.calls (run (Example.failing_at 5)
                       (@handleSave Example.host Example.user Example.today Example.form0)
                       Example.form0 Example.cache0 Example.db0)))
  ∧ triggers_of "L1"
      (DB.daily_log_triggers
         (Env.db (run (Example.failing_at 5)
                      (@handleSave Example.host Example.user Example.today Example.form0)
                      Example.form0 Example.cache0 Example.db0)))
    = []
  ∧ Env.storage (run (Example.failing_at 5)
                     (@handleSave Example.host Example.user Example.today Example.form0)
                     Example.form0 Example.cache0 Example.db0)
    = Example.cache0.
Proof.
  assert (Hhyp : signedIn Example.user = Some "u1"
   ∧ daily_logs_of "u1" Example.today (DB.daily_logs Example.db0)
     = [DailyLog.mk "L1" "u1" "2025-03-01" (Some 5) (Some "from the server") None]
   ∧ triggers_of "L1" (DB.daily_log_triggers Example.db0)
     = [TriggerRow.mk "L1" "stress" (Some 1) (Some "Yes")]
   ∧ Exists (λ c, verb c = Insert ∧ failed c = true)
       (Env.calls (run (Example.failing_at 5)
                       (@handleSave Example.host Example.user Example.today Example.form0)
                       Example.form0 Example.cache0 Example.db0))).
  { split; [reflexivity|]. split; [vm_compute; reflexivity|].
    split; [vm_compute; reflexivity|].
    vm_compute. do 5 right. left. split; reflexivity. }
  split; [exact Hhyp|]. destruct Hhyp as (Huid & Hrow & _ & Hfailed).
  destruct (@handleSave_daily_failed_insert_loses_children Example.host Example.user "u1"
              Example.today (Example.failing_at 5) Example.form0 Example.cache0
              Example.db0 _ Huid eq_refl Hrow Hfailed) as (Hgone & _ & _ & Hstorage & _).
  split; [exact Hgone|exact Hstorage].
Defined.

(** X21 at the quick log [Example.form2]. *)
Lemma handleSave_moment_appends_witness :
  (signedIn Example.user = Some "u1" ∧ Screen.mode Example.form2 = moment)
  ∧ DB.daily_logs
      (Env.db (run undisturbed
                   (@handleSave Example.host Example.user Example.today Example.form2)
                   Example.form2 Example.cache1 Example.db0))
    = DB.daily_logs Example.db0.
Proof.
  split; [by split|].
  exact (proj1 (@handleSave_moment_appends Example.host Example.user "u1" Example.today
                  undisturbed Example.form2 Example.cache1 Example.db0 eq_refl eq_refl)).
Defined.

(** X22 at the quick log [Example.form2], whose first save fails at the
    streak update (the call numbered 3) and whose second save succeeds. *)
Lemma handleSave_moment_retry_duplicates_witness :
  (signedIn Example.user = Some "u1"
   ∧ Screen.mode Example.form2 = moment
   ∧ fault (Example.failing_at 3) 0 = None
   ∧ Exists (λ c, failed c = true) (Env.calls Example.moment_streak_failed)
   ∧ Forall (λ c, failed c = false)
       (Env.calls
          (run undisturbed
             (@handleSave Example.host Example.user Example.today
                (Env.screen Example.moment_streak_failed))
             (Env.screen Example.moment_streak_failed)
             (Env.storage Example.moment_streak_failed)
             (Env.db Example.moment_streak_failed))))
  ∧ length
      (DB.moment_logs
         (Env.db
            (run undisturbed
               (@handleSave Example.host Example.user Example.today
                  (Env.screen Example.moment_streak_failed))
               (Env.screen Example.moment_streak_failed)
               (Env.storage Example.moment_streak_failed)
               (Env.db Example.moment_streak_failed))))
    = 2%nat.
Proof.
  assert (Hhyp : signedIn Example.user = Some "u1"
   ∧ Screen.mode Example.form2 = moment
   ∧ fault (Example.failing_at 3) 0 = None
   ∧ Exists (λ c, failed c = true) (Env.calls Example.moment_streak_failed)
   ∧ Forall (λ c, failed c = false)
       (Env.calls
          (run undisturbed
             (@handleSave Example.host Example.user Example.today
                (Env.screen Example.moment_streak_failed))
             (Env.screen Example.moment_streak_failed)
             (Env.storage Example.moment_streak_failed)
             (Env.db Example.moment_streak_failed)))).
  { split; [reflexivity|]. split; [reflexivity|]. split; [vm_compute; reflexivity|].
    split; [vm_compute; do 3 right; left; reflexivity|vm_compute; repeat constructor]. }
  split; [exact Hhyp|]. destruct Hhyp as (Huid & Hmode & Hfirst & Hfailed & Hok).
  destruct (@handleSave_moment_retry_duplicates Example.host Example.user "u1"
              Example.today (Example.failing_at 3) undisturbed Example.form2 Example.cache1
              Example.db0 Huid Hmode Hfirst Hfailed Hok) as (r1 & r2 & Hrows & _).
  unfold Example.moment_streak_failed. rewrite Hrows. reflexivity.
Defined.

(** ** The streak *)

Section Streak.
Context `{Host}.

Lemma users_of_update (id : string) (c l : Z) (d : string) (us : list User.t) :
  users_of id (set_user id c l d <$> us) = set_user id c l d <$> users_of id us.
Proof.
  apply List_filter_fmap. intros u. unfold set_user.
  destruct (decide (User.id u = id)) as [E|E].
  - by rewrite !(bool_decide_eq_true_2 _ E).
  - by rewrite !(bool_decide_eq_false_2 _ E).
Qed.

Lemma others_update (id : string) (c l : Z) (d : string) (us : list User.t) :
  List.filter (λ u, bool_decide (User.id u ≠ id)) (set_user id c l d <$> us)
  = List.filter (λ u, bool_decide (User.id u ≠ id)) us.
Proof.
  induction us as [|u us IH]; [done|].
  rewrite fmap_cons. cbn [List.filter]. rewrite IH.
  unfold set_user. destruct (decide (User.id u = id)) as [E|E].
  - rewrite (bool_decide_eq_true_2 _ E). cbn [User.id].
    by rewrite (bool_decide_eq_false_2 (User.id u ≠ id)) by naive_solver.
  - by rewrite (bool_decide_eq_false_2 _ E).
Qed.

Lemma set_user_twice (id : string) (c l : Z) (d : string) (u : User.t) :
  set_user id c l d (set_user id c l d u) = set_user id c l d u.
Proof.
  unfold set_user. destruct (decide (User.id u = id)) as [E|E].
  - rewrite (bool_decide_eq_true_2 _ E). cbn [User.id].
    by rewrite (bool_decide_eq_true_2 _ E).
  - by rewrite !(bool_decide_eq_false_2 _ E).
Qed.

Lemma ids_update (id : string) (c l : Z) (d : string) (us : list User.t) :
  User.id <$> (set_user id c l d <$> us) = User.id <$> us.
Proof.
  rewrite <- list_fmap_compose. apply list_fmap_ext. intros _ u _. cbn.
  unfold set_user. by case_bool_decide.
Qed.

(** What a run of [updateStreak] in which no call fails has done to the
    tables. *)
Lemma updateStreak_run (uid : string) (logDate : option string)
    (sch : Schedule) (s : Screen.t) (storage : gmap string string) (db : DB.t) :
  Forall (λ c, failed c = false)
         (Env.calls (run sch (updateStreak uid logDate) s storage db)) →
  ∃ user,
    maybeSingle (users_of uid (DB.users db)) = Data user
    ∧ Env.db (run sch (updateStreak uid logDate) s storage db)
      = DB.mk (DB.daily_logs db) (DB.daily_log_conditions db) (DB.daily_log_triggers db)
              (DB.moment_logs db) (DB.moment_log_conditions db)
              (DB.moment_log_triggers db)
              (set_user uid (newStreaks user (dateToUse logDate)).1
                        (newStreaks user (dateToUse logDate)).2 (dateToUse logDate)
               <$> DB.users db)
              (DB.user_triggers db) (DB.generated db).
Proof.
  unfold run.
  remember (exec sch (updateStreak uid logDate) (Env.start s storage db)) as r eqn:Hr.
  unfold updateStreak in Hr. destruct s, db as [dl dlc dlt ml mlc mlt us ut n].
  cbn in Hr. unfold users_of. cbn [DB.users].
  destruct (fault sch 0) eqn:Hf0; cbn in Hr;
    [subst r; cbn; all_succeeded_absurd|].
  destruct (List.filter (λ u, bool_decide (User.id u = uid)) us) as [|u [|? ?]] eqn:Hus;
    cbn in Hr.
  3: subst r; cbn; all_succeeded_absurd.
  all: destruct (fault sch 1) eqn:Hf1; cbn in Hr; subst r; cbn;
         [all_succeeded_absurd|]; intros _; eexists; split; reflexivity.
Qed.

(** X23. The streak update touches nothing but the [users] row of its user:
    the check-in tables, the trigger settings, the draft cache and the form
    are left as they were, the ids in [users] stay the same, the rows of
    the other users are unchanged, and when one of its calls fails the
    tables are unchanged altogether. *)
Theorem updateStreak_touches_only_the_user (uid : string) (logDate : option string)
    (sch : Schedule) (s : Screen.t) (storage : gmap string string) (db : DB.t) :
  check_in_tables (Env.db (run sch (updateStreak uid logDate) s storage db))
  = check_in_tables db
  ∧ DB.user_triggers (Env.db (run sch (updateStreak uid logDate) s storage db))
    = DB.user_triggers db
  ∧ Env.storage (run sch (updateStreak uid logDate) s storage db) = storage
  ∧ Env.screen (run sch (updateStreak uid logDate) s storage db) = s
  ∧ User.id <$> DB.users (Env.db (run sch (updateStreak uid logDate) s storage db))
    = User.id <$> DB.users db
  ∧ List.filter (λ u, bool_decide (User.id u ≠ uid))
                (DB.users (Env.db (run sch (updateStreak uid logDate) s storage db)))
    = List.filter (λ u, bool_decide (User.id u ≠ uid)) (DB.users db)
  ∧ (Exists (λ c, failed c = true)
            (Env.calls (run sch (updateStreak uid logDate) s storage db)) →
     Env.db (run sch (updateStreak uid logDate) s storage db) = db).
Proof.
  unfold run.
  remember (exec sch (updateStreak uid logDate) (Env.start s storage db)) as r eqn:Hr.
  unfold updateStreak in Hr. destruct s, db as [dl dlc dlt ml mlc mlt us ut n].
  cbn in Hr. repeat run_step Hr; subst r; cbn [snd Env.db Env.storage Env.screen Env.calls
    DB.users DB.user_triggers check_in_tables DB.daily_logs DB.daily_log_conditions
    DB.daily_log_triggers DB.moment_logs DB.moment_log_conditions DB.moment_log_triggers].
  all: rewrite ?ids_update, ?others_update.
  all: repeat (split; [reflexivity|]).
  all: first [some_failed_absurd | intros _; reflexivity].
Qed.

(** X24. When the streak update succeeds for a user whose stored current
    streak is not negative, the row afterwards carries the date of the log, a
    current streak of at least 1 that has grown by at most one, and a
    longest streak that is at least the current one, that has not decreased,
    and that is either the current streak or the longest one stored
    before. *)
Theorem updateStreak_streak_bounds (uid : string) (logDate : option string) (u : User.t)
    (sch : Schedule) (s : Screen.t) (storage : gmap string string) (db : DB.t) :
  users_of uid (DB.users db) = [u] →
  0 ≤ default 0 (User.current_streak u) →
  Forall (λ c, failed c = false)
         (Env.calls (run sch (updateStreak uid logDate) s storage db)) →
  ∃ current longest,
    users_of uid (DB.users (Env.db (run sch (updateStreak uid logDate) s storage db)))
    = [User.mk (User.id u) (Some current) (Some longest) (Some (dateToUse logDate))]
    ∧ 1 ≤ current ≤ default 0 (User.current_streak u) + 1
    ∧ current ≤ longest
    ∧ default 0 (User.longest_streak u) ≤ longest
    ∧ (longest = current ∨ longest = default 0 (User.longest_streak u)).
Proof.
  intros Hu Hc Hok. destruct (updateStreak_run _ _ _ _ _ _ Hok) as (user & Hsel & ->).
  rewrite Hu in Hsel. injection Hsel as <-.
  cbn [DB.users]. rewrite users_of_update, Hu. cbn [fmap list_fmap].
  assert (User.id u = uid) as Hid.
  { assert (u ∈ users_of uid (DB.users db)) as Hin by (rewrite Hu; left).
    apply list_elem_of_In, List.filter_In in Hin as [_ Hin].
    by apply bool_decide_eq_true in Hin. }
  unfold set_user. rewrite bool_decide_eq_true_2 by done.
  eexists _, _. split; [reflexivity|].
  unfold newStreaks. cbn [fst snd from_option].
  destruct (valueText_or_null (User.last_log_date u)) as [last|]; [|lia].
  destruct (Date_day_before last _); [lia|].
  destruct (Date_same_day last _); cbn [negb]; [|lia]. case_bool_decide; lia.
Qed.

(** X25. A second check-in on the same day does not advance the streak: when
    the day of the log compares as the same day as itself and not as the day
    before itself, the stored current streak is not negative and both updates
    succeed, the second update leaves the tables exactly as the first one
    left them. *)
Theorem updateStreak_same_day_idempotent (uid : string) (logDate : option string)
    (sch1 sch2 : Schedule) (s : Screen.t) (storage : gmap string string) (db : DB.t) :
  dateToUse logDate ≠ "" →
  Date_same_day (dateToUse logDate) (dateToUse logDate) = true →
  Date_day_before (dateToUse logDate) (dateToUse logDate) = false →
  (∀ u, u ∈ users_of uid (DB.users db) → 0 ≤ default 0 (User.current_streak u)) →
  Forall (λ c, failed c = false)
         (Env.calls (run sch1 (updateStreak uid logDate) s storage db)) →
  Forall (λ c, failed c = false)
         (Env.calls (run sch2 (updateStreak uid logDate) s storage
                         (Env.db (run sch1 (updateStreak uid logDate) s storage db)))) →
  Env.db (run sch2 (updateStreak uid logDate) s storage
              (Env.db (run sch1 (updateStreak uid logDate) s storage db)))
  = Env.db (run sch1 (updateStreak uid logDate) s storage db).
Proof.
  intros Hd Hsame Hbefore Hc Hok1 Hok2.
  destruct (updateStreak_run _ _ _ _ _ _ Hok2) as (user2 & Hsel2 & ->).
  destruct (updateStreak_run _ _ _ _ _ _ Hok1) as (user1 & Hsel1 & Hdb1).
  rewrite Hdb1 in Hsel2 |- *. clear Hdb1 Hok1 Hok2.
  assert (1 ≤ (newStreaks user1 (dateToUse logDate)).1
          ≤ (newStreaks user1 (dateToUse logDate)).2
          ∨ users_of uid (DB.users db) = []) as Hb.
  { destruct (users_of uid (DB.users db)) as [|u [|? ?]] eqn:Hu; [by right| |done].
    left. specialize (Hc u ltac:(left)).
    assert (user1 = Some u) as -> by (cbn in Hsel1; congruence).
    unfold newStreaks. cbn [fst snd from_option].
    destruct (valueText_or_null (User.last_log_date u)) as [last|]; [|lia].
    destruct (Date_day_before last _); [lia|].
    destruct (Date_same_day last _); cbn [negb]; [|lia]. case_bool_decide; lia. }
  destruct (newStreaks user1 (dateToUse logDate)) as [c l] eqn:Hn.
  cbn [fst snd DB.users DB.daily_logs DB.daily_log_conditions
    DB.daily_log_triggers DB.moment_logs DB.moment_log_conditions DB.moment_log_triggers
    DB.user_triggers DB.generated] in Hsel2, Hb |- *.
  f_equal. rewrite users_of_update in Hsel2.
  rewrite <- list_fmap_compose.
  destruct (users_of uid (DB.users db)) as [|u [|? ?]] eqn:Hu; [| |done].
  - (* no row for the user: the update matches no row, both times *)
    apply list_fmap_ext. intros _ u Hin%list_elem_of_lookup_2. cbn.
    assert (User.id u ≠ uid) as Hne.
    { intros E. assert (u ∈ users_of uid (DB.users db)) as Hin'; [|by rewrite Hu in Hin'; apply elem_of_nil in Hin'].
      apply list_elem_of_In, List.filter_In. split; [by apply list_elem_of_In|].
      by apply bool_decide_eq_true. }
    unfold set_user. by rewrite !(bool_decide_eq_false_2 _ Hne).
  - destruct Hb as [Hb|?]; [|done].
    assert (user1 = Some u) as -> by (cbn in Hsel1; congruence).
    assert (User.id u = uid) as Hid.
    { assert (u ∈ users_of uid (DB.users db)) as Hin by (rewrite Hu; left).
      apply list_elem_of_In, List.filter_In in Hin as [_ Hin].
      by apply bool_decide_eq_true in Hin. }
    assert (user2 = Some (set_user uid c l (dateToUse logDate) u)) as ->
      by (cbn in Hsel2; congruence).
    assert (newStreaks (Some (set_user uid c l (dateToUse logDate) u)) (dateToUse logDate)
            = (c, l)) as ->.
    { unfold set_user. rewrite (bool_decide_eq_true_2 _ Hid).
      unfold newStreaks. cbn [from_option User.last_log_date User.current_streak
        User.longest_streak default].
      unfold valueText_or_null. cbn [mbind option_bind]. unfold or_null.
      rewrite (bool_decide_eq_false_2 _ Hd). cbn [negb].
      rewrite Hbefore, Hsame. cbn.
      rewrite bool_decide_eq_false_2 by lia.
      f_equal. lia. }
    apply list_fmap_ext. intros _ u' _. cbn. apply set_user_twice.
Qed.

End Streak.

(** X24 at the tables [Example.db0]: u1 logged yesterday with a streak of 2
    and a longest streak of 4. *)
Lemma updateStreak_streak_bounds_witness :
  (users_of "u1" (DB.users Example.db0)
   = [User.mk "u1" (Some 2) (Some 4) (Some "2025-02-28")]
   ∧ Forall (λ c, failed c = false)
       (Env.calls (run undisturbed (@updateStreak Example.host "u1" None) Example.form0
                       ∅ Example.db0)))
  ∧ users_of "u1"
      (DB.users (Env.db (run undisturbed (@updateStreak Example.host "u1" None)
                             Example.form0 ∅ Example.db0)))
    = [User.mk "u1" (Some 3) (Some 4) (Some "2025-03-01")].
Proof.
  assert (Hhyp : users_of "u1" (DB.users Example.db0)
   = [User.mk "u1" (Some 2) (Some 4) (Some "2025-02-28")]
   ∧ Forall (λ c, failed c = false)
       (Env.calls (run undisturbed (@updateStreak Example.host "u1" None) Example.form0
                       ∅ Example.db0))).
  { split; [vm_compute; reflexivity|vm_compute; repeat constructor]. }
  split; [exact Hhyp|]. destruct Hhyp as (Hu & Hok).
  assert (Hc : 0 ≤ default 0 (User.current_streak
                                (User.mk "u1" (Some 2) (Some 4) (Some "2025-02-28"))))
    by (cbn; lia).
  destruct (@updateStreak_streak_bounds Example.host "u1" None _ undisturbed Example.form0
              ∅ Example.db0 Hu Hc Hok) as (current & longest & Hrow & _).
  vm_compute. reflexivity.
Defined.

(** X25 at the tables [Example.db0]. *)
Lemma updateStreak_same_day_idempotent_witness :
  (@dateToUse Example.host None ≠ ""
   ∧ @Date_same_day Example.host (@dateToUse Example.host None) (@dateToUse Example.host None)
     = true
   ∧ @Date_day_before Example.host (@dateToUse Example.host None)
       (@dateToUse Example.host None) = false
   ∧ Forall (λ c, failed c = false)
       (Env.calls (run undisturbed (@updateStreak Example.host "u1" None) Example.form0
                       ∅ Example.db0))
   ∧ Forall (λ c, failed c = false)
       (Env.calls (run undisturbed (@updateStreak Example.host "u1" None) Example.form0 ∅
                       (Env.db (run undisturbed (@updateStreak Example.host "u1" None)
                                    Example.form0 ∅ Example.db0)))))
  ∧ Env.db (run undisturbed (@updateStreak Example.host "u1" None) Example.form0 ∅
                (Env.db (run undisturbed (@updateStreak Example.host "u1" None)
                             Example.form0 ∅ Example.db0)))
    = Env.db (run undisturbed (@updateStreak Example.host "u1" None) Example.form0 ∅
                  Example.db0).
Proof.
  assert (Hhyp : @dateToUse Example.host None ≠ ""
   ∧ @Date_same_day Example.host (@dateToUse Example.host None) (@dateToUse Example.host None)
     = true
   ∧ @Date_day_before Example.host (@dateToUse Example.host None)
       (@dateToUse Example.host None) = false
   ∧ Forall (λ c, failed c = false)
       (Env.calls (run undisturbed (@updateStreak Example.host "u1" None) Example.form0
                       ∅ Example.db0))
   ∧ Forall (λ c, failed c = false)
       (Env.calls (run undisturbed (@updateStreak Example.host "u1" None) Example.form0 ∅
                       (Env.db (run undisturbed (@updateStreak Example.host "u1" None)
                                    Example.form0 ∅ Example.db0))))).
  { split; [intros Heq; vm_compute in Heq; discriminate Heq|].
    split; [vm_compute; reflexivity|]. split; [vm_compute; reflexivity|].
    split; vm_compute; repeat constructor. }
  split; [exact Hhyp|]. destruct Hhyp as (Hd & Hsame & Hbefore & Hok1 & Hok2).
  refine (@updateStreak_same_day_idempotent Example.host "u1" None undisturbed undisturbed
            Example.form0 ∅ Example.db0 Hd Hsame Hbefore _ Hok1 Hok2).
  intros u Hu.
  assert (Hrows : users_of "u1" (DB.users Example.db0)
                  = [User.mk "u1" (Some 2) (Some 4) (Some "2025-02-28")])
    by (vm_compute; reflexivity).
  rewrite Hrows in Hu. apply list_elem_of_singleton in Hu as ->. cbn. lia.
Defined.

(** ** The enabled triggers: a failed load *)

Section TriggerLoad.
Context `{Host}.

(** X26. A load of the enabled triggers never leaves the spinner on and never
    alerts: the loading flag is unset at its end whether the select succeeded
    or not, and the draft cache and the tables are untouched.  When the select
    fails, the list of enabled triggers and the trigger values of the form
    are left as they were and the error is logged to the console. *)
Theorem loadEnabledTriggers_failure_keeps_form (userId : option string) (uid : string)
    (sch : Schedule) (s : Screen.t) (storage : gmap string string) (db : DB.t) :
  signedIn userId = Some uid →
  Screen.triggersLoading
    (Env.screen (run sch (loadEnabledTriggers userId) s storage db)) = false
  ∧ Env.alerts (run sch (loadEnabledTriggers userId) s storage db) = []
  ∧ Env.storage (run sch (loadEnabledTriggers userId) s storage db) = storage
  ∧ Env.db (run sch (loadEnabledTriggers userId) s storage db) = db
  ∧ (Exists (λ c, failed c = true)
            (Env.calls (run sch (loadEnabledTriggers userId) s storage db)) →
     Env.screen (run sch (loadEnabledTriggers userId) s storage db)
     = apply_setter (setTriggersLoading false) s
     ∧ ∃ e, Env.console (run sch (loadEnabledTriggers userId) s storage db)
            = ["Error loading enabled triggers: " +:+ e]).
Proof.
  intros Huid. unfold run.
  remember (exec sch (loadEnabledTriggers userId) (Env.start s storage db)) as r eqn:Hr.
  unfold loadEnabledTriggers in Hr. rewrite Huid in Hr.
  destruct s, db. cbn in Hr. repeat run_step Hr; subst r; cbn.
  all: do 4 (split; [reflexivity|]).
  all: first [some_failed_absurd | intros _; split; [reflexivity|by eexists]].
Qed.

End TriggerLoad.

(** X26 at a load that the store rejects. *)
Lemma loadEnabledTriggers_failure_keeps_form_witness :
  signedIn Example.user = Some "u1"
  ∧ Screen.triggersLoading
      (Env.screen (run (Example.failing_at 0) (loadEnabledTriggers Example.user)
                       Example.form3 ∅ Example.db0))
    = false.
Proof.
  split; [reflexivity|].
  exact (proj1 (loadEnabledTriggers_failure_keeps_form Example.user "u1"
                  (Example.failing_at 0) Example.form3 ∅ Example.db0 eq_refl)).
Defined.
